(** * WhatsApp message scheduler: a model of [server.js] and its properties

    The development embeds the scheduling and delivery code of the backend
    ([server.js]) and proves the properties its design document states about
    it.  The embedding follows the source function by function:

    - message objects live in a heap ([objs]) and the array
      [scheduledMessages] holds references to them, so that a mutation made
      through one reference is seen through every other one;
    - everything the host provides (the chat client, the clock, the id
      generator, the timers, the local time zone, the date parser) is an
      interface, [Host], over an abstract world that every call threads;
    - an [async] function is a state transformer that may be rejected; the
      calls it makes to the client and to the timers are appended to a log;
    - a date is the instant it denotes, in milliseconds since the epoch
      (what [toISOString] prints and [new Date(iso)] reads back); the
      calendar functions are those of ECMA-262, in local time.

    Embedded: [formatPhoneNumber], [sendWhatsAppMessage],
    [scheduleNextRepeat], the two scheduled jobs, the routes of the API (the
    health check apart, which answers a constant), the handlers of the
    events [qr], [ready], [auth_failure] and [disconnected] of the client,
    and the heartbeat.  The store and the flag [isConnected] make the state
    on which the delivery engine and the routes of the messages run
    ([state]); the handlers of the connection run on that state and the
    variables [currentQR] and [connectedPhone] ([backend]).  Left out: what
    goes to the console (the handlers of [authenticated] and [change_state]
    do nothing else), the start of the HTTP server and the handlers of the
    signals.

    Assumptions: the fields of a request body and the messages of errors are
    strings; every awaited call settles; one invocation runs without another
    handler of the server stepping in between two of its steps, and a
    callback handed to a timer or to a promise that nothing awaits runs where
    it is handed over; instants stay within the range of [Date] (8.64e15 ms
    either side of the epoch), so that [toISOString] only throws on a date
    that did not parse. *)

From Stdlib Require Import ZArith String Ascii List Lia Bool.
From stdpp Require Import gmap strings list pretty sorting.

Local Open Scope string_scope.
Local Open Scope list_scope.
Local Open Scope Z_scope.

(** ** Strings as JavaScript reads them *)

Module JsString.

(** A character of the class [[0-9]]. *)
Definition is_digit (c : ascii) : bool :=
  let n := nat_of_ascii c in (48 <=? n)%nat && (n <=? 57)%nat.

Definition is_plus (c : ascii) : bool := Ascii.eqb c "+"%char.

(** A character of the class [[0-9+]]. *)
Definition is_phone_char (c : ascii) : bool := is_digit c || is_plus c.

(** [s.replace(/[^0-9+]/g, '')]: every character outside [[0-9+]] is
    dropped. *)
Fixpoint strip_non_phone (s : string) : string :=
  match s with
  | EmptyString => EmptyString
  | String c r =>
      if is_phone_char c
      then String c (strip_non_phone r)
      else strip_non_phone r
  end.

(** [s.startsWith(p)]. *)
Fixpoint startsWith (p s : string) : bool :=
  match p, s with
  | EmptyString, _ => true
  | String a p', String b s' => Ascii.eqb b a && startsWith p' s'
  | String _ _, EmptyString => false
  end.

(** [s.substring(1)]. *)
Definition substring1 (s : string) : string :=
  match s with
  | EmptyString => EmptyString
  | String _ r => r
  end.

(** [s.includes(p)]. *)
Fixpoint includes (p s : string) : bool :=
  startsWith p s ||
  match s with
  | EmptyString => false
  | String _ r => includes p r
  end.

(** A string used as a condition: only the empty one is falsy. *)
Definition truthy (s : string) : bool :=
  match s with EmptyString => false | _ => true end.

(** [a || b] on strings. *)
Definition or_else (a b : string) : string := if truthy a then a else b.

Fixpoint all_chars (p : ascii -> bool) (s : string) : bool :=
  match s with
  | EmptyString => true
  | String c r => p c && all_chars p r
  end.

Definition no_plus (s : string) : bool := all_chars (fun c => negb (is_plus c)) s.

(** The only [+] of [s], if it has one, comes before every digit: past the
    first digit or [+] there is no [+]. *)
Fixpoint plus_only_in_front (s : string) : bool :=
  match s with
  | EmptyString => true
  | String c r => if is_phone_char c then no_plus r else plus_only_in_front r
  end.

End JsString.

Import JsString.

(** ** [formatPhoneNumber] *)

Definition formatPhoneNumber (phone : string) : string :=
  let cleaned := strip_non_phone phone in
  let cleaned := if startsWith "+" cleaned then substring1 cleaned else cleaned in
  cleaned +:+ "@c.us".

(** ** The chat id, in the words of its description

    What the comments of [formatPhoneNumber] say it makes of a phone number,
    written on the list of the characters of the input and without the
    string functions above: the characters other than the ten digits and
    [+] are dropped, then one [+] at the head. *)

Module ChatId.

Definition alphabet : list ascii := list_ascii_of_string "0123456789+".

Definition digits : list ascii := list_ascii_of_string "0123456789".

Definition among (cs : list ascii) (c : ascii) : bool :=
  existsb (Ascii.eqb c) cs.

Definition kept (phone : string) : list ascii :=
  List.filter (among alphabet) (list_ascii_of_string phone).

Definition without_leading_plus (cs : list ascii) : list ascii :=
  match cs with
  | c :: rest => if Ascii.eqb c "+" then rest else cs
  | [] => []
  end.

Definition local_part (phone : string) : string :=
  string_of_list_ascii (without_leading_plus (kept phone)).

End ChatId.

(** ** Dates

    The time arithmetic of ECMA-262 (section "Date Objects"), on instants in
    milliseconds since the epoch.  [YearFromTime] is the one function that the
    standard specifies by a property (the largest year starting at or before
    the instant); here it is computed from the mean length of a year and
    adjusted by one, and [YearFromTime_spec] below shows that it meets the
    property. *)

Module JsDate.

Definition msPerDay : Z := 86400000.

Definition Day (t : Z) : Z := t / msPerDay.
Definition TimeWithinDay (t : Z) : Z := t mod msPerDay.

Definition DaysInYear (y : Z) : Z :=
  if negb (y mod 4 =? 0) then 365
  else if negb (y mod 100 =? 0) then 366
  else if negb (y mod 400 =? 0) then 365
  else 366.

Definition DayFromYear (y : Z) : Z :=
  365 * (y - 1970) + (y - 1969) / 4 - (y - 1901) / 100 + (y - 1601) / 400.

Definition TimeFromYear (y : Z) : Z := msPerDay * DayFromYear y.

Definition YearFromTime (t : Z) : Z :=
  let d := Day t in
  let y := 1970 + (400 * d) / 146097 in
  if d <? DayFromYear y then y - 1
  else if DayFromYear (y + 1) <=? d then y + 1
  else y.

Definition InLeapYear (t : Z) : Z :=
  if DaysInYear (YearFromTime t) =? 366 then 1 else 0.

Definition DayWithinYear (t : Z) : Z := Day t - DayFromYear (YearFromTime t).

(** The day of the year on which month [m] (0 = January) starts, [leap]
    being 1 in a leap year and 0 otherwise: the thresholds of the
    standard's table for [MonthFromTime]. *)
Definition monthStart (m leap : Z) : Z :=
  match m with
  | 0 => 0
  | 1 => 31
  | 2 => 59 + leap
  | 3 => 90 + leap
  | 4 => 120 + leap
  | 5 => 151 + leap
  | 6 => 181 + leap
  | 7 => 212 + leap
  | 8 => 243 + leap
  | 9 => 273 + leap
  | 10 => 304 + leap
  | _ => 334 + leap
  end.

Definition MonthFromTime (t : Z) : Z :=
  let d := DayWithinYear t in
  let leap := InLeapYear t in
  if d <? 31 then 0
  else if d <? 59 + leap then 1
  else if d <? 90 + leap then 2
  else if d <? 120 + leap then 3
  else if d <? 151 + leap then 4
  else if d <? 181 + leap then 5
  else if d <? 212 + leap then 6
  else if d <? 243 + leap then 7
  else if d <? 273 + leap then 8
  else if d <? 304 + leap then 9
  else if d <? 334 + leap then 10
  else 11.

Definition DateFromTime (t : Z) : Z :=
  DayWithinYear t - monthStart (MonthFromTime t) (InLeapYear t) + 1.

(** [MakeDay(year, month, date)]: the day number of the first of the month,
    months beyond December carrying into the year, plus [date - 1]. *)
Definition MakeDay (year month date : Z) : Z :=
  let ym := year + month / 12 in
  let mn := month mod 12 in
  let leap := if DaysInYear ym =? 366 then 1 else 0 in
  DayFromYear ym + monthStart mn leap + date - 1.

Definition MakeDate (day time : Z) : Z := day * msPerDay + time.

Section LocalZone.

(** [LocalTZA(t, isUTC)]: the offset of the host's time zone, in
    milliseconds, at the UTC instant [t] when [isUTC] and at the local
    time [t] otherwise. *)
Variable LocalTZA : Z -> bool -> Z.

Definition LocalTime (t : Z) : Z := t + LocalTZA t true.
Definition UTC (t : Z) : Z := t - LocalTZA t false.

(** [Date.prototype.getDate], [setDate], [getMonth], [setMonth]; a setter
    returns the new time value of the date object. *)
Definition getDate (tv : Z) : Z := DateFromTime (LocalTime tv).

Definition setDate (tv dt : Z) : Z :=
  let t := LocalTime tv in
  let newDate :=
    MakeDate (MakeDay (YearFromTime t) (MonthFromTime t) dt) (TimeWithinDay t) in
  UTC newDate.

Definition getMonth (tv : Z) : Z := MonthFromTime (LocalTime tv).

Definition setMonth (tv m : Z) : Z :=
  let t := LocalTime tv in
  let newDate :=
    MakeDate (MakeDay (YearFromTime t) m (DateFromTime t)) (TimeWithinDay t) in
  UTC newDate.

End LocalZone.

End JsDate.

Import JsDate.

(** ** Message records *)

(** The [status] of a record is only ever written by the server, with one of
    three literals. *)
Inductive Status := pending | sent | failed.

#[global] Instance Status_eq_dec : EqDecision Status.
Proof. solve_decision. Defined.

(** A record of [scheduledMessages].  [recipient], [message] and [repeat] hold
    what the caller sent ([repeat] is not checked against the kinds the
    scheduler knows); a field that the object does not have yet is [None]. *)
Module Msg.

Record t := mk {
  id : string;
  recipient : string;
  message : string;
  scheduledTime : Z;
  repeat : string;
  status : Status;
  createdAt : Z;
  updatedAt : option Z;
  sentAt : option Z;
  error : option string;
  parentId : option string
}.

Definition set_recipient (v : string) (m : t) : t :=
  mk (id m) v (message m) (scheduledTime m) (repeat m) (status m)
     (createdAt m) (updatedAt m) (sentAt m) (error m) (parentId m).
Definition set_message (v : string) (m : t) : t :=
  mk (id m) (recipient m) v (scheduledTime m) (repeat m) (status m)
     (createdAt m) (updatedAt m) (sentAt m) (error m) (parentId m).
Definition set_scheduledTime (v : Z) (m : t) : t :=
  mk (id m) (recipient m) (message m) v (repeat m) (status m)
     (createdAt m) (updatedAt m) (sentAt m) (error m) (parentId m).
Definition set_repeat (v : string) (m : t) : t :=
  mk (id m) (recipient m) (message m) (scheduledTime m) v (status m)
     (createdAt m) (updatedAt m) (sentAt m) (error m) (parentId m).
Definition set_status (v : Status) (m : t) : t :=
  mk (id m) (recipient m) (message m) (scheduledTime m) (repeat m) v
     (createdAt m) (updatedAt m) (sentAt m) (error m) (parentId m).
Definition set_updatedAt (v : Z) (m : t) : t :=
  mk (id m) (recipient m) (message m) (scheduledTime m) (repeat m) (status m)
     (createdAt m) (Some v) (sentAt m) (error m) (parentId m).
Definition set_sentAt (v : Z) (m : t) : t :=
  mk (id m) (recipient m) (message m) (scheduledTime m) (repeat m) (status m)
     (createdAt m) (updatedAt m) (Some v) (error m) (parentId m).
Definition set_error (v : string) (m : t) : t :=
  mk (id m) (recipient m) (message m) (scheduledTime m) (repeat m) (status m)
     (createdAt m) (updatedAt m) (sentAt m) (Some v) (parentId m).

(** What a dangling reference would read; no reference of the program
    dangles. *)
Definition blank : t :=
  mk "" "" "" 0 "" pending 0 None None None None.

End Msg.

#[global] Instance Msg_inhabited : Inhabited Msg.t := populate Msg.blank.

(** A reference to a message object. *)
Definition loc := nat.

(** ** The host *)

(** How an awaited call settles. *)
Inductive outcome (A : Type) : Type :=
| Resolved (a : A)
| Rejected (message : string).
Arguments Resolved {A} a.
Arguments Rejected {A} message.

(** What the server gets from its platform, over a world [W] that every call
    may change: the whatsapp-web.js client (a rejection carries the message of
    the error; [getState] resolves to the state token, printed as a string),
    the clock behind [new Date()], the date parser behind [new Date(string)]
    ([None] is an invalid date), the local time zone, the id generator and the
    timer, on which a delay of [ms] milliseconds elapses. *)
Class Host (W : Type) := {
  client_getState : W -> outcome string * W;
  client_sendMessage : string -> string -> W -> outcome unit * W;
  client_destroy : W -> outcome unit * W;
  client_initialize : W -> outcome unit * W;
  Date_now : W -> Z * W;
  Date_parse : string -> option Z;
  LocalTZA : Z -> bool -> Z;
  uuidv4 : W -> string * W;
  setTimeout : Z -> W -> W
}.

(** The calls to the client and to the timer, as the log keeps them. *)
Inductive event :=
| EGetState
| ESendMessage (chatId body : string)
| EDestroy
| EInitialize
| ESleep (ms : Z).

(** ** The state of the server *)

Record state (W : Type) := mkState {
  objs : gmap loc Msg.t;
  scheduledMessages : list loc;
  isConnected : bool;
  world : W;
  log : list event
}.
Arguments mkState {W}.
Arguments objs {W}.
Arguments scheduledMessages {W}.
Arguments isConnected {W}.
Arguments world {W}.
Arguments log {W}.

(** Every reference of the array is to an object. *)
Definition well_formed {W} (s : state W) : Prop :=
  forall l, l ∈ scheduledMessages s -> is_Some (objs s !! l).

(** A record that the scheduler takes at the instant [t]. *)
Definition due (t : Z) (m : Msg.t) : Prop :=
  Msg.status m = pending /\ Msg.scheduledTime m <= t.

(** The delays in a log, in order. *)
Definition delays (evs : list event) : list Z :=
  omap (fun e => match e with ESleep ms => Some ms | _ => None end) evs.

(** The calls to the client in a log. *)
Definition is_client_call (e : event) : bool :=
  match e with ESleep _ => false | _ => true end.

Definition client_calls (evs : list event) : list event :=
  List.filter is_client_call evs.

(** ** Asynchronous code

    A computation runs on the state of the server and either completes with a
    value or is rejected with the message of the error thrown. *)

Section Server.

Context {W : Type} `{Host W}.

Definition M (A : Type) : Type := state W -> outcome A * state W.

Definition ret {A} (a : A) : M A := fun s => (Resolved a, s).

Definition bind {A B} (m : M A) (k : A -> M B) : M B :=
  fun s =>
    match m s with
    | (Resolved a, s') => k a s'
    | (Rejected e, s') => (Rejected e, s')
    end.

(** [throw new Error(e)]. *)
Definition throw {A} (e : string) : M A := fun s => (Rejected e, s).

(** [try { m } catch (error) { h error }]. *)
Definition try_catch {A} (m : M A) (h : string -> M A) : M A :=
  fun s =>
    match m s with
    | (Resolved a, s') => (Resolved a, s')
    | (Rejected e, s') => h e s'
    end.

Notation "'let*' x ':=' m 'in' k" := (bind m (fun x => k))
  (at level 10, x name, m at level 100, k at level 200, only parsing).
Notation "m ';;' k" := (bind m (fun _ => k))
  (at level 100, k at level 200, right associativity, only parsing).

(** The state in which a computation leaves the server. *)
Definition after {A} (c : M A) (s : state W) : state W := snd (c s).

(** *** Primitive steps *)

Definition with_world (s : state W) (w : W) : state W :=
  mkState (objs s) (scheduledMessages s) (isConnected s) w (log s).

Definition with_event (s : state W) (w : W) (e : event) : state W :=
  mkState (objs s) (scheduledMessages s) (isConnected s) w (log s ++ [e]).

(** [await client.getState()] and the other calls of the client. *)
Definition getState : M string :=
  fun s => let (r, w) := client_getState (world s) in (r, with_event s w EGetState).

Definition sendMessage (chatId body : string) : M unit :=
  fun s =>
    let (r, w) := client_sendMessage chatId body (world s) in
    (r, with_event s w (ESendMessage chatId body)).

Definition destroy : M unit :=
  fun s => let (r, w) := client_destroy (world s) in (r, with_event s w EDestroy).

Definition initialize : M unit :=
  fun s => let (r, w) := client_initialize (world s) in (r, with_event s w EInitialize).

(** [await new Promise(resolve => setTimeout(resolve, ms))]. *)
Definition sleep (ms : Z) : M unit :=
  fun s => (Resolved tt, with_event s (setTimeout ms (world s)) (ESleep ms)).

(** [new Date()]. *)
Definition now : M Z :=
  fun s => let (t, w) := Date_now (world s) in (Resolved t, with_world s w).

(** [uuidv4()]. *)
Definition uuid : M string :=
  fun s => let (i, w) := uuidv4 (world s) in (Resolved i, with_world s w).

(** [date.toISOString()], which throws on an invalid date. *)
Definition toISOString (date : option Z) : M Z :=
  match date with
  | Some t => ret t
  | None => throw "Invalid time value"
  end.

Definition get_isConnected : M bool := fun s => (Resolved (isConnected s), s).

Definition set_isConnected (b : bool) : M unit :=
  fun s => (Resolved tt, mkState (objs s) (scheduledMessages s) b (world s) (log s)).

(** Reading the object behind a reference, and assigning to its fields. *)
Definition read (l : loc) : M Msg.t := fun s => (Resolved (objs s !!! l), s).

Definition update (l : loc) (f : Msg.t -> Msg.t) : M unit :=
  fun s =>
    (Resolved tt,
     mkState (alter f l (objs s)) (scheduledMessages s) (isConnected s) (world s) (log s)).

(** An object literal: a new object, at a reference not in use. *)
Definition alloc (m : Msg.t) : M loc :=
  fun s =>
    let l := fresh (dom (objs s)) in
    (Resolved l,
     mkState (<[l := m]> (objs s)) (scheduledMessages s) (isConnected s) (world s) (log s)).

Definition get_scheduledMessages : M (list loc) :=
  fun s => (Resolved (scheduledMessages s), s).

Definition set_scheduledMessages (ls : list loc) : M unit :=
  fun s => (Resolved tt, mkState (objs s) ls (isConnected s) (world s) (log s)).

(** [scheduledMessages.push(l)]. *)
Definition push (l : loc) : M unit :=
  let* ls := get_scheduledMessages in set_scheduledMessages (ls ++ [l]).

(** *** The recurrence expander *)

(** The [switch] of [scheduleNextRepeat] on a copy of the scheduled date:
    the next date, or [None] where the function returns early. *)
Definition nextOccurrence (repeat : string) (scheduledTime : Z) : option Z :=
  let nextTime := scheduledTime in
  if String.eqb repeat "daily" then
    Some (setDate LocalTZA nextTime (getDate LocalTZA nextTime + 1))
  else if String.eqb repeat "weekly" then
    Some (setDate LocalTZA nextTime (getDate LocalTZA nextTime + 7))
  else if String.eqb repeat "monthly" then
    Some (setMonth LocalTZA nextTime (getMonth LocalTZA nextTime + 1))
  else None.

(** The kinds of repetition that the [switch] knows. *)
Definition repeating (repeat : string) : Prop :=
  repeat = "daily" \/ repeat = "weekly" \/ repeat = "monthly".

Definition scheduleNextRepeat (msgData : loc) : M unit :=
  let* m := read msgData in
  match nextOccurrence (Msg.repeat m) (Msg.scheduledTime m) with
  | None => ret tt
  | Some nextTime =>
      let* newId := uuid in
      let* created := now in
      let* newMessage :=
        alloc (Msg.mk newId (Msg.recipient m) (Msg.message m) nextTime
                 (Msg.repeat m) pending created None None None (Some (Msg.id m))) in
      push newMessage
  end.

(** *** The delivery engine *)

Definition maxRetries : Z := 3.

(** The end of the [try] block, once the message has gone out. *)
Definition mark_sent (msgData : loc) : M bool :=
  update msgData (Msg.set_status sent);;
  let* t := now in
  update msgData (Msg.set_sentAt t);;
  let* m := read msgData in
  (if truthy (Msg.repeat m) && negb (String.eqb (Msg.repeat m) "none")
   then scheduleNextRepeat msgData
   else ret tt);;
  ret true.

(** The [try] block of one attempt; it completes with the value that the
    function returns. *)
Definition attempt (msgData : loc) : M bool :=
  let* st := getState in
  if negb (String.eqb st "CONNECTED") then
    throw ("Client state is " +:+ st +:+ ", not CONNECTED")
  else
    let* m := read msgData in
    let chatId := formatPhoneNumber (Msg.recipient m) in
    sendMessage chatId (Msg.message m);;
    mark_sent msgData.

(** The calls that one attempt on the record [m] makes to the client: it
    asks for the state, and sends the message if the state allows. *)
Definition attempt_calls (m : Msg.t) (calls : list event) : Prop :=
  calls = [EGetState] \/
  calls = [EGetState;
           ESendMessage (formatPhoneNumber (Msg.recipient m)) (Msg.message m)].

(** An error that the [catch] block takes for a dead session. *)
Definition is_session_error (message : string) : bool :=
  includes "Session closed" message || includes "Protocol error" message.

(** The [catch] block of attempt number [n]. *)
Definition recover (n : Z) (message : string) : M unit :=
  if is_session_error message then
    set_isConnected false;;
    try_catch destroy (fun _ => ret tt);;
    sleep 5000;;
    try_catch (initialize;; sleep 10000) (fun _ => ret tt)
  else
    sleep (2000 * n).

(** [lastError?.message || 'Unknown error']. *)
Definition error_text (lastError : option string) : string :=
  match lastError with
  | Some message => or_else message "Unknown error"
  | None => "Unknown error"
  end.

(** What is left of the function after the loop: all attempts failed. *)
Definition all_failed (lastError : option string) (msgData : loc) : M bool :=
  update msgData (Msg.set_status failed);;
  update msgData (Msg.set_error (error_text lastError));;
  ret false.

(** The [for] loop with [remaining] iterations to go, the next one being
    attempt number [n]. *)
Fixpoint retry (remaining : nat) (n : Z) (lastError : option string)
    (msgData : loc) : M bool :=
  match remaining with
  | O => all_failed lastError msgData
  | S remaining' =>
      try_catch (attempt msgData)
        (fun message =>
           recover n message;;
           retry remaining' (n + 1) (Some message) msgData)
  end.

Definition sendWhatsAppMessage (msgData : loc) : M bool :=
  let* connected := get_isConnected in
  if negb connected then
    update msgData (Msg.set_status failed);;
    update msgData (Msg.set_error "WhatsApp not connected");;
    ret false
  else
    retry (Z.to_nat maxRetries) 1 None msgData.

(** *** The API *)

(** The fields of a JSON request body that the handlers read.  A handler
    only tests a field for truthiness before using it, so a field that is
    absent is the empty string here. *)
Record Body := mkBody {
  body_recipient : string;
  body_message : string;
  body_scheduledTime : string;
  body_repeat : string
}.

(** What a handler answers: [res.status(code).json({success: false, error})],
    [res.json({success: true, message: record})] or
    [res.json({success: true, message: text})].  A handler that throws is
    rejected, and Express answers 500. *)
Inductive Response :=
| Failure (code : Z) (error : string)
| Scheduled (record : Msg.t)
| Success (text : string).

(** [date <= now], which is false on an invalid date. *)
Definition date_le (date : option Z) (t : Z) : bool :=
  match date with
  | Some d => d <=? t
  | None => false
  end.

(** [app.post('/api/schedule')]. *)
Definition post_schedule (body : Body) : M Response :=
  let recipient := body_recipient body in
  let message := body_message body in
  let scheduledTime := body_scheduledTime body in
  let repeat := body_repeat body in
  if negb (truthy recipient) || negb (truthy message) || negb (truthy scheduledTime) then
    ret (Failure 400 "Missing required fields: recipient, message, scheduledTime")
  else
    let cleanPhone := strip_non_phone recipient in
    if Z.of_nat (String.length cleanPhone) <? 10 then
      ret (Failure 400 "Invalid phone number format")
    else
      let scheduleDate := Date_parse scheduledTime in
      let* t := now in
      if date_le scheduleDate t then
        ret (Failure 400 "Scheduled time must be in the future")
      else
        let* newId := uuid in
        let* iso := toISOString scheduleDate in
        let* created := now in
        let* newMessage :=
          alloc (Msg.mk newId
                   (if startsWith "+" cleanPhone then cleanPhone else "+" +:+ cleanPhone)
                   message iso (or_else repeat "none") pending created
                   None None None None) in
        push newMessage;;
        let* m := read newMessage in
        ret (Scheduled m).

(** [scheduledMessages.findIndex(m => m.id === id)], with the element
    found. *)
Definition findIndex (id : string) : M (option (nat * loc)) :=
  fun s =>
    (Resolved (list_find (fun l => Msg.id (objs s !!! l) = id) (scheduledMessages s)),
     s).

(** [if (v) existing.field = v]. *)
Definition assign_if (v : string) (existing : loc) (set : string -> Msg.t -> Msg.t) : M unit :=
  if truthy v then update existing (set v) else ret tt.

(** [app.put('/api/messages/:id')]. *)
Definition put_message (id : string) (body : Body) : M Response :=
  let* index := findIndex id in
  match index with
  | None => ret (Failure 404 "Message not found")
  | Some (_, existing) =>
      let* m := read existing in
      if negb (bool_decide (Msg.status m = pending)) then
        ret (Failure 400 "Can only edit pending messages")
      else
        assign_if (body_recipient body) existing Msg.set_recipient;;
        assign_if (body_message body) existing Msg.set_message;;
        (if truthy (body_scheduledTime body) then
           let* iso := toISOString (Date_parse (body_scheduledTime body)) in
           update existing (Msg.set_scheduledTime iso)
         else ret tt);;
        assign_if (body_repeat body) existing Msg.set_repeat;;
        let* t := now in
        update existing (Msg.set_updatedAt t);;
        let* m := read existing in
        ret (Scheduled m)
  end.

(** [app.delete('/api/messages/:id')]; [splice(index, 1)] takes the
    reference out of the array. *)
Definition delete_message (id : string) : M Response :=
  let* index := findIndex id in
  match index with
  | None => ret (Failure 404 "Message not found")
  | Some (i, _) =>
      let* ls := get_scheduledMessages in
      set_scheduledMessages (delete i ls);;
      ret (Success "Message cancelled successfully")
  end.

(** *** The scheduler *)

(** [scheduledMessages.filter(p)], [p] reading the objects. *)
Definition filter_messages (p : Msg.t -> bool) : M (list loc) :=
  fun s => (Resolved (List.filter (fun l => p (objs s !!! l)) (scheduledMessages s)), s).

(** The loop [for (const msg of pendingMessages) await sendWhatsAppMessage(msg)]. *)
Fixpoint send_all (msgs : list loc) : M unit :=
  match msgs with
  | [] => ret tt
  | msg :: rest => sendWhatsAppMessage msg;; send_all rest
  end.

(** The job that runs every minute. *)
Definition dispatch : M unit :=
  let* t := now in
  let* pendingMessages :=
    filter_messages
      (fun m => bool_decide (Msg.status m = pending) && (Msg.scheduledTime m <=? t)) in
  send_all pendingMessages.

(** The job that runs every day at midnight. *)
Definition cleanup : M unit :=
  let* t := now in
  let sevenDaysAgo := setDate LocalTZA t (getDate LocalTZA t - 7) in
  let* kept :=
    filter_messages
      (fun m => bool_decide (Msg.status m = pending) || (sevenDaysAgo <? Msg.createdAt m)) in
  set_scheduledMessages kept.

End Server.

(** ** Arrays as JavaScript sorts and cuts them *)

Module JsArray.

Section Sort.

Context {A : Type} (compare : A -> A -> Z).

(** [x] goes in front of the first element that need not come before it. *)
Fixpoint insert_sorted (x : A) (l : list A) : list A :=
  match l with
  | [] => [x]
  | y :: rest =>
      if compare x y <=? 0 then x :: y :: rest else y :: insert_sorted x rest
  end.

(** [array.sort(compare)], on a copy.  ECMA-262 asks for a stable sort, and
    on a comparator that orders the elements consistently the result is then
    one list only: the elements in the order of the comparator, those that
    compare equal in the order they had.  Inserting each element in front of
    the sorted rest of the array computes that list. *)
Fixpoint sort (l : list A) : list A :=
  match l with
  | [] => []
  | x :: rest => insert_sorted x (sort rest)
  end.

End Sort.

(** [array.slice(0, n)]. *)
Definition slice0 {A} (n : nat) (l : list A) : list A := take n l.

(** The comparator lets [x] stand in front of [y]. *)
Definition in_order {A} (compare : A -> A -> Z) (x y : A) : Prop :=
  compare x y <= 0.

End JsArray.

(** ** The routes that read the store, and the immediate send *)

(** What [GET /api/messages/:id] answers:
    [res.status(code).json({success: false, error})] or
    [res.json({message})]. *)
Inductive Reply :=
| Missing (code : Z) (error : string)
| Shown (message : Msg.t).

(** The comparator of [GET /api/messages]: a pending record before one that
    is not, and the later scheduled time first otherwise. *)
Definition compare_messages (a b : Msg.t) : Z :=
  if bool_decide (Msg.status a = pending) && negb (bool_decide (Msg.status b = pending))
  then -1
  else if negb (bool_decide (Msg.status a = pending)) && bool_decide (Msg.status b = pending)
  then 1
  else Msg.scheduledTime b - Msg.scheduledTime a.

(** The order in which the comparator lists two records. *)
Definition lists_before (a b : Msg.t) : Prop :=
  (Msg.status a = pending /\ Msg.status b <> pending) \/
  ((Msg.status a = pending <-> Msg.status b = pending) /\
   Msg.scheduledTime b <= Msg.scheduledTime a).

(** Two records that the comparator does not tell apart. *)
Definition ties (a b : Msg.t) : bool := compare_messages a b =? 0.

Section Routes.

Context {W : Type} `{Host W}.

Notation "'let*' x ':=' m 'in' k" := (bind m (fun x => k))
  (at level 10, x name, m at level 100, k at level 200, only parsing).
Notation "m ';;' k" := (bind m (fun _ => k))
  (at level 100, k at level 200, right associativity, only parsing).

(** [app.get('/api/messages')]: the fifty first records of a sorted copy of
    the array. *)
Definition get_messages : M (list Msg.t) :=
  fun s : state W =>
    let sorted :=
      JsArray.sort (fun a b => compare_messages (objs s !!! a) (objs s !!! b))
        (scheduledMessages s) in
    (Resolved ((fun l => objs s !!! l) <$> JsArray.slice0 50 sorted), s).

(** [scheduledMessages.find(m => m.id === id)]. *)
Definition find (id : string) : M (option loc) :=
  fun s : state W =>
    (Resolved (snd <$> list_find (fun l => Msg.id (objs s !!! l) = id) (scheduledMessages s)),
     s).

(** [app.get('/api/messages/:id')]. *)
Definition get_message (id : string) : M (W := W) Reply :=
  let* message := find id in
  match message with
  | None => ret (Missing 404 "Message not found")
  | Some l => let* m := read l in ret (Shown m)
  end.

(** [app.post('/api/send')], on a body that holds both fields. *)
Definition post_send (recipient message : string) : M (W := W) Response :=
  let* connected := get_isConnected in
  if negb connected then
    ret (Failure 400 "WhatsApp is not connected")
  else
    try_catch
      (let chatId := formatPhoneNumber recipient in
       sendMessage chatId message;;
       ret (Success "Message sent successfully"))
      (fun error => ret (Failure 500 ("Failed to send message: " +:+ error))).

End Routes.

(** ** The connection

    The event handlers of the client, the heartbeat, and the routes that
    show the connection or end it.  They work on two more variables of the
    program, [currentQR] and [connectedPhone], and call three more things of
    the platform. *)

(** [qrcode.toDataURL(qr)], the property [client.info.wid.user] ([None]
    where reading it throws: [client.info] is not set) and
    [client.logout()]. *)
Class Platform (W : Type) := {
  qrcode_toDataURL : string -> W -> outcome string * W;
  client_info_wid_user : W -> option string;
  client_logout : W -> outcome unit * W
}.

(** The whole state of the program: the store with the connection flag, the
    two variables, and the rejections of promises that nothing in the program
    handles (the promise of [client.initialize()] where it is started
    without [await], [then] or [catch]). *)
Record backend (W : Type) := mkBackend {
  core : state W;
  currentQR : option string;
  connectedPhone : option string;
  unhandled : list string
}.
Arguments mkBackend {W}.
Arguments core {W}.
Arguments currentQR {W}.
Arguments connectedPhone {W}.
Arguments unhandled {W}.

(** [res.json({connected, phone, qr, pendingMessages})]. *)
Record StatusReport := mkStatusReport {
  connected : bool;
  phone : option string;
  qr : option string;
  pendingMessages : nat
}.

(** The three answers of [GET /api/qr]. *)
Inductive QrReply :=
| AlreadyConnected (phone : option string) (message : string)
| QrCode (qr : string)
| NoQrCode (message : string).

(** A request to the API. *)
Inductive request :=
| GetStatus
| GetQr
| PostSchedule (body : Body)
| GetMessages
| GetMessage (id : string)
| PutMessage (id : string) (body : Body)
| DeleteMessage (id : string)
| PostSend (recipient message : string)
| PostDisconnect.

(** Whatever makes the program run a handler: an event of the client, one of
    the three timers, a request. *)
Inductive input :=
| OnQr (qr : string)
| OnReady
| OnAuthFailure
| OnDisconnected
| Heartbeat
| Tick
| Sweep
| Api (r : request).

Section Supervisor.

Context {W : Type} {host : Host W} {platform : Platform W}.

(** A computation on the store, run in the whole program. *)
Definition lift {A} (c : M A) (b : backend W) : outcome A * backend W :=
  let (r, s) := c (core b) in
  (r, mkBackend s (currentQR b) (connectedPhone b) (unhandled b)).

Definition with_core (b : backend W) (s : state W) : backend W :=
  mkBackend s (currentQR b) (connectedPhone b) (unhandled b).

(** [client.on('qr')]: nothing is assigned if the image cannot be made. *)
Definition on_qr (data : string) (b : backend W) : backend W :=
  match qrcode_toDataURL data (world (core b)) with
  | (Resolved url, w) =>
      mkBackend (after (set_isConnected false) (with_world (core b) w))
        (Some url) (connectedPhone b) (unhandled b)
  | (Rejected _, w) => with_core b (with_world (core b) w)
  end.

(** [client.on('ready')]: the phone is assigned if it can be read. *)
Definition on_ready (b : backend W) : backend W :=
  let s := after (set_isConnected true) (core b) in
  match client_info_wid_user (world s) with
  | Some user => mkBackend s None (Some user) (unhandled b)
  | None => mkBackend s None (connectedPhone b) (unhandled b)
  end.

(** [client.on('auth_failure')]. *)
Definition on_auth_failure (b : backend W) : backend W :=
  with_core b (after (set_isConnected false) (core b)).

(** [client.destroy().then(() => { client.initialize(); })
      .catch(() => { client.initialize(); })]: either callback starts the
    client and returns nothing, so that the chain ends well whatever
    [destroy] did, and a rejection of [initialize] is left to no one. *)
Definition restart (b : backend W) : backend W :=
  let (_, s1) := destroy (core b) in
  match initialize s1 with
  | (Resolved _, s2) => with_core b s2
  | (Rejected e, s2) =>
      mkBackend s2 (currentQR b) (connectedPhone b) (unhandled b ++ [e])
  end.

(** [client.on('disconnected')]; the callback of the timer runs when its
    five seconds are over. *)
Definition on_disconnected (b : backend W) : backend W :=
  let s := after (set_isConnected false) (core b) in
  let b1 := mkBackend s None None (unhandled b) in
  restart (with_core b1 (after (sleep 5000) s)).

(** The callback of [setInterval], every five minutes. *)
Definition heartbeat (b : backend W) : backend W :=
  if isConnected (core b) then
    match getState (core b) with
    | (Resolved _, s) => with_core b s
    | (Rejected _, s) => restart (with_core b (after (set_isConnected false) s))
    end
  else b.

(** [app.get('/api/status')]. *)
Definition get_status (b : backend W) : StatusReport :=
  mkStatusReport (isConnected (core b)) (connectedPhone b) (currentQR b)
    (length (List.filter (fun l => bool_decide (Msg.status (objs (core b) !!! l) = pending))
               (scheduledMessages (core b)))).

(** [app.get('/api/qr')]; [if (currentQR)] takes a string that is not
    empty. *)
Definition get_qr (b : backend W) : QrReply :=
  if isConnected (core b) then
    AlreadyConnected (connectedPhone b) "Already connected to WhatsApp"
  else
    match currentQR b with
    | Some url =>
        if truthy url then QrCode url
        else NoQrCode "QR code not yet generated. Please wait..."
    | None => NoQrCode "QR code not yet generated. Please wait..."
    end.

(** [app.post('/api/disconnect')]. *)
Definition post_disconnect (b : backend W) : Response * backend W :=
  match client_logout (world (core b)) with
  | (Resolved _, w) =>
      (Success "Disconnected successfully",
       mkBackend (after (set_isConnected false) (with_world (core b) w))
         None None (unhandled b))
  | (Rejected _, w) =>
      (Failure 500 "Failed to disconnect", with_core b (with_world (core b) w))
  end.

(** The program after the handler of a request has run, whatever it
    answered. *)
Definition serve (r : request) (b : backend W) : backend W :=
  match r with
  | GetStatus => b
  | GetQr => b
  | PostSchedule body => (lift (post_schedule body) b).2
  | GetMessages => (lift get_messages b).2
  | GetMessage id => (lift (get_message id) b).2
  | PutMessage id body => (lift (put_message id body) b).2
  | DeleteMessage id => (lift (delete_message id) b).2
  | PostSend recipient message => (lift (post_send recipient message) b).2
  | PostDisconnect => (post_disconnect b).2
  end.

(** The program after one handler has run. *)
Definition handle (i : input) (b : backend W) : backend W :=
  match i with
  | OnQr data => on_qr data b
  | OnReady => on_ready b
  | OnAuthFailure => on_auth_failure b
  | OnDisconnected => on_disconnected b
  | Heartbeat => heartbeat b
  | Tick => (lift dispatch b).2
  | Sweep => (lift cleanup b).2
  | Api r => serve r b
  end.

(** The program after a sequence of handlers, one after the other. *)
Definition run (inputs : list input) (b : backend W) : backend W :=
  foldl (fun b i => handle i b) b inputs.

(** The program as the script leaves it before the first handler runs:
    [scheduledMessages = []], [currentQR = null], [isConnected = false],
    [connectedPhone = null]. *)
Definition started (b : backend W) : Prop :=
  scheduledMessages (core b) = [] /\
  isConnected (core b) = false /\
  currentQR b = None /\
  connectedPhone b = None.

End Supervisor.

(** ** Words for the properties *)

(** The calls of [sendMessage] in a log. *)
Definition is_send (e : event) : bool :=
  match e with ESendMessage _ _ => true | _ => false end.

Definition sends (evs : list event) : list event := List.filter is_send evs.

(** The calls of [getState] in a log. *)
Definition is_probe (e : event) : bool :=
  match e with EGetState => true | _ => false end.

Definition probes (evs : list event) : list event := List.filter is_probe evs.

(** Two records that differ at most in what a delivery writes: the status,
    [sentAt] and [error]. *)
Definition same_content (m m' : Msg.t) : Prop :=
  Msg.id m' = Msg.id m /\
  Msg.recipient m' = Msg.recipient m /\
  Msg.message m' = Msg.message m /\
  Msg.scheduledTime m' = Msg.scheduledTime m /\
  Msg.repeat m' = Msg.repeat m /\
  Msg.createdAt m' = Msg.createdAt m /\
  Msg.updatedAt m' = Msg.updatedAt m /\
  Msg.parentId m' = Msg.parentId m.

(** The array references objects only, and none twice. *)
Definition sound {W} (s : state W) : Prop :=
  well_formed s /\ NoDup (scheduledMessages s).

(** The handlers that write to the store. *)
Definition writes_store (i : input) : bool :=
  match i with
  | Tick | Sweep
  | Api (PostSchedule _) | Api (PutMessage _ _) | Api (DeleteMessage _) => true
  | _ => false
  end.

(** What a handler may make of an object: it keeps its id and the stamps of
    its creation, and once it is [sent] or [failed] it keeps everything. *)
Definition survives (m m' : Msg.t) : Prop :=
  Msg.id m' = Msg.id m /\
  Msg.createdAt m' = Msg.createdAt m /\
  Msg.parentId m' = Msg.parentId m /\
  (Msg.status m <> pending -> m' = m).

(** A handler that is not the edit of a record. *)
Definition is_edit (i : input) : bool :=
  match i with Api (PutMessage _ _) => true | _ => false end.


(** ** A scripted host

    A host to run the server on: the client answers from two scripts (one for
    [getState], one for [sendMessage]; a script that has run out answers that
    the client is connected, and that the message went out), tearing down and
    starting the client succeed, the clock advances with the timers only, the
    ids are numbered, the time zone has a fixed offset, and dates are read in
    the format that [toISOString] prints. *)

Module Sim.

Record env := mkEnv {
  clock : Z;
  issued : nat;
  getState_script : list (outcome string);
  sendMessage_script : list (outcome unit)
}.

Definition digit_val (c : ascii) : option Z :=
  if is_digit c then Some (Z.of_nat (nat_of_ascii c) - 48) else None.

(** [n] digits at the head of [s], as a number, and the rest of [s]. *)
Fixpoint digits (n : nat) (acc : Z) (s : string) : option (Z * string) :=
  match n, s with
  | O, _ => Some (acc, s)
  | S n', String c r => d ← digit_val c; digits n' (10 * acc + d) r
  | S _, EmptyString => None
  end.

Definition expect (c : ascii) (s : string) : option string :=
  match s with
  | String c' r => if Ascii.eqb c c' then Some r else None
  | EmptyString => None
  end.

(** [YYYY-MM-DDTHH:mm:ss.sssZ]. *)
Definition parseISO (s : string) : option Z :=
  '(y, s) ← digits 4 0 s; s ← expect "-" s;
  '(mo, s) ← digits 2 0 s; s ← expect "-" s;
  '(d, s) ← digits 2 0 s; s ← expect "T" s;
  '(h, s) ← digits 2 0 s; s ← expect ":" s;
  '(mi, s) ← digits 2 0 s; s ← expect ":" s;
  '(sec, s) ← digits 2 0 s; s ← expect "." s;
  '(ms, s) ← digits 3 0 s; s ← expect "Z" s;
  if String.eqb s ""
     && (1 <=? mo) && (mo <=? 12) && (1 <=? d) && (d <=? 31)
     && (h <=? 23) && (mi <=? 59) && (sec <=? 59)
  then
    let day := MakeDay y (mo - 1) d in
    if (MonthFromTime (MakeDate day 0) =? mo - 1)
    then Some (MakeDate day (((h * 60 + mi) * 60 + sec) * 1000 + ms))
    else None
  else None.

Definition pop {A} (default : A) (script : list A) : A * list A :=
  match script with
  | [] => (default, [])
  | a :: rest => (a, rest)
  end.

Definition host (tza : Z) : Host env := {|
  client_getState w :=
    let (r, rest) := pop (Resolved "CONNECTED") (getState_script w) in
    (r, mkEnv (clock w) (issued w) rest (sendMessage_script w));
  client_sendMessage _ _ w :=
    let (r, rest) := pop (Resolved tt) (sendMessage_script w) in
    (r, mkEnv (clock w) (issued w) (getState_script w) rest);
  client_destroy w := (Resolved tt, w);
  client_initialize w := (Resolved tt, w);
  Date_now w := (clock w, w);
  Date_parse := parseISO;
  LocalTZA _ _ := tza;
  uuidv4 w :=
    ("msg-" +:+ pretty (issued w),
     mkEnv (clock w) (S (issued w)) (getState_script w) (sendMessage_script w));
  setTimeout ms w :=
    mkEnv (clock w + ms) (issued w) (getState_script w) (sendMessage_script w)
|}.

(** The host in a zone on UTC, and one five and a half hours ahead of it. *)
Definition utc : Host env := host 0.
Definition kolkata : Host env := host 19800000.

(** A server that has just started, at the instant [t]. *)
Definition boot (t : Z) (connected : bool)
    (gs : list (outcome string)) (ss : list (outcome unit)) : state env :=
  mkState ∅ [] connected (mkEnv t 0 gs ss) [].

(** 2024-01-31T10:00:00.000Z and 2024-01-31T09:00:00.000Z. *)
Definition ten : Z := 1706695200000.
Definition nine : Z := 1706691600000.

(** A message to send every day, scheduled at nine for ten. *)
Definition greeting (repeat : string) (status : Status) : Msg.t :=
  Msg.mk "msg-0" "+15551230000" "hi" ten repeat status nine None None None None.

(** A server at ten with a sent record created eight days before, a failed
    one created six days before and a pending one created thirty days
    before. *)
Definition archive : state env :=
  mkState
    (<[2%nat := Msg.mk "msg-2" "+15551230002" "c" ten "none" pending
                  (ten - 30 * msPerDay) None None None None]>
       (<[1%nat := Msg.mk "msg-1" "+15551230001" "b" ten "none" failed
                     (ten - 6 * msPerDay) None None (Some "timeout") None]>
          {[0%nat := Msg.mk "msg-0" "+15551230000" "a" ten "none" sent
                       (ten - 8 * msPerDay) None (Some ten) None None]}))
    [0%nat; 1%nat; 2%nat] true (mkEnv ten 3 [] []) [].

(** A client on which a send times out, and one whose errors carry no
    message. *)
Definition timeouts : list (outcome unit) :=
  [Rejected "timeout"; Rejected "timeout"; Rejected "timeout"].
Definition silent_errors : list (outcome unit) :=
  [Rejected ""; Rejected ""; Rejected ""].

(** A server that holds that message alone, one minute past ten. *)
Definition server (repeat : string) (status : Status) (connected : bool)
    (gs : list (outcome string)) (ss : list (outcome unit)) : state env :=
  mkState {[0%nat := greeting repeat status]} [0%nat] connected
    (mkEnv (ten + 60000) 1 gs ss) [].

End Sim.

(** ** The rest of the platform, scripted

    What the handlers of the connection need besides: the image of a QR
    code is made or is not, the phone of the account is known or is not, and
    the logout goes through or does not. *)

Module Desk.

Import Sim.

Definition platform (image : bool) (user : option string) (logout : bool) :
    Platform env := {|
  qrcode_toDataURL data w :=
    (if image then Resolved ("data:image/png;base64," +:+ data) else Rejected "no image",
     w);
  client_info_wid_user _ := user;
  client_logout w := (if logout then Resolved tt else Rejected "not logged in", w)
|}.

(** A platform on which all of that works. *)
Definition office : Platform env := platform true (Some "15551230000") true.

(** The program when its script has run, at the instant [t]: no message, no
    image, no phone, not connected. *)
Definition launch (t : Z) (gs : list (outcome string)) (ss : list (outcome unit)) :
    backend env :=
  mkBackend (boot t false gs ss) None None [].

(** The program around a store. *)
Definition around (s : state env) : backend env := mkBackend s None None [].

(** A request for a message to a number written with spaces, in a month. *)
Definition birthday (scheduledTime repeat : string) : Body :=
  mkBody "+1 (555) 123-0000" "happy birthday" scheduledTime repeat.

End Desk.

(** * Properties *)

(** ** Phone numbers *)

Section PhoneNumbers.

Lemma strip_non_phone_chars s :
  all_chars is_phone_char (strip_non_phone s) = true.
Proof.
  induction s as [|c r IH]; simpl; [reflexivity|].
  destruct (is_phone_char c) eqn:Hc; simpl; [rewrite Hc|]; exact IH.
Qed.

Lemma strip_non_phone_no_plus s :
  no_plus s = true -> all_chars is_digit (strip_non_phone s) = true.
Proof.
  unfold no_plus. induction s as [|c r IH]; simpl; [reflexivity|].
  intros [Hc Hr]%andb_prop. unfold is_phone_char.
  destruct (is_plus c); [discriminate|]. rewrite orb_false_r.
  destruct (is_digit c) eqn:Hd; simpl; [rewrite Hd|]; auto.
Qed.

Lemma strip_non_phone_digits_no_plus s :
  all_chars is_digit (strip_non_phone s) = true -> no_plus s = true.
Proof.
  unfold no_plus. induction s as [|c r IH]; simpl; [reflexivity|].
  unfold is_phone_char. destruct (is_plus c) eqn:Hp; simpl.
  - rewrite orb_true_r. simpl. intros [Hd _]%andb_prop.
    apply Ascii.eqb_eq in Hp. subst c. discriminate.
  - rewrite orb_false_r. destruct (is_digit c) eqn:Hd; simpl; [rewrite Hd|]; auto.
Qed.

Lemma is_plus_not_digit c : is_plus c = true -> is_digit c = false.
Proof. intros ->%Ascii.eqb_eq. reflexivity. Qed.

(** The part of a chat id before the suffix. *)
Lemma formatPhoneNumber_local phone :
  exists local,
    formatPhoneNumber phone = local +:+ "@c.us" /\
    local = (if startsWith "+" (strip_non_phone phone)
             then substring1 (strip_non_phone phone)
             else strip_non_phone phone).
Proof. eexists. split; reflexivity. Qed.

Lemma startsWith_plus c r : startsWith "+" (String c r) = is_plus c.
Proof. unfold is_plus. simpl. apply andb_true_r. Qed.

Lemma local_part_digits phone :
  let cleaned := strip_non_phone phone in
  all_chars is_digit (if startsWith "+" cleaned then substring1 cleaned else cleaned) = true
  <-> plus_only_in_front phone = true.
Proof.
  induction phone as [|c r IH]; simpl; [tauto|].
  destruct (is_phone_char c) eqn:Hc; [|exact IH].
  rewrite andb_true_r. fold (is_plus c). destruct (is_plus c) eqn:Hp; simpl.
  - split; [apply strip_non_phone_digits_no_plus | apply strip_non_phone_no_plus].
  - unfold is_phone_char in Hc. rewrite Hp, orb_false_r in Hc. rewrite Hc. simpl.
    split; [apply strip_non_phone_digits_no_plus | apply strip_non_phone_no_plus].
Qed.

Lemma all_chars_substring1 p s :
  all_chars p s = true -> all_chars p (substring1 s) = true.
Proof. destruct s; simpl; [auto|]. intros [_ ?]%andb_prop. assumption. Qed.

Lemma is_phone_char_among c : is_phone_char c = ChatId.among ChatId.alphabet c.
Proof. destruct c as [[] [] [] [] [] [] [] []]; reflexivity. Qed.

Lemma is_digit_among c : is_digit c = ChatId.among ChatId.digits c.
Proof. destruct c as [[] [] [] [] [] [] [] []]; reflexivity. Qed.

Lemma strip_non_phone_kept phone :
  strip_non_phone phone = string_of_list_ascii (ChatId.kept phone).
Proof.
  unfold ChatId.kept.
  induction phone as [|c r IH];
    cbn [strip_non_phone list_ascii_of_string List.filter]; [reflexivity|].
  rewrite <- is_phone_char_among.
  destruct (is_phone_char c); cbn [string_of_list_ascii]; rewrite IH; reflexivity.
Qed.

Lemma local_part_kept phone :
  (if startsWith "+" (strip_non_phone phone)
   then substring1 (strip_non_phone phone)
   else strip_non_phone phone)
  = ChatId.local_part phone.
Proof.
  unfold ChatId.local_part. rewrite strip_non_phone_kept.
  destruct (ChatId.kept phone) as [|c rest]; [reflexivity|].
  cbn [string_of_list_ascii ChatId.without_leading_plus].
  rewrite startsWith_plus. unfold is_plus.
  destruct (Ascii.eqb c "+"); reflexivity.
Qed.

Lemma all_chars_Forall (p : ascii -> bool) s :
  all_chars p s = true <-> Forall (fun c => p c = true) (list_ascii_of_string s).
Proof.
  induction s as [|c r IH]; cbn.
  - split; [constructor|reflexivity].
  - rewrite andb_true_iff, Forall_cons, IH. reflexivity.
Qed.

(** C9, as the code has it: the chat id is a run of digits and [+] signs
    followed by [@c.us]; the run is what is left of the input once every
    character other than a digit or a [+] is dropped, and then one leading
    [+].  It consists of digits only exactly when the input has no [+]
    past its first digit or [+]. *)
Theorem formatPhoneNumber_chat_id phone :
  exists local,
    formatPhoneNumber phone = local +:+ "@c.us" /\
    local = ChatId.local_part phone /\
    Forall (fun c => ChatId.among ChatId.alphabet c = true)
      (list_ascii_of_string local) /\
    all_chars is_phone_char local = true /\
    (all_chars is_digit local = true <-> plus_only_in_front phone = true) /\
    (Forall (fun c => ChatId.among ChatId.digits c = true) (list_ascii_of_string local)
     <-> Forall (fun c => c <> "+"%char)
           (tail (ChatId.kept phone))).
Proof.
  destruct (formatPhoneNumber_local phone) as (local & Heq & ->).
  eexists. split; [exact Heq|]. split; [apply local_part_kept|].
  assert (Hchars :
    all_chars is_phone_char
      (if startsWith "+" (strip_non_phone phone)
       then substring1 (strip_non_phone phone) else strip_non_phone phone) = true).
  { pose proof (strip_non_phone_chars phone).
    destruct (startsWith "+" (strip_non_phone phone));
      [apply all_chars_substring1|]; assumption. }
  split; [|split; [exact Hchars|split; [apply local_part_digits|]]].
  - apply all_chars_Forall in Hchars. eapply Forall_impl; [exact Hchars|].
    intros c Hc. rewrite <- is_phone_char_among. exact Hc.
  - rewrite local_part_kept. unfold ChatId.local_part.
    rewrite list_ascii_of_string_of_list_ascii.
    assert (Hkept : Forall (fun c => ChatId.among ChatId.alphabet c = true)
                      (ChatId.kept phone)).
    { unfold ChatId.kept. apply Forall_forall. intros c Hc.
      apply list_elem_of_In, filter_In in Hc. tauto. }
    destruct (ChatId.kept phone) as [|c rest]; [cbn; split; constructor|].
    apply Forall_cons in Hkept as [Hc Hrest]. cbn [ChatId.without_leading_plus tail].
    assert (Hsplit : forall l,
      Forall (fun c => ChatId.among ChatId.alphabet c = true) l ->
      (Forall (fun c => ChatId.among ChatId.digits c = true) l
       <-> Forall (fun c => c <> "+"%char) l)).
    { intros l Hl. rewrite !Forall_forall. rewrite Forall_forall in Hl.
      split; intros Hall x Hx; specialize (Hall x Hx); specialize (Hl x Hx);
        destruct x as [[] [] [] [] [] [] [] []];
        first [discriminate | reflexivity | congruence]. }
    destruct (Ascii.eqb_spec c "+") as [->|Hne]; [apply Hsplit, Hrest|].
    rewrite Forall_cons, (Hsplit rest Hrest). split; [tauto|].
    intros Hr. split; [|exact Hr].
    destruct c as [[] [] [] [] [] [] [] []];
      first [discriminate | reflexivity | congruence].
Qed.

Lemma append_length s t :
  String.length (s +:+ t) = (String.length s + String.length t)%nat.
Proof.
  induction s; simpl.
  reflexivity.
  congruence.
Qed.

Lemma append_cancel_r s1 s2 t : s1 +:+ t = s2 +:+ t -> s1 = s2.
Proof.
  revert s2. induction s1 as [|c r IH]; intros [|c' r'] Heq.
  - reflexivity.
  - apply (f_equal String.length) in Heq.
    rewrite !append_length in Heq. simpl in Heq. lia.
  - apply (f_equal String.length) in Heq.
    rewrite !append_length in Heq. simpl in Heq. lia.
  - injection Heq as -> Heq. f_equal. apply IH, Heq.
Qed.

(** C9 as stated fails: a [+] that is not the first character kept stays in
    the chat id. *)
Lemma formatPhoneNumber_keeps_plus :
  formatPhoneNumber "1+2" = "1+2@c.us" /\
  ~ (forall phone, exists digits,
       all_chars is_digit digits = true /\
       formatPhoneNumber phone = digits +:+ "@c.us").
Proof.
  split; [reflexivity|].
  intros Hall. destruct (Hall "1+2") as (digits & Hd & Heq).
  change (formatPhoneNumber "1+2") with ("1+2" +:+ "@c.us") in Heq.
  apply append_cancel_r in Heq. subst digits. discriminate Hd.
Qed.

End PhoneNumbers.

(** ** Dates *)

Section Dates.

Lemma MakeDate_Day t k :
  MakeDate (Day t + k) (TimeWithinDay t) = t + k * msPerDay.
Proof.
  unfold MakeDate, Day, TimeWithinDay, msPerDay.
  pose proof (Z.div_mod t 86400000). lia.
Qed.

(** [YearFromTime t] is the year that holds the instant [t]. *)
Lemma YearFromTime_spec t :
  DayFromYear (YearFromTime t) <= Day t < DayFromYear (YearFromTime t + 1).
Proof.
  unfold YearFromTime. generalize (Day t). intros d.
  cbv zeta. unfold DayFromYear.
  repeat match goal with
         | |- context [?a <? ?b] => destruct (Z.ltb_spec a b)
         | |- context [?a <=? ?b] => destruct (Z.leb_spec a b)
         end;
    Z.div_mod_to_equations; lia.
Qed.

Lemma MonthFromTime_range t : 0 <= MonthFromTime t <= 11.
Proof.
  unfold MonthFromTime. cbv zeta.
  repeat match goal with
         | |- context [?a <? ?b] => destruct (Z.ltb_spec a b)
         end; lia.
Qed.

Lemma DaysInYear_step y : DayFromYear (y + 1) = DayFromYear y + DaysInYear y.
Proof.
  unfold DayFromYear, DaysInYear.
  repeat match goal with
         | |- context [?a =? ?b] => destruct (Z.eqb_spec a b)
         end; simpl; Z.div_mod_to_equations; lia.
Qed.

Lemma DayFromYear_mono y y' : y <= y' -> DayFromYear y <= DayFromYear y'.
Proof. unfold DayFromYear. intros. Z.div_mod_to_equations. lia. Qed.

(** The year that holds a day is unique. *)
Lemma YearFromTime_unique t y :
  DayFromYear y <= Day t < DayFromYear (y + 1) -> YearFromTime t = y.
Proof.
  intros Hy. pose proof (YearFromTime_spec t) as Ht.
  destruct (Z.lt_trichotomy (YearFromTime t) y) as [Hlt|[Heq|Hgt]]; [|exact Heq|].
  - pose proof (DayFromYear_mono (YearFromTime t + 1) y). lia.
  - pose proof (DayFromYear_mono (y + 1) (YearFromTime t)). lia.
Qed.

Lemma DaysInYear_cases y : DaysInYear y = 365 \/ DaysInYear y = 366.
Proof.
  unfold DaysInYear.
  destruct (y mod 4 =? 0), (y mod 100 =? 0), (y mod 400 =? 0); cbn [negb]; auto.
Qed.

Lemma InLeapYear_cases t :
  (InLeapYear t = 0 /\ DaysInYear (YearFromTime t) = 365) \/
  (InLeapYear t = 1 /\ DaysInYear (YearFromTime t) = 366).
Proof.
  unfold InLeapYear.
  destruct (DaysInYear_cases (YearFromTime t)) as [-> | ->]; auto.
Qed.

Lemma DayWithinYear_range t : 0 <= DayWithinYear t < 365 + InLeapYear t.
Proof.
  unfold DayWithinYear. pose proof (YearFromTime_spec t) as Ht.
  rewrite DaysInYear_step in Ht. destruct (InLeapYear_cases t) as [[-> ?]|[-> ?]]; lia.
Qed.

Lemma DateFromTime_range t : 1 <= DateFromTime t <= 31.
Proof.
  unfold DateFromTime, MonthFromTime. cbv zeta.
  pose proof (DayWithinYear_range t).
  destruct (InLeapYear_cases t) as [[E _]|[E _]]; rewrite E in *;
    repeat match goal with
           | |- context [?a <? ?b] => destruct (Z.ltb_spec a b)
           end; unfold monthStart; lia.
Qed.

(** Putting the fields of a date back together, [k] days later. *)
Lemma MakeDay_fields t k :
  MakeDay (YearFromTime t) (MonthFromTime t) (DateFromTime t + k) = Day t + k.
Proof.
  pose proof (MonthFromTime_range t) as Hm.
  unfold MakeDay. cbv zeta.
  rewrite (Z.div_small (MonthFromTime t) 12), (Z.mod_small (MonthFromTime t) 12) by lia.
  rewrite Z.add_0_r. fold (InLeapYear t).
  unfold DateFromTime, DayWithinYear. lia.
Qed.

Lemma TimeWithinDay_range t : 0 <= TimeWithinDay t < msPerDay.
Proof. apply Z.mod_pos_bound. reflexivity. Qed.

Lemma Day_MakeDate day time :
  0 <= time < msPerDay -> Day (MakeDate day time) = day.
Proof.
  intros Ht. unfold Day, MakeDate.
  rewrite Z.add_comm, Z.div_add by discriminate.
  rewrite Z.div_small by exact Ht. reflexivity.
Qed.

Lemma TimeWithinDay_MakeDate day time :
  0 <= time < msPerDay -> TimeWithinDay (MakeDate day time) = time.
Proof.
  intros Ht. unfold TimeWithinDay, MakeDate.
  rewrite Z.add_comm, Z.mod_add by discriminate.
  apply Z.mod_small, Ht.
Qed.

(** [MakeDay] carries a month past December into the year. *)
Lemma MakeDay_carry y m d :
  MakeDay y m d = MakeDay (y + m / 12) (m mod 12) d.
Proof.
  unfold MakeDay. cbv zeta.
  pose proof (Z.mod_pos_bound m 12 eq_refl).
  rewrite (Z.div_small (m mod 12) 12), (Z.mod_small (m mod 12) 12) by lia.
  rewrite Z.add_0_r. reflexivity.
Qed.

Lemma month_cases m :
  0 <= m <= 11 ->
  m = 0 \/ m = 1 \/ m = 2 \/ m = 3 \/ m = 4 \/ m = 5 \/ m = 6 \/ m = 7 \/
  m = 8 \/ m = 9 \/ m = 10 \/ m = 11.
Proof. lia. Qed.

Ltac each_month m H :=
  destruct (month_cases m H)
    as [->|[->|[->|[->|[->|[->|[->|[->|[->|[->|[->| ->]]]]]]]]]]].

(** The fields of a date made of a year, a month and a day of the month
    that every month has. *)
Lemma fields_of_MakeDate y m d time :
  0 <= m <= 11 -> 1 <= d <= 28 -> 0 <= time < msPerDay ->
  let t := MakeDate (MakeDay y m d) time in
  YearFromTime t = y /\ MonthFromTime t = m /\ DateFromTime t = d /\
  TimeWithinDay t = time.
Proof.
  intros Hm Hd Ht t.
  assert (Hday : Day t = MakeDay y m d) by (apply Day_MakeDate, Ht).
  set (leap := if DaysInYear y =? 366 then 1 else 0).
  assert (Hstart : 0 <= monthStart m leap + d - 1 < DaysInYear y).
  { subst leap. unfold monthStart.
    destruct (DaysInYear_cases y) as [-> | ->]; simpl (_ =? _);
      cbv iota; each_month m Hm; lia. }
  assert (Hmake : MakeDay y m d = DayFromYear y + (monthStart m leap + d - 1)).
  { unfold MakeDay. cbv zeta.
    rewrite (Z.div_small m 12), (Z.mod_small m 12), Z.add_0_r by lia.
    subst leap. lia. }
  assert (Hy : YearFromTime t = y).
  { apply YearFromTime_unique. rewrite DaysInYear_step, Hday, Hmake. lia. }
  assert (Hleap : InLeapYear t = leap) by (unfold InLeapYear; rewrite Hy; reflexivity).
  assert (Hwithin : DayWithinYear t = monthStart m leap + d - 1).
  { unfold DayWithinYear. rewrite Hy, Hday, Hmake. lia. }
  assert (Hmonth : MonthFromTime t = m).
  { unfold MonthFromTime. cbv zeta. rewrite Hwithin, Hleap.
    assert (leap = 0 \/ leap = 1) as [-> | ->]
      by (subst leap; destruct (DaysInYear y =? 366); auto);
      each_month m Hm; unfold monthStart;
      repeat match goal with
             | |- context [?a <? ?b] => destruct (Z.ltb_spec a b); try lia
             end. }
  repeat split; [exact Hy | exact Hmonth | | apply TimeWithinDay_MakeDate, Ht].
  unfold DateFromTime. rewrite Hwithin, Hmonth, Hleap. lia.
Qed.

Section Zone.

Variable tza : Z -> bool -> Z.

(** [d.setDate(d.getDate() + k)] moves the date by [k] days of local
    time. *)
Lemma setDate_getDate tv k :
  setDate tza tv (getDate tza tv + k) = UTC tza (LocalTime tza tv + k * msPerDay).
Proof.
  unfold setDate, getDate. cbv zeta.
  rewrite MakeDay_fields, MakeDate_Day. reflexivity.
Qed.

(** In a zone whose offset does not change, that is [k] times 24 hours. *)
Lemma setDate_getDate_fixed offset tv k :
  (forall t isUTC, tza t isUTC = offset) ->
  setDate tza tv (getDate tza tv + k) = tv + k * msPerDay.
Proof.
  intros Hz. rewrite setDate_getDate. unfold UTC, LocalTime.
  rewrite !Hz. lia.
Qed.

(** [d.setMonth(d.getMonth() + 1)] on a day that every month has: the
    same day and time of day, local time, in the next month. *)
Lemma setMonth_getMonth tv :
  let t := LocalTime tza tv in
  DateFromTime t <= 28 ->
  exists t',
    setMonth tza tv (getMonth tza tv + 1) = UTC tza t' /\
    YearFromTime t' = YearFromTime t + (MonthFromTime t + 1) / 12 /\
    MonthFromTime t' = (MonthFromTime t + 1) mod 12 /\
    DateFromTime t' = DateFromTime t /\
    TimeWithinDay t' = TimeWithinDay t.
Proof.
  intros t Hd. unfold setMonth, getMonth. cbv zeta. fold t.
  eexists. split; [reflexivity|].
  rewrite MakeDay_carry.
  apply fields_of_MakeDate.
  - pose proof (Z.mod_pos_bound (MonthFromTime t + 1) 12 eq_refl). lia.
  - pose proof (DateFromTime_range t). lia.
  - apply TimeWithinDay_range.
Qed.

End Zone.

End Dates.

(** ** The delivery engine *)

Section Delivery.

Context {W : Type} `{Host W}.

Implicit Types (s : state W) (msgData l : loc) (m : Msg.t).

(** Assigning to a field of an object that exists. *)
Lemma alter_Some (f : Msg.t -> Msg.t) l (o : gmap loc Msg.t) m :
  o !! l = Some m -> alter f l o = <[l := f m]> o.
Proof.
  intros Hl. apply map_eq. intros i.
  rewrite lookup_alter, lookup_insert.
  destruct (decide (l = i)) as [->|]; [rewrite Hl|]; reflexivity.
Qed.

Lemma lookup_total_Some (o : gmap loc Msg.t) l m : o !! l = Some m -> o !!! l = m.
Proof. intros Hl. rewrite lookup_total_alt, Hl. reflexivity. Qed.

(** What the function does when the server is not connected. *)
Lemma sendWhatsAppMessage_disconnected msgData s :
  isConnected s = false ->
  sendWhatsAppMessage msgData s =
    (Resolved false,
     mkState
       (alter (Msg.set_error "WhatsApp not connected") msgData
          (alter (Msg.set_status failed) msgData (objs s)))
       (scheduledMessages s) (isConnected s) (world s) (log s)).
Proof.
  intros Hc. destruct s as [o ls c w lg]. simpl in Hc. subst c. reflexivity.
Qed.

Lemma sendWhatsAppMessage_connected msgData s :
  isConnected s = true ->
  sendWhatsAppMessage msgData s = retry (Z.to_nat maxRetries) 1 None msgData s.
Proof.
  intros Hc. destruct s as [o ls c w lg]. simpl in Hc. subst c. reflexivity.
Qed.

(** C1: a message dispatched while the server is not connected fails at
    once.  The function returns [false] before its first attempt; the record
    is [failed] with the error "WhatsApp not connected"; no call reaches the
    client and no timer runs (the log and the world are as they were); and
    whatever [repeat] holds, no record is created: the array is unchanged
    and the heap holds the same objects, all but this one untouched. *)
Theorem sendWhatsAppMessage_not_connected msgData s m :
  isConnected s = false ->
  objs s !! msgData = Some m ->
  exists s' m',
    sendWhatsAppMessage msgData s = (Resolved false, s') /\
    objs s' = <[msgData := m']> (objs s) /\
    m' = Msg.set_error "WhatsApp not connected" (Msg.set_status failed m) /\
    Msg.status m' = failed /\
    Msg.error m' = Some "WhatsApp not connected" /\
    dom (objs s') = dom (objs s) /\
    scheduledMessages s' = scheduledMessages s /\
    log s' = log s /\
    world s' = world s.
Proof.
  intros Hc Hm. rewrite sendWhatsAppMessage_disconnected by exact Hc.
  do 2 eexists. split; [reflexivity|]. cbn [objs scheduledMessages log world].
  assert (Hobjs :
    alter (Msg.set_error "WhatsApp not connected") msgData
      (alter (Msg.set_status failed) msgData (objs s))
    = <[msgData := Msg.set_error "WhatsApp not connected" (Msg.set_status failed m)]>
        (objs s)).
  { rewrite (alter_Some _ _ _ m Hm).
    rewrite (alter_Some _ _ _ (Msg.set_status failed m)) by apply lookup_insert_eq.
    apply insert_insert_eq. }
  rewrite Hobjs. repeat split.
  apply dom_insert_lookup_L. exists m. exact Hm.
Qed.

(** *** The recurrence expander, run *)

Lemma scheduleNextRepeat_None msgData s :
  nextOccurrence (Msg.repeat (objs s !!! msgData))
    (Msg.scheduledTime (objs s !!! msgData)) = None ->
  scheduleNextRepeat msgData s = (Resolved tt, s).
Proof.
  intros Hn. unfold scheduleNextRepeat, bind, read. rewrite Hn. reflexivity.
Qed.

Lemma scheduleNextRepeat_Some msgData s nextTime newId w1 created w2 :
  nextOccurrence (Msg.repeat (objs s !!! msgData))
    (Msg.scheduledTime (objs s !!! msgData)) = Some nextTime ->
  uuidv4 (world s) = (newId, w1) ->
  Date_now w1 = (created, w2) ->
  scheduleNextRepeat msgData s =
    (Resolved tt,
     let m := objs s !!! msgData in
     let l' := fresh (dom (objs s)) in
     mkState
       (<[l' := Msg.mk newId (Msg.recipient m) (Msg.message m) nextTime
                  (Msg.repeat m) pending created None None None (Some (Msg.id m))]>
          (objs s))
       (scheduledMessages s ++ [l']) (isConnected s) w2 (log s)).
Proof.
  intros Hn Hu Hd. unfold scheduleNextRepeat, bind, read. rewrite Hn.
  unfold uuid. rewrite Hu. unfold now, with_world. cbn [world]. rewrite Hd.
  reflexivity.
Qed.

(** The expander never throws, and leaves alone the connection flag, the
    log and every object that exists. *)
Lemma scheduleNextRepeat_Resolved msgData s :
  exists s',
    scheduleNextRepeat msgData s = (Resolved tt, s') /\
    isConnected s' = isConnected s /\
    log s' = log s /\
    (forall l m, objs s !! l = Some m -> objs s' !! l = Some m).
Proof.
  destruct (nextOccurrence (Msg.repeat (objs s !!! msgData))
              (Msg.scheduledTime (objs s !!! msgData))) as [nextTime|] eqn:Hn.
  - destruct (uuidv4 (world s)) as [newId w1] eqn:Hu.
    destruct (Date_now w1) as [created w2] eqn:Hd.
    eexists. split; [exact (scheduleNextRepeat_Some _ _ _ _ _ _ _ Hn Hu Hd)|].
    cbn. repeat split. intros l m Hl.
    rewrite lookup_insert_ne; [exact Hl|].
    intros <-. apply elem_of_dom_2 in Hl. exact (is_fresh _ Hl).
  - eexists. split; [exact (scheduleNextRepeat_None _ _ Hn)|]. auto.
Qed.

(** *** The end of an attempt that went through *)

Lemma nextOccurrence_repeating repeat t :
  repeating repeat -> exists nextTime, nextOccurrence repeat t = Some nextTime.
Proof.
  unfold nextOccurrence. intros [-> | [-> | ->]]; eexists; reflexivity.
Qed.

Lemma nextOccurrence_Some repeat t nextTime :
  nextOccurrence repeat t = Some nextTime -> repeating repeat.
Proof.
  unfold nextOccurrence, repeating.
  destruct (String.eqb_spec repeat "daily"); [auto|].
  destruct (String.eqb_spec repeat "weekly"); [auto|].
  destruct (String.eqb_spec repeat "monthly"); [auto|discriminate].
Qed.

Lemma repeating_guard repeat :
  repeating repeat -> truthy repeat && negb (String.eqb repeat "none") = true.
Proof. intros [-> | [-> | ->]]; reflexivity. Qed.

Lemma alter_sent msgData (o : gmap loc Msg.t) m t :
  o !! msgData = Some m ->
  alter (Msg.set_sentAt t) msgData (alter (Msg.set_status sent) msgData o)
  = <[msgData := Msg.set_sentAt t (Msg.set_status sent m)]> o.
Proof.
  intros Hm. rewrite (alter_Some _ _ _ m Hm).
  rewrite (alter_Some _ _ _ (Msg.set_status sent m)) by apply lookup_insert_eq.
  apply insert_insert_eq.
Qed.

(** Once the message has gone out, the record is [sent] and stamped, and the
    expander runs on that state if [repeat] is a kind it knows; the state is
    left at that otherwise. *)
Lemma mark_sent_run msgData s m :
  objs s !! msgData = Some m ->
  exists t w s',
    Date_now (world s) = (t, w) /\
    mark_sent msgData s = (Resolved true, s') /\
    isConnected s' = isConnected s /\
    log s' = log s /\
    let sent_state :=
      mkState (<[msgData := Msg.set_sentAt t (Msg.set_status sent m)]> (objs s))
        (scheduledMessages s) (isConnected s) w (log s) in
    (repeating (Msg.repeat m) ->
     scheduleNextRepeat msgData sent_state = (Resolved tt, s')) /\
    (~ repeating (Msg.repeat m) -> s' = sent_state).
Proof.
  intros Hm. unfold mark_sent, bind, update, now, read.
  cbn [world objs scheduledMessages isConnected log with_world].
  destruct (Date_now (world s)) as [t w] eqn:Hd.
  cbn [world objs scheduledMessages isConnected log with_world].
  rewrite (alter_sent _ _ m t Hm), lookup_total_insert_eq.
  change (Msg.repeat (Msg.set_sentAt t (Msg.set_status sent m))) with (Msg.repeat m).
  set (sent_state := mkState _ _ _ _ _).
  exists t, w.
  destruct (truthy (Msg.repeat m) && negb (String.eqb (Msg.repeat m) "none")) eqn:Hguard.
  - destruct (scheduleNextRepeat_Resolved msgData sent_state) as (s' & Hrun & Hc & Hl & _).
    exists s'. rewrite Hrun. unfold ret.
    do 4 (split; [first [reflexivity | assumption]|]).
    split; [intros _; exact Hrun|]. intros Hnot.
    destruct (nextOccurrence (Msg.repeat (objs sent_state !!! msgData))
                (Msg.scheduledTime (objs sent_state !!! msgData))) as [nextTime|] eqn:Hn.
    + exfalso. apply Hnot. apply nextOccurrence_Some in Hn.
      subst sent_state. cbn [objs] in Hn. rewrite lookup_total_insert_eq in Hn. exact Hn.
    + rewrite (scheduleNextRepeat_None _ _ Hn) in Hrun.
      injection Hrun as <-. reflexivity.
  - exists sent_state. unfold ret.
    do 4 (split; [reflexivity|]).
    split; [|intros _; reflexivity].
    intros Hrep. rewrite (repeating_guard _ Hrep) in Hguard. discriminate.
Qed.

(** *** One attempt *)

(** An attempt that throws has changed no record and has not touched the
    array or the connection flag; it has called the client once or twice, and
    no timer. *)
Lemma attempt_Rejected msgData s m e s' :
  objs s !! msgData = Some m ->
  attempt msgData s = (Rejected e, s') ->
  objs s' = objs s /\
  scheduledMessages s' = scheduledMessages s /\
  isConnected s' = isConnected s /\
  exists calls, log s' = log s ++ calls /\ attempt_calls m calls.
Proof.
  intros Hm. unfold attempt_calls, attempt, bind, getState.
  destruct (client_getState (world s)) as [[st|e0] w] eqn:Hg.
  - destruct (String.eqb st "CONNECTED") eqn:Hst; cbn [negb].
    + unfold read, sendMessage. cbn [world with_event objs].
      rewrite (lookup_total_Some _ _ _ Hm).
      destruct (client_sendMessage _ _ w) as [[[]|e1] w'] eqn:Hs.
      * match goal with |- context [mark_sent msgData ?s0] =>
          destruct (mark_sent_run msgData s0 m Hm) as (t & w1 & s1 & _ & Hrun & _)
        end.
        rewrite Hrun. discriminate.
      * intros [= <- <-]. cbn. repeat split.
        eexists. split; [rewrite <- app_assoc; reflexivity|]. right. reflexivity.
    + unfold throw. intros [= <- <-]. cbn. repeat split.
      eexists. split; [reflexivity|]. left. reflexivity.
  - intros [= <- <-]. cbn. repeat split.
    eexists. split; [reflexivity|]. left. reflexivity.
Qed.

(** An attempt that completes has found the client connected and has sent
    the message; it returns what [mark_sent] does after that. *)
Lemma attempt_Resolved msgData s m b s' :
  objs s !! msgData = Some m ->
  attempt msgData s = (Resolved b, s') ->
  exists w w',
    client_getState (world s) = (Resolved "CONNECTED", w) /\
    client_sendMessage (formatPhoneNumber (Msg.recipient m)) (Msg.message m) w
      = (Resolved tt, w') /\
    mark_sent msgData
      (with_event (with_event s w EGetState) w'
         (ESendMessage (formatPhoneNumber (Msg.recipient m)) (Msg.message m)))
      = (Resolved b, s').
Proof.
  intros Hm. unfold attempt, bind, getState.
  destruct (client_getState (world s)) as [[st|e0] w] eqn:Hg; [|discriminate].
  destruct (String.eqb_spec st "CONNECTED") as [->|Hst]; cbn [negb];
    [|discriminate].
  unfold read, sendMessage. cbn [world with_event objs].
  rewrite (lookup_total_Some _ _ _ Hm).
  destruct (client_sendMessage _ _ w) as [[[]|e1] w'] eqn:Hs; [|discriminate].
  intros Hrun. exists w, w'. auto.
Qed.

(** *** The [catch] block *)

(** After an error that does not look like a dead session, the function waits
    two seconds times the number of the attempt. *)
Lemma recover_generic n e s :
  is_session_error e = false ->
  recover n e s =
    (Resolved tt, with_event s (setTimeout (2000 * n) (world s)) (ESleep (2000 * n))).
Proof. intros He. unfold recover. rewrite He. reflexivity. Qed.

Ltac exists_state started :=
  eexists; exists started; split; [reflexivity|];
  cbn; rewrite <- ?app_assoc; auto.

(** After an error that looks like a dead session, the function marks the
    server disconnected, tears the client down, waits five seconds, starts
    the client again and, if that went through, waits ten seconds. *)
Lemma recover_session n e s :
  is_session_error e = true ->
  exists s' started,
    recover n e s = (Resolved tt, s') /\
    isConnected s' = false /\
    objs s' = objs s /\
    scheduledMessages s' = scheduledMessages s /\
    log s' = log s ++ [EDestroy; ESleep 5000; EInitialize]
               ++ (if started : bool then [ESleep 10000] else []).
Proof.
  intros He. unfold recover. rewrite He.
  unfold bind, set_isConnected, try_catch, destroy, sleep, initialize, ret.
  cbn [world with_event objs scheduledMessages isConnected log].
  destruct (client_destroy (world s)) as [[[]|e1] w1];
    cbn [world with_event objs scheduledMessages isConnected log];
    (destruct (client_initialize (setTimeout 5000 w1)) as [[[]|e2] w2];
     [exists_state true | exists_state false]).
Qed.

(** X5: what the [catch] block does about a dead session.  Whatever the
    attempt, an error whose message holds "Session closed" or "Protocol
    error" takes the flag down and restarts the client: [destroy], whose
    failure is ignored, five seconds, [initialize], and ten seconds more if
    and only if [initialize] resolved; the block never throws, and the loop
    then goes on to the next attempt. *)
Theorem recover_reconnects n e s :
  includes "Session closed" e = true \/ includes "Protocol error" e = true ->
  exists s' started,
    recover n e s = (Resolved tt, s') /\
    isConnected s' = false /\
    objs s' = objs s /\
    scheduledMessages s' = scheduledMessages s /\
    log s' = log s ++ [EDestroy; ESleep 5000; EInitialize]
               ++ (if started : bool then [ESleep 10000] else []) /\
    delays (log s') = delays (log s) ++ 5000 :: (if started then [10000] else []) /\
    let torn_down := (client_destroy (world s)).2 in
    let restarted := client_initialize (setTimeout 5000 torn_down) in
    (started = true <-> exists w, restarted = (Resolved tt, w)) /\
    (started = false <-> exists e' w, restarted = (Rejected e', w)) /\
    world s' = (if started then setTimeout 10000 restarted.2 else restarted.2).
Proof.
  intros He.
  assert (Hs : is_session_error e = true).
  { unfold is_session_error. destruct He as [-> | ->]; [reflexivity|apply orb_true_r]. }
  unfold recover. rewrite Hs.
  unfold bind, set_isConnected, try_catch, destroy, sleep, initialize, ret, delays.
  cbn [world with_event objs scheduledMessages isConnected log].
  destruct (client_destroy (world s)) as [r1 w1].
  destruct r1 as [[]|e1];
    cbn [world with_event objs scheduledMessages isConnected log snd];
    (destruct (client_initialize (setTimeout 5000 w1)) as [[[]|e2] w2];
     [exists_state true | exists_state false];
     rewrite ?omap_app; cbn;
     repeat split; try discriminate; try reflexivity; eauto;
     intros; repeat match goal with H : exists _, _ |- _ => destruct H end;
     discriminate).
Qed.

(** Either way the [catch] block completes, and leaves the records and the
    array alone. *)
Lemma recover_Resolved n e s :
  exists s',
    recover n e s = (Resolved tt, s') /\
    objs s' = objs s /\
    scheduledMessages s' = scheduledMessages s.
Proof.
  destruct (is_session_error e) eqn:He.
  - destruct (recover_session n e s He) as (s' & started & Hr & _ & Ho & Hs & _).
    exists s'. auto.
  - rewrite (recover_generic n e s He). eexists. split; [reflexivity|]. auto.
Qed.

(** *** The loop *)

Lemma all_failed_run lastError msgData s m :
  objs s !! msgData = Some m ->
  all_failed lastError msgData s =
    (Resolved false,
     mkState
       (<[msgData := Msg.set_error (error_text lastError) (Msg.set_status failed m)]>
          (objs s))
       (scheduledMessages s) (isConnected s) (world s) (log s)).
Proof.
  intros Hm. unfold all_failed, bind, update, ret.
  cbn [world objs scheduledMessages isConnected log].
  rewrite (alter_Some _ _ _ m Hm).
  rewrite (alter_Some _ _ _ (Msg.set_status failed m)) by apply lookup_insert_eq.
  rewrite insert_insert_eq. reflexivity.
Qed.

Lemma retry_done remaining n lastError msgData s b s' :
  attempt msgData s = (Resolved b, s') ->
  retry (S remaining) n lastError msgData s = (Resolved b, s').
Proof. intros Ha. cbn [retry]. unfold try_catch. rewrite Ha. reflexivity. Qed.

Lemma retry_step remaining n lastError msgData s e s1 :
  attempt msgData s = (Rejected e, s1) ->
  retry (S remaining) n lastError msgData s =
    retry remaining (n + 1) (Some e) msgData (after (recover n e) s1).
Proof.
  intros Ha. cbn [retry]. unfold try_catch, bind, after. rewrite Ha.
  destruct (recover_Resolved n e s1) as (s2 & Hr & _). rewrite Hr. reflexivity.
Qed.

Lemma after_recover n e s :
  objs (after (recover n e) s) = objs s /\
  scheduledMessages (after (recover n e) s) = scheduledMessages s.
Proof.
  unfold after. destruct (recover_Resolved n e s) as (s' & -> & Ho & Hs). auto.
Qed.

(** The loop always completes: with [true] as soon as an attempt goes
    through, from a state whose records and array are those the loop started
    with; with [false] once every attempt has thrown, the record then being
    [failed] and nothing else changed. *)
Lemma retry_outcome remaining n lastError msgData s m :
  objs s !! msgData = Some m ->
  exists b s',
    retry remaining n lastError msgData s = (Resolved b, s') /\
    if b then
      exists s0 evs,
        objs s0 = objs s /\
        scheduledMessages s0 = scheduledMessages s /\
        log s0 = evs ++ [EGetState;
                         ESendMessage (formatPhoneNumber (Msg.recipient m))
                           (Msg.message m)] /\
        mark_sent msgData s0 = (Resolved true, s')
    else
      exists e,
        objs s' = <[msgData := Msg.set_error e (Msg.set_status failed m)]> (objs s) /\
        scheduledMessages s' = scheduledMessages s.
Proof.
  revert n lastError s.
  induction remaining as [|remaining IH]; intros n lastError s Hm.
  - exists false. eexists. split; [apply (all_failed_run _ _ _ m Hm)|].
    eexists. split; reflexivity.
  - destruct (attempt msgData s) as [[b|e] s1] eqn:Ha.
    + destruct (attempt_Resolved _ _ _ _ _ Hm Ha) as (w & w' & _ & _ & Hmark).
      match type of Hmark with mark_sent _ ?s0 = _ =>
        destruct (mark_sent_run msgData s0 m Hm) as (t & w1 & s2 & _ & Hrun & _)
      end.
      rewrite Hrun in Hmark. injection Hmark as <- <-.
      exists true, s2. split; [apply retry_done; rewrite Ha; reflexivity|].
      match type of Hrun with mark_sent _ ?s0 = _ => exists s0, (log s) end.
      split; [reflexivity|]. split; [reflexivity|].
      split; [|exact Hrun]. cbn. rewrite <- app_assoc. reflexivity.
    + destruct (attempt_Rejected _ _ _ _ _ Hm Ha) as (Ho & Hs & _).
      destruct (after_recover n e s1) as [Ho' Hs'].
      rewrite (retry_step _ _ _ _ _ _ _ Ha).
      destruct (IH (n + 1) (Some e) (after (recover n e) s1)) as (b & s' & Hr & Hpost).
      { rewrite Ho', Ho. exact Hm. }
      exists b, s'. split; [exact Hr|].
      rewrite Ho', Ho, Hs', Hs in Hpost. exact Hpost.
Qed.

(** *** What a delivery leaves behind *)

Lemma repeating_or_not repeat : repeating repeat \/ ~ repeating repeat.
Proof.
  destruct (nextOccurrence repeat 0) as [nextTime|] eqn:Hn.
  - left. exact (nextOccurrence_Some _ _ _ Hn).
  - right. intros Hr. destruct (nextOccurrence_repeating repeat 0 Hr) as [? Hs].
    congruence.
Qed.

(** The expander on a record of a kind it knows: one new object, at a
    reference that was free, appended to the array. *)
Lemma scheduleNextRepeat_repeating msgData s m :
  objs s !! msgData = Some m ->
  repeating (Msg.repeat m) ->
  exists nextTime newId w1 created w2 l',
    nextOccurrence (Msg.repeat m) (Msg.scheduledTime m) = Some nextTime /\
    uuidv4 (world s) = (newId, w1) /\
    Date_now w1 = (created, w2) /\
    objs s !! l' = None /\
    scheduleNextRepeat msgData s =
      (Resolved tt,
       mkState
         (<[l' := Msg.mk newId (Msg.recipient m) (Msg.message m) nextTime
                    (Msg.repeat m) pending created None None None (Some (Msg.id m))]>
            (objs s))
         (scheduledMessages s ++ [l']) (isConnected s) w2 (log s)).
Proof.
  intros Hm Hrep.
  destruct (nextOccurrence_repeating _ (Msg.scheduledTime m) Hrep) as [nextTime Hn].
  destruct (uuidv4 (world s)) as [newId w1] eqn:Hu.
  destruct (Date_now w1) as [created w2] eqn:Hd.
  exists nextTime, newId, w1, created, w2, (fresh (dom (objs s))).
  repeat split; try assumption.
  - apply not_elem_of_dom, is_fresh.
  - rewrite (scheduleNextRepeat_Some msgData s nextTime newId w1 created w2);
      rewrite ?(lookup_total_Some _ _ _ Hm); auto.
Qed.

(** The record, and the store, after the function has returned [true]. *)
Lemma mark_sent_store msgData s m s' :
  objs s !! msgData = Some m ->
  mark_sent msgData s = (Resolved true, s') ->
  exists t,
    let m' := Msg.set_sentAt t (Msg.set_status sent m) in
    objs s' !! msgData = Some m' /\
    (repeating (Msg.repeat m) ->
     exists l' child,
       objs s !! l' = None /\
       objs s' = <[l' := child]> (<[msgData := m']> (objs s)) /\
       scheduledMessages s' = scheduledMessages s ++ [l'] /\
       Msg.parentId child = Some (Msg.id m) /\
       Msg.status child = pending) /\
    (~ repeating (Msg.repeat m) ->
     objs s' = <[msgData := m']> (objs s) /\
     scheduledMessages s' = scheduledMessages s).
Proof.
  intros Hm Hrun.
  destruct (mark_sent_run msgData s m Hm) as (t & w & s2 & _ & Hrun' & _ & _ & Hrep & Hnot).
  rewrite Hrun in Hrun'. injection Hrun' as <-.
  exists t. cbv zeta.
  set (m' := Msg.set_sentAt t (Msg.set_status sent m)) in *.
  set (sent_state := mkState _ _ _ _ _) in *.
  assert (Hm' : objs sent_state !! msgData = Some m') by apply lookup_insert_eq.
  destruct (repeating_or_not (Msg.repeat m)) as [Hr|Hn].
  - specialize (Hrep Hr).
    destruct (scheduleNextRepeat_repeating msgData sent_state m' Hm' Hr)
      as (nextTime & newId & w1 & created & w2 & l' & _ & _ & _ & Hfree & Hexp).
    rewrite Hexp in Hrep. injection Hrep as <-. cbn [objs scheduledMessages].
    assert (Hne : l' <> msgData) by (intros ->; congruence).
    split; [rewrite lookup_insert_ne by exact Hne; exact Hm'|].
    split; [|intros Hn; contradiction].
    intros _. eexists l', _. repeat split.
    subst sent_state. cbn [objs] in Hfree.
    rewrite lookup_insert_ne in Hfree by congruence. exact Hfree.
  - rewrite (Hnot Hn). cbn [objs scheduledMessages].
    split; [exact Hm'|]. split; [intros Hr; contradiction|]. auto.
Qed.

(** C10: the function always returns, and when it does the record is [sent]
    or [failed], never [pending]; it returns [true] exactly when the record is
    [sent]. *)
Theorem sendWhatsAppMessage_terminal msgData s m :
  objs s !! msgData = Some m ->
  exists b s' m',
    sendWhatsAppMessage msgData s = (Resolved b, s') /\
    objs s' !! msgData = Some m' /\
    (Msg.status m' = sent \/ Msg.status m' = failed) /\
    (b = true <-> Msg.status m' = sent).
Proof.
  intros Hm. destruct (isConnected s) eqn:Hc.
  - rewrite (sendWhatsAppMessage_connected _ _ Hc).
    destruct (retry_outcome (Z.to_nat maxRetries) 1 None msgData s m Hm)
      as ([|] & s' & Hr & Hpost).
    + destruct Hpost as (s0 & evs & Ho & _ & _ & Hmark).
      rewrite <- Ho in Hm.
      destruct (mark_sent_store msgData s0 m s' Hm Hmark) as (t & Hm' & _).
      exists true, s'. eexists. split; [exact Hr|]. split; [exact Hm'|].
      split; [left; reflexivity|]. split; reflexivity.
    + destruct Hpost as (e & Ho & _).
      exists false, s'. eexists. split; [exact Hr|].
      split; [rewrite Ho; apply lookup_insert_eq|].
      split; [right; reflexivity|]. split; discriminate.
  - rewrite (sendWhatsAppMessage_disconnected _ _ Hc).
    do 3 eexists. split; [reflexivity|]. cbn [objs].
    rewrite (alter_Some _ _ _ m Hm).
    rewrite (alter_Some _ _ _ (Msg.set_status failed m)) by apply lookup_insert_eq.
    split; [apply lookup_insert_eq|].
    split; [right; reflexivity|]. split; discriminate.
Qed.

(** *** Three attempts that throw *)



(** When the three attempts throw, the function comes to the code after the
    loop in the state that the third [catch] block leaves, with the third
    error as the last one; no record was touched on the way. *)
Lemma three_failures msgData s m e1 s1 e2 s2 e3 s3 :
  isConnected s = true ->
  objs s !! msgData = Some m ->
  attempt msgData s = (Rejected e1, s1) ->
  attempt msgData (after (recover 1 e1) s1) = (Rejected e2, s2) ->
  attempt msgData (after (recover 2 e2) s2) = (Rejected e3, s3) ->
  let s3' := after (recover 3 e3) s3 in
  sendWhatsAppMessage msgData s =
    (Resolved false,
     mkState
       (<[msgData := Msg.set_error (error_text (Some e3)) (Msg.set_status failed m)]>
          (objs s))
       (scheduledMessages s) (isConnected s3') (world s3') (log s3')) /\
  objs s1 = objs s /\ objs s2 = objs s /\ objs s3 = objs s.
Proof.
  intros Hc Hm H1 H2 H3 s3'.
  destruct (attempt_Rejected _ _ _ _ _ Hm H1) as (Ho1 & Hs1 & _).
  destruct (after_recover 1 e1 s1) as [Ho1' Hs1'].
  assert (Hm1 : objs (after (recover 1 e1) s1) !! msgData = Some m)
    by (rewrite Ho1', Ho1; exact Hm).
  destruct (attempt_Rejected _ _ _ _ _ Hm1 H2) as (Ho2 & Hs2 & _).
  destruct (after_recover 2 e2 s2) as [Ho2' Hs2'].
  assert (Hm2 : objs (after (recover 2 e2) s2) !! msgData = Some m)
    by (rewrite Ho2', Ho2, Ho1', Ho1; exact Hm).
  destruct (attempt_Rejected _ _ _ _ _ Hm2 H3) as (Ho3 & Hs3 & _).
  destruct (after_recover 3 e3 s3) as [Ho3' Hs3'].
  assert (Hm3 : objs s3' !! msgData = Some m)
    by (subst s3'; rewrite Ho3', Ho3, Ho2', Ho2, Ho1', Ho1; exact Hm).
  split; [|repeat split; congruence].
  rewrite (sendWhatsAppMessage_connected _ _ Hc).
  change (Z.to_nat maxRetries) with 3%nat.
  rewrite (retry_step _ _ _ _ _ _ _ H1). change (1 + 1) with 2.
  rewrite (retry_step _ _ _ _ _ _ _ H2). change (2 + 1) with 3.
  rewrite (retry_step _ _ _ _ _ _ _ H3). cbn [retry]. fold s3'.
  rewrite (all_failed_run _ _ _ m Hm3).
  assert (objs s3' = objs s) as -> by (subst s3'; congruence).
  assert (scheduledMessages s3' = scheduledMessages s) as ->
    by (subst s3'; congruence).
  reflexivity.
Qed.


(** C5, as the code has it: when the three attempts throw, the function
    returns [false] and the record is [failed]; its [error] is the message of
    the third error, or the text "Unknown error" if that message is empty. *)
Theorem sendWhatsAppMessage_exhausted msgData s m e1 s1 e2 s2 e3 s3 :
  isConnected s = true ->
  objs s !! msgData = Some m ->
  attempt msgData s = (Rejected e1, s1) ->
  attempt msgData (after (recover 1 e1) s1) = (Rejected e2, s2) ->
  attempt msgData (after (recover 2 e2) s2) = (Rejected e3, s3) ->
  exists s' m',
    sendWhatsAppMessage msgData s = (Resolved false, s') /\
    objs s' !! msgData = Some m' /\
    Msg.status m' = failed /\
    Msg.error m' = Some (or_else e3 "Unknown error") /\
    (e3 <> "" -> Msg.error m' = Some e3) /\
    (e3 = "" -> Msg.error m' = Some "Unknown error").
Proof.
  intros Hc Hm H1 H2 H3.
  destruct (three_failures _ _ _ _ _ _ _ _ _ Hc Hm H1 H2 H3) as (Hrun & _).
  cbv zeta in Hrun. do 2 eexists. split; [exact Hrun|]. cbn [objs].
  split; [apply lookup_insert_eq|]. cbn.
  repeat split.
  - intros Hne. destruct e3; [contradiction|reflexivity].
  - intros ->. reflexivity.
Qed.

(** What the [catch] block adds to the log comes after what was there. *)
Lemma after_recover_log n e s :
  exists evs, log (after (recover n e) s) = log s ++ evs.
Proof.
  unfold after. destruct (is_session_error e) eqn:He.
  - destruct (recover_session n e s He) as (s' & started & -> & _ & _ & _ & Hl).
    eexists. exact Hl.
  - rewrite (recover_generic n e s He). eexists. reflexivity.
Qed.

(** The loop returns [true] from an attempt that completed: an attempt made
    on the records and the array that the loop started with. *)
Lemma retry_true remaining n lastError msgData s m s' :
  objs s !! msgData = Some m ->
  retry remaining n lastError msgData s = (Resolved true, s') ->
  exists s0 evs,
    objs s0 = objs s /\
    scheduledMessages s0 = scheduledMessages s /\
    log s0 = log s ++ evs /\
    attempt msgData s0 = (Resolved true, s').
Proof.
  revert n lastError s.
  induction remaining as [|remaining IH]; intros n lastError s Hm Hrun.
  - cbn [retry] in Hrun. rewrite (all_failed_run _ _ _ m Hm) in Hrun. discriminate.
  - destruct (attempt msgData s) as [[b|e] s1] eqn:Ha.
    + rewrite (retry_done _ _ _ _ _ _ _ Ha) in Hrun. injection Hrun as -> ->.
      exists s, []. rewrite app_nil_r. auto.
    + destruct (attempt_Rejected _ _ _ _ _ Hm Ha) as (Ho & Hs & _ & calls & Hl & _).
      destruct (after_recover n e s1) as [Ho' Hs'].
      destruct (after_recover_log n e s1) as [evs1 Hl'].
      rewrite (retry_step _ _ _ _ _ _ _ Ha) in Hrun.
      destruct (IH (n + 1) (Some e) (after (recover n e) s1)) as
        (s0 & evs & Ho0 & Hs0 & Hl0 & Ha0); [rewrite Ho', Ho; exact Hm|exact Hrun|].
      exists s0, (calls ++ evs1 ++ evs).
      split; [congruence|]. split; [congruence|]. split; [|exact Ha0].
      rewrite Hl0, Hl', Hl, <- !app_assoc. reflexivity.
Qed.

(** C4, as the code has it.  An attempt succeeds when the client reports
    the state CONNECTED and its [sendMessage] resolves.  Such an attempt
    returns [true], and so does the loop at that attempt and the function
    when that attempt is its first; the record is then [sent] and [sentAt]
    is the clock read after the send.  If [repeat] is daily, weekly or
    monthly the store has gained exactly one object, at a reference that was
    free, appended to the array: a pending record with a new id, the fields
    of the parent, the next time and the id of the parent in [parentId].  For
    any other [repeat] the store has gained nothing.  An attempt that throws
    changes no record and not the array, and the client did not accept the
    message.  The function returns [true] only from an attempt that
    succeeded, made on the records and the array it started with; when it
    returns [false] the record is [failed], no other object has changed and
    the array is as it was. *)
Theorem sendWhatsAppMessage_continuation msgData s m :
  objs s !! msgData = Some m ->
  let chatId := formatPhoneNumber (Msg.recipient m) in
  let send := ESendMessage chatId (Msg.message m) in
  (forall w1 w2 t w3,
     client_getState (world s) = (Resolved "CONNECTED", w1) ->
     client_sendMessage chatId (Msg.message m) w1 = (Resolved tt, w2) ->
     Date_now w2 = (t, w3) ->
     let m' := Msg.set_sentAt t (Msg.set_status sent m) in
     exists s',
       attempt msgData s = (Resolved true, s') /\
       (forall remaining n lastError,
          retry (S remaining) n lastError msgData s = (Resolved true, s')) /\
       (isConnected s = true ->
        sendWhatsAppMessage msgData s = (Resolved true, s')) /\
       log s' = log s ++ [EGetState; send] /\
       isConnected s' = isConnected s /\
       objs s' !! msgData = Some m' /\
       Msg.status m' = sent /\
       Msg.sentAt m' = Some t /\
       (repeating (Msg.repeat m) ->
        exists nextTime newId w4 created w5 l',
          nextOccurrence (Msg.repeat m) (Msg.scheduledTime m) = Some nextTime /\
          uuidv4 w3 = (newId, w4) /\
          Date_now w4 = (created, w5) /\
          objs s !! l' = None /\
          objs s' =
            <[l' := Msg.mk newId (Msg.recipient m) (Msg.message m) nextTime
                      (Msg.repeat m) pending created None None None (Some (Msg.id m))]>
              (<[msgData := m']> (objs s)) /\
          scheduledMessages s' = scheduledMessages s ++ [l'] /\
          world s' = w5) /\
       (~ repeating (Msg.repeat m) ->
        objs s' = <[msgData := m']> (objs s) /\
        scheduledMessages s' = scheduledMessages s /\
        world s' = w3)) /\
  (forall e s1,
     attempt msgData s = (Rejected e, s1) ->
     objs s1 = objs s /\
     scheduledMessages s1 = scheduledMessages s /\
     forall w1 w2,
       client_getState (world s) = (Resolved "CONNECTED", w1) ->
       client_sendMessage chatId (Msg.message m) w1 <> (Resolved tt, w2)) /\
  (forall b s',
     sendWhatsAppMessage msgData s = (Resolved b, s') ->
     (b = true ->
      isConnected s = true /\
      exists s0 evs w1 w2,
        objs s0 = objs s /\
        scheduledMessages s0 = scheduledMessages s /\
        log s0 = log s ++ evs /\
        client_getState (world s0) = (Resolved "CONNECTED", w1) /\
        client_sendMessage chatId (Msg.message m) w1 = (Resolved tt, w2) /\
        attempt msgData s0 = (Resolved true, s')) /\
     (b = false ->
      (exists e,
         objs s' = <[msgData := Msg.set_error e (Msg.set_status failed m)]> (objs s)) /\
      scheduledMessages s' = scheduledMessages s /\
      dom (objs s') = dom (objs s))).
Proof.
  intros Hm chatId send.
  assert (Hgood : forall w1 w2 t w3,
     client_getState (world s) = (Resolved "CONNECTED", w1) ->
     client_sendMessage chatId (Msg.message m) w1 = (Resolved tt, w2) ->
     Date_now w2 = (t, w3) ->
     let m' := Msg.set_sentAt t (Msg.set_status sent m) in
     exists s',
       attempt msgData s = (Resolved true, s') /\
       log s' = log s ++ [EGetState; send] /\
       isConnected s' = isConnected s /\
       objs s' !! msgData = Some m' /\
       (repeating (Msg.repeat m) ->
        exists nextTime newId w4 created w5 l',
          nextOccurrence (Msg.repeat m) (Msg.scheduledTime m) = Some nextTime /\
          uuidv4 w3 = (newId, w4) /\
          Date_now w4 = (created, w5) /\
          objs s !! l' = None /\
          objs s' =
            <[l' := Msg.mk newId (Msg.recipient m) (Msg.message m) nextTime
                      (Msg.repeat m) pending created None None None (Some (Msg.id m))]>
              (<[msgData := m']> (objs s)) /\
          scheduledMessages s' = scheduledMessages s ++ [l'] /\
          world s' = w5) /\
       (~ repeating (Msg.repeat m) ->
        objs s' = <[msgData := m']> (objs s) /\
        scheduledMessages s' = scheduledMessages s /\
        world s' = w3)).
  { intros w1 w2 t w3 Hg Hsend Hd m'.
    set (s2 := with_event (with_event s w1 EGetState) w2 send).
    assert (Ha : attempt msgData s = mark_sent msgData s2).
    { unfold attempt, bind, getState. rewrite Hg. cbn [negb String.eqb Ascii.eqb
        Bool.eqb andb]. unfold read, sendMessage. cbn [world with_event objs].
      rewrite (lookup_total_Some _ _ _ Hm). fold chatId. rewrite Hsend. reflexivity. }
    destruct (mark_sent_run msgData s2 m Hm)
      as (t0 & w0 & s' & Hd0 & Hrun & Hc & Hl & Hrep & Hnot).
    cbn [world s2 with_event] in Hd0. rewrite Hd in Hd0. injection Hd0 as <- <-.
    exists s'. rewrite Ha. split; [exact Hrun|].
    split; [rewrite Hl; cbn; rewrite <- app_assoc; reflexivity|].
    split; [exact Hc|].
    cbn [objs scheduledMessages isConnected log s2 with_event] in Hrep, Hnot.
    fold m' in Hrep, Hnot.
    set (sent_state := mkState _ _ _ _ _) in Hrep, Hnot.
    assert (Hm' : objs sent_state !! msgData = Some m') by apply lookup_insert_eq.
    destruct (repeating_or_not (Msg.repeat m)) as [Hk|Hk].
    - specialize (Hrep Hk).
      destruct (scheduleNextRepeat_repeating msgData sent_state m' Hm' Hk)
        as (nextTime & newId & w4 & created & w5 & l' & Hn & Hu & Hd5 & Hfree & Hexp).
      rewrite Hexp in Hrep. injection Hrep as <-. cbn [objs scheduledMessages world].
      assert (Hne : l' <> msgData) by (intros ->; congruence).
      split; [rewrite lookup_insert_ne by exact Hne; exact Hm'|].
      split; [|intros Hno; contradiction].
      intros _. exists nextTime, newId, w4, created, w5, l'.
      subst sent_state. cbn [objs world] in *.
      rewrite lookup_insert_ne in Hfree by congruence. auto 10.
    - rewrite (Hnot Hk). cbn [objs scheduledMessages world].
      split; [exact Hm'|]. split; [intros Hr; contradiction|]. auto. }
  split; [|split].
  - intros w1 w2 t w3 Hg Hsend Hd m'.
    destruct (Hgood w1 w2 t w3 Hg Hsend Hd) as (s' & Ha & Hl & Hc & Hm' & Hrep & Hnot).
    exists s'. split; [exact Ha|].
    split; [intros remaining n lastError; apply retry_done, Ha|].
    split; [intros Hcon; rewrite (sendWhatsAppMessage_connected _ _ Hcon);
            apply retry_done, Ha|].
    auto 10.
  - intros e s1 Ha.
    destruct (attempt_Rejected _ _ _ _ _ Hm Ha) as (Ho & Hs & _).
    split; [exact Ho|]. split; [exact Hs|].
    intros w1 w2 Hg Hsend.
    destruct (Date_now w2) as [t w3] eqn:Hd.
    destruct (Hgood w1 w2 t w3 Hg Hsend Hd) as (s' & Ha' & _). congruence.
  - intros b s' Hrun.
    assert (Hdom : forall m', dom (<[msgData := m']> (objs s)) = dom (objs s))
      by (intros m'; apply dom_insert_lookup_L; exists m; exact Hm).
    destruct (isConnected s) eqn:Hc.
    + rewrite (sendWhatsAppMessage_connected _ _ Hc) in Hrun. split.
      * intros ->. split; [reflexivity|].
        destruct (retry_true _ _ _ _ _ _ _ Hm Hrun) as (s0 & evs & Ho & Hs & Hl & Ha).
        assert (Hm0 : objs s0 !! msgData = Some m) by (rewrite Ho; exact Hm).
        destruct (attempt_Resolved _ _ _ _ _ Hm0 Ha) as (w1 & w2 & Hg & Hsend & _).
        exists s0, evs, w1, w2. auto 10.
      * intros ->.
        destruct (retry_outcome (Z.to_nat maxRetries) 1 None msgData s m Hm)
          as (b0 & s0' & Hr & Hpost).
        rewrite Hrun in Hr. injection Hr as <- <-.
        destruct Hpost as (e & Ho & Hs). rewrite Ho.
        split; [exists e; reflexivity|]. split; [exact Hs|apply Hdom].
    + rewrite (sendWhatsAppMessage_disconnected _ _ Hc) in Hrun.
      injection Hrun as <- <-. split; [discriminate|intros _].
      cbn [objs scheduledMessages].
      rewrite (alter_Some _ _ _ m Hm).
      rewrite (alter_Some _ _ _ (Msg.set_status failed m)) by apply lookup_insert_eq.
      rewrite insert_insert_eq.
      split; [eexists; reflexivity|]. split; [reflexivity|apply Hdom].
Qed.

(** *** The recurrence expander *)

Lemma nextOccurrence_local repeat t nextTime :
  nextOccurrence repeat t = Some nextTime ->
  let local := LocalTime LocalTZA t in
  exists local',
    nextTime = UTC LocalTZA local' /\
    (repeat = "daily" -> local' = local + 1 * msPerDay) /\
    (repeat = "weekly" -> local' = local + 7 * msPerDay) /\
    (repeat = "monthly" ->
     local' = MakeDate (MakeDay (YearFromTime local) (MonthFromTime local + 1)
                          (DateFromTime local))
                (TimeWithinDay local)).
Proof.
  unfold nextOccurrence. cbv zeta.
  destruct (String.eqb_spec repeat "daily") as [->|Hd];
    [|destruct (String.eqb_spec repeat "weekly") as [->|Hw];
      [|destruct (String.eqb_spec repeat "monthly") as [->|Hm]; [|discriminate]]];
    intros [= <-].
  - rewrite setDate_getDate. eexists. split; [reflexivity|].
    split; [reflexivity|]. split; discriminate.
  - rewrite setDate_getDate. eexists. split; [reflexivity|].
    split; [discriminate|]. split; [reflexivity|discriminate].
  - eexists. split; [reflexivity|].
    split; [discriminate|]. split; [discriminate|reflexivity].
Qed.

(** C6: on a record whose [repeat] is daily, weekly or monthly the expander
    adds one record to the store and does not touch the parent.  The new
    record has the id that [uuidv4] gives, the recipient, the message and the
    [repeat] of the parent, the status [pending], the current time as
    [createdAt], and the id of the parent as [parentId].  Its date is the
    scheduled date of the parent moved, in local time, by one day, by seven
    days, or to the same day and time of day of the next month (a day that
    the next month lacks runs over into the month after it, as [MakeDay]
    counts); where the zone keeps one offset, a day is 24 hours. *)
Theorem scheduleNextRepeat_inserts msgData s m :
  objs s !! msgData = Some m ->
  repeating (Msg.repeat m) ->
  exists s' l' child local',
    scheduleNextRepeat msgData s = (Resolved tt, s') /\
    objs s !! l' = None /\
    objs s' = <[l' := child]> (objs s) /\
    scheduledMessages s' = scheduledMessages s ++ [l'] /\
    objs s' !! msgData = Some m /\
    Msg.id child = (uuidv4 (world s)).1 /\
    Msg.recipient child = Msg.recipient m /\
    Msg.message child = Msg.message m /\
    Msg.repeat child = Msg.repeat m /\
    Msg.status child = pending /\
    Msg.createdAt child = (Date_now (uuidv4 (world s)).2).1 /\
    Msg.parentId child = Some (Msg.id m) /\
    Msg.updatedAt child = None /\
    Msg.sentAt child = None /\
    Msg.error child = None /\
    let local := LocalTime LocalTZA (Msg.scheduledTime m) in
    Msg.scheduledTime child = UTC LocalTZA local' /\
    (Msg.repeat m = "daily" -> local' = local + 1 * msPerDay) /\
    (Msg.repeat m = "weekly" -> local' = local + 7 * msPerDay) /\
    (Msg.repeat m = "monthly" ->
     local' = MakeDate (MakeDay (YearFromTime local) (MonthFromTime local + 1)
                          (DateFromTime local))
                (TimeWithinDay local) /\
     (DateFromTime local <= 28 ->
      YearFromTime local' = YearFromTime local + (MonthFromTime local + 1) / 12 /\
      MonthFromTime local' = (MonthFromTime local + 1) mod 12 /\
      DateFromTime local' = DateFromTime local /\
      TimeWithinDay local' = TimeWithinDay local)) /\
    (forall offset,
       (forall t isUTC, LocalTZA t isUTC = offset) ->
       (Msg.repeat m = "daily" ->
        Msg.scheduledTime child = Msg.scheduledTime m + 1 * msPerDay) /\
       (Msg.repeat m = "weekly" ->
        Msg.scheduledTime child = Msg.scheduledTime m + 7 * msPerDay)).
Proof.
  intros Hm Hrep.
  destruct (scheduleNextRepeat_repeating msgData s m Hm Hrep)
    as (nextTime & newId & w1 & created & w2 & l' & Hn & Hu & Hd & Hfree & Hrun).
  destruct (nextOccurrence_local _ _ _ Hn) as (local' & Hnext & Hday & Hweek & Hmonth).
  eexists _, l', _, local'. split; [exact Hrun|]. cbn [objs scheduledMessages].
  split; [exact Hfree|]. split; [reflexivity|]. split; [reflexivity|].
  split; [rewrite lookup_insert_ne by congruence; exact Hm|].
  rewrite Hu. cbn [fst snd]. rewrite Hd. cbn.
  do 10 (split; [reflexivity|]).
  split; [exact Hnext|]. split; [exact Hday|]. split; [exact Hweek|].
  split.
  - intros Hk. split; [exact (Hmonth Hk)|]. intros Hshort.
    rewrite (Hmonth Hk).
    rewrite MakeDay_carry. apply fields_of_MakeDate.
    + pose proof (Z.mod_pos_bound
                    (MonthFromTime (LocalTime LocalTZA (Msg.scheduledTime m)) + 1)
                    12 eq_refl). lia.
    + pose proof (DateFromTime_range (LocalTime LocalTZA (Msg.scheduledTime m))). lia.
    + apply TimeWithinDay_range.
  - intros offset Hz. subst nextTime. unfold UTC, LocalTime in *.
    rewrite !Hz in *. split; intros Hk; [rewrite (Hday Hk)|rewrite (Hweek Hk)]; lia.
Qed.

End Delivery.

(** ** The API *)

Section Api.

Context {W : Type} `{Host W}.

Implicit Types (s : state W) (m : Msg.t).

(** X3: a creation request whose time is not later than the clock is
    answered 400, whatever else it holds, and the store is left as it
    was. *)
Theorem post_schedule_not_future body s t :
  Date_parse (body_scheduledTime body) = Some t ->
  t <= (Date_now (world s)).1 ->
  exists error s',
    post_schedule body s = (Resolved (Failure 400 error), s') /\
    objs s' = objs s /\
    scheduledMessages s' = scheduledMessages s.
Proof.
  intros Hp Hle. unfold post_schedule. cbv zeta.
  destruct (negb (truthy (body_recipient body)) || negb (truthy (body_message body))
            || negb (truthy (body_scheduledTime body))).
  { do 2 eexists. split; [reflexivity|]. auto. }
  destruct (Z.of_nat (String.length (strip_non_phone (body_recipient body))) <? 10).
  { do 2 eexists. split; [reflexivity|]. auto. }
  unfold bind, now. destruct (Date_now (world s)) as [t0 w] eqn:Hd.
  rewrite Hp. cbn [date_le fst] in *.
  destruct (Z.leb_spec t t0); [|lia].
  do 2 eexists. split; [reflexivity|]. auto.
Qed.

(** X4: a creation request that is accepted leaves a pending record whose
    time is later than the clock was when the request was checked. *)
Theorem post_schedule_accepted body s record s' :
  post_schedule body s = (Resolved (Scheduled record), s') ->
  Msg.status record = pending /\
  (Date_now (world s)).1 < Msg.scheduledTime record /\
  Date_parse (body_scheduledTime body) = Some (Msg.scheduledTime record) /\
  exists l,
    objs s !! l = None /\
    objs s' = <[l := record]> (objs s) /\
    scheduledMessages s' = scheduledMessages s ++ [l].
Proof.
  unfold post_schedule. cbv zeta.
  destruct (negb (truthy (body_recipient body)) || negb (truthy (body_message body))
            || negb (truthy (body_scheduledTime body))); [discriminate|].
  destruct (Z.of_nat (String.length (strip_non_phone (body_recipient body))) <? 10);
    [discriminate|].
  unfold bind, now, uuid. destruct (Date_now (world s)) as [t0 w] eqn:Hd.
  destruct (Date_parse (body_scheduledTime body)) as [t|] eqn:Hp; cbn [date_le].
  - destruct (Z.leb_spec t t0); [discriminate|].
    cbn [world with_world]. destruct (uuidv4 w) as [newId w1].
    cbn [toISOString ret world with_world]. destruct (Date_now w1) as [created w2].
    unfold alloc, push, bind, get_scheduledMessages, set_scheduledMessages, read, ret.
    cbn [objs scheduledMessages world with_world isConnected log].
    rewrite lookup_total_insert_eq. intros [= <- <-]. cbn.
    repeat split; [assumption|].
    eexists. split; [apply not_elem_of_dom, is_fresh|]. split; reflexivity.
  - cbn [world with_world]. destruct (uuidv4 w) as [newId w1].
    cbn [toISOString]. unfold throw. discriminate.
Qed.

(** An edit of a pending record takes any time that parses, past ones
    included: the handler does not look at the clock before it assigns. *)
Lemma put_message_any_time id body s i existing m t :
  findIndex id s = (Resolved (Some (i, existing)), s) ->
  objs s !! existing = Some m ->
  Msg.status m = pending ->
  Date_parse (body_scheduledTime body) = Some t ->
  truthy (body_scheduledTime body) = true ->
  exists record s',
    put_message id body s = (Resolved (Scheduled record), s') /\
    objs s' !! existing = Some record /\
    Msg.scheduledTime record = t.
Proof.
  intros Hf Hm Hst Hp Ht. unfold put_message, bind. rewrite Hf.
  unfold read at 1. rewrite (lookup_total_Some _ _ _ Hm), Hst.
  rewrite bool_decide_eq_true_2 by reflexivity.
  cbn [negb]. rewrite Ht, Hp.
  unfold assign_if, toISOString, update, bind, now, read, ret.
  destruct (truthy (body_recipient body)), (truthy (body_message body)),
    (truthy (body_repeat body));
    cbn [world with_world objs scheduledMessages isConnected log];
    destruct (Date_now (world s)) as [t0 w];
    (do 2 eexists; split; [reflexivity|]);
    cbn [objs with_world];
    rewrite !lookup_total_alt, !lookup_alter_eq, Hm;
    split; reflexivity.
Qed.

Lemma findIndex_found id s i existing :
  findIndex id s = (Resolved (Some (i, existing)), s) ->
  scheduledMessages s !! i = Some existing /\ Msg.id (objs s !!! existing) = id.
Proof.
  unfold findIndex. intros [= Hf]. apply list_find_Some in Hf. tauto.
Qed.

(** C7: a record that is not pending cannot be edited, and can be deleted.
    The edit is answered 400 and changes nothing, on the server or in the
    world; the deletion is answered with success and takes the record out of
    the array, whatever its status. *)
Theorem edit_refused_delete_allowed id body s i existing m :
  findIndex id s = (Resolved (Some (i, existing)), s) ->
  objs s !! existing = Some m ->
  Msg.status m <> pending ->
  put_message id body s
    = (Resolved (Failure 400 "Can only edit pending messages"), s) /\
  delete_message id s
    = (Resolved (Success "Message cancelled successfully"),
       mkState (objs s) (delete i (scheduledMessages s)) (isConnected s)
         (world s) (log s)) /\
  scheduledMessages s !! i = Some existing /\
  Msg.id m = id /\
  length (delete i (scheduledMessages s)) = pred (length (scheduledMessages s)).
Proof.
  intros Hf Hm Hst.
  destruct (findIndex_found _ _ _ _ Hf) as [Hi Hid].
  rewrite (lookup_total_Some _ _ _ Hm) in Hid.
  split; [|split; [|split; [exact Hi|split; [exact Hid|]]]].
  - unfold put_message, bind. rewrite Hf. unfold read.
    rewrite (lookup_total_Some _ _ _ Hm).
    rewrite bool_decide_eq_false_2 by exact Hst. reflexivity.
  - unfold delete_message, bind. rewrite Hf. reflexivity.
  - rewrite length_delete by (exists existing; exact Hi). lia.
Qed.

End Api.

(** ** The scheduler *)

Section Scheduler.

Context {W : Type} `{Host W}.

Implicit Types (s : state W) (m : Msg.t).

(** *** The tick *)

(** What one delivery does to the store: the record ends [sent] or [failed]
    as the function returns [true] or [false], no other object changes, and
    the array only grows, by references to objects. *)
Lemma sendWhatsAppMessage_outcome msgData s m :
  objs s !! msgData = Some m ->
  exists b s' m' new,
    sendWhatsAppMessage msgData s = (Resolved b, s') /\
    objs s' !! msgData = Some m' /\
    Msg.status m' = (if b : bool then sent else failed) /\
    (forall l m0, l <> msgData -> objs s !! l = Some m0 -> objs s' !! l = Some m0) /\
    scheduledMessages s' = scheduledMessages s ++ new /\
    (forall l, l ∈ new -> is_Some (objs s' !! l)).
Proof.
  intros Hm. destruct (isConnected s) eqn:Hc.
  - rewrite (sendWhatsAppMessage_connected _ _ Hc).
    destruct (retry_outcome (Z.to_nat maxRetries) 1 None msgData s m Hm)
      as ([|] & s' & Hr & Hpost).
    + destruct Hpost as (s0 & evs & Ho & Hs & _ & Hmark).
      rewrite <- Ho in Hm.
      destruct (mark_sent_store msgData s0 m s' Hm Hmark) as (t & Hm' & Hrep & Hnot).
      rewrite Ho, Hs in *.
      destruct (repeating_or_not (Msg.repeat m)) as [Hk|Hk].
      * destruct (Hrep Hk) as (l' & child & Hfree & Hobjs & Harr & _).
        exists true, s'. eexists _, [l']. split; [exact Hr|].
        split; [exact Hm'|]. split; [reflexivity|]. split; [|split; [exact Harr|]].
        -- intros l m0 Hne Hl. rewrite Hobjs.
           rewrite lookup_insert_ne by congruence.
           rewrite lookup_insert_ne by congruence. exact Hl.
        -- intros l ->%list_elem_of_singleton. rewrite Hobjs, lookup_insert_eq. eauto.
      * destruct (Hnot Hk) as [Hobjs Harr].
        exists true, s'. eexists _, []. split; [exact Hr|].
        split; [exact Hm'|]. split; [reflexivity|]. split; [|split].
        -- intros l m0 Hne Hl. rewrite Hobjs, lookup_insert_ne by congruence. exact Hl.
        -- rewrite app_nil_r. exact Harr.
        -- intros l Hl. inversion Hl.
    + destruct Hpost as (e & Hobjs & Harr).
      exists false, s'. eexists _, []. split; [exact Hr|].
      split; [rewrite Hobjs; apply lookup_insert_eq|]. split; [reflexivity|].
      split; [|split].
      * intros l m0 Hne Hl. rewrite Hobjs, lookup_insert_ne by congruence. exact Hl.
      * rewrite app_nil_r. exact Harr.
      * intros l Hl. inversion Hl.
  - rewrite (sendWhatsAppMessage_disconnected _ _ Hc).
    exists false. eexists _, _, []. split; [reflexivity|]. cbn [objs scheduledMessages].
    rewrite (alter_Some _ _ _ m Hm).
    rewrite (alter_Some _ _ _ (Msg.set_status failed m)) by apply lookup_insert_eq.
    rewrite insert_insert_eq.
    split; [apply lookup_insert_eq|]. split; [reflexivity|]. split; [|split].
    + intros l m0 Hne Hl. rewrite lookup_insert_ne by congruence. exact Hl.
    + rewrite app_nil_r. reflexivity.
    + intros l Hl. inversion Hl.
Qed.

(** The loop of the tick over a snapshot [msgs] of references to objects:
    every object of the snapshot ends [sent] or [failed], every other object
    is as it was, and the array only grows. *)
Lemma send_all_outcome msgs s :
  (forall l, l ∈ msgs -> is_Some (objs s !! l)) ->
  exists s' new,
    send_all msgs s = (Resolved tt, s') /\
    (forall l m,
       objs s !! l = Some m ->
       exists m',
         objs s' !! l = Some m' /\
         (l ∉ msgs -> m' = m) /\
         (l ∈ msgs -> Msg.status m' = sent \/ Msg.status m' = failed)) /\
    scheduledMessages s' = scheduledMessages s ++ new /\
    (forall l, l ∈ new -> is_Some (objs s' !! l)).
Proof.
  revert s. induction msgs as [|msg rest IH]; intros s Hvalid.
  - exists s, []. split; [reflexivity|]. split; [|split].
    + intros l m Hl. exists m. split; [exact Hl|]. split; [reflexivity|].
      intros Hin. inversion Hin.
    + rewrite app_nil_r. reflexivity.
    + intros l Hin. inversion Hin.
  - destruct (Hvalid msg) as [m0 Hm0]; [left|].
    destruct (sendWhatsAppMessage_outcome msg s m0 Hm0)
      as (b & s1 & m1 & new1 & Hrun & Hm1 & Hst & Hframe & Harr1 & Hnew1).
    assert (Hkept : forall l m, objs s !! l = Some m ->
              exists m', objs s1 !! l = Some m' /\ (l <> msg -> m' = m)).
    { intros l m Hl. destruct (decide (l = msg)) as [->|Hne].
      - exists m1. split; [exact Hm1|]. congruence.
      - exists m. split; [apply Hframe; assumption|]. reflexivity. }
    destruct (IH s1) as (s' & new & Hrest & Hobjs & Harr & Hnew).
    { intros l Hl. destruct (Hvalid l) as [m Hm]; [right; exact Hl|].
      destruct (Hkept l m Hm) as (m' & Hm' & _). eauto. }
    exists s', (new1 ++ new). split; [|split; [|split]].
    + cbn [send_all]. unfold bind. rewrite Hrun. exact Hrest.
    + intros l m Hl. destruct (Hkept l m Hl) as (m' & Hm' & Hsame).
      destruct (Hobjs l m' Hm') as (m'' & Hm'' & Hout & Hin).
      exists m''. split; [exact Hm''|]. split.
      * intros Hnot. rewrite not_elem_of_cons in Hnot. destruct Hnot as [Hne Hnot].
        rewrite (Hout Hnot). apply Hsame, Hne.
      * intros Hl'. destruct (decide (l ∈ rest)) as [Hr|Hr]; [apply Hin, Hr|].
        apply elem_of_cons in Hl'. destruct Hl' as [->|Hl']; [|contradiction].
        rewrite (Hout Hr). rewrite Hm1 in Hm'. injection Hm' as <-.
        rewrite Hst. destruct b; auto.
    + rewrite Harr, Harr1, app_assoc. reflexivity.
    + intros l [Hl|Hl]%elem_of_app; [|apply Hnew, Hl].
      destruct (Hnew1 l Hl) as [m Hm].
      destruct (Hobjs l m Hm) as (m' & Hm' & _). eauto.
Qed.

(** X1: the tick.  The records of the array that are pending and due when
    it starts end [sent] or [failed]; every other object is left as it was;
    the array keeps its entries, in order, and stays well formed. *)
Theorem dispatch_outcome s :
  well_formed s ->
  exists s' new,
    dispatch s = (Resolved tt, s') /\
    let t := (Date_now (world s)).1 in
    (forall l m,
       objs s !! l = Some m ->
       exists m',
         objs s' !! l = Some m' /\
         (l ∈ scheduledMessages s -> due t m ->
          Msg.status m' = sent \/ Msg.status m' = failed) /\
         (~ (l ∈ scheduledMessages s /\ due t m) -> m' = m)) /\
    scheduledMessages s' = scheduledMessages s ++ new /\
    well_formed s'.
Proof.
  intros Hwf. unfold dispatch, bind, now, filter_messages.
  destruct (Date_now (world s)) as [t w] eqn:Hd.
  cbn [world with_world objs scheduledMessages isConnected log fst].
  set (s0 := with_world s w).
  set (snapshot := List.filter _ _).
  assert (Hsnap : forall l,
    l ∈ snapshot <->
    l ∈ scheduledMessages s /\ due t (objs s !!! l)).
  { intros l. subst snapshot. rewrite !list_elem_of_In, filter_In. unfold due.
    rewrite andb_true_iff, bool_decide_eq_true, Z.leb_le. reflexivity. }
  destruct (send_all_outcome snapshot s0) as (s' & new & Hrun & Hobjs & Harr & Hnew).
  { intros l [Hl _]%Hsnap. apply Hwf, Hl. }
  exists s', new. split; [exact Hrun|]. split; [|split; [exact Harr|]].
  - intros l m Hl. destruct (Hobjs l m Hl) as (m' & Hm' & Hout & Hin).
    exists m'. split; [exact Hm'|].
    split.
    + intros Harray Hdue. apply Hin, Hsnap.
      rewrite (lookup_total_Some _ _ _ Hl). auto.
    + intros Hnot. apply Hout.
      rewrite Hsnap, (lookup_total_Some _ _ _ Hl). exact Hnot.
  - intros l. rewrite Harr. intros [Hl|Hl]%elem_of_app; [|apply Hnew, Hl].
    destruct (Hwf l Hl) as [m Hm].
    destruct (Hobjs l m Hm) as (m' & Hm' & _). eauto.
Qed.

(** The loop of the tick while the server is not connected: every object of
    the snapshot fails at once, and nothing else happens. *)
Lemma send_all_not_connected msgs s :
  isConnected s = false ->
  (forall l, l ∈ msgs -> is_Some (objs s !! l)) ->
  exists s',
    send_all msgs s = (Resolved tt, s') /\
    isConnected s' = false /\
    log s' = log s /\
    world s' = world s /\
    scheduledMessages s' = scheduledMessages s /\
    forall l m,
      objs s !! l = Some m ->
      objs s' !! l =
        Some (if decide (l ∈ msgs)
              then Msg.set_error "WhatsApp not connected" (Msg.set_status failed m)
              else m).
Proof.
  revert s. induction msgs as [|msg rest IH]; intros s Hc Hvalid.
  - exists s. repeat split; try assumption. intros l m Hl.
    rewrite decide_False by (intros Hin; inversion Hin). exact Hl.
  - destruct (Hvalid msg) as [m0 Hm0]; [left|].
    cbn [send_all]. unfold bind.
    rewrite (sendWhatsAppMessage_disconnected _ _ Hc).
    rewrite (alter_Some _ _ _ m0 Hm0).
    rewrite (alter_Some _ _ _ (Msg.set_status failed m0)) by apply lookup_insert_eq.
    rewrite insert_insert_eq.
    set (s1 := mkState _ _ _ _ _).
    destruct (IH s1) as (s' & Hrun & Hc' & Hlog & Hw & Harr & Hobjs).
    { exact Hc. }
    { intros l Hl. subst s1. cbn [objs]. rewrite lookup_insert_is_Some'.
      right. apply Hvalid. right. exact Hl. }
    exists s'. split; [exact Hrun|]. do 4 (split; [assumption|]).
    intros l m Hl. destruct (decide (l = msg)) as [->|Hne].
    + rewrite Hl in Hm0. injection Hm0 as <-.
      rewrite (Hobjs msg _ (lookup_insert_eq _ _ _)).
      rewrite (decide_True (P := msg ∈ msg :: rest)) by left.
      destruct (decide (msg ∈ rest)); reflexivity.
    + rewrite (Hobjs l m) by (subst s1; cbn [objs]; rewrite lookup_insert_ne by congruence;
                              exact Hl).
      destruct (decide (l ∈ rest)) as [Hr|Hr].
      * rewrite decide_True by (right; exact Hr). reflexivity.
      * rewrite decide_False; [reflexivity|].
        intros [?|?]%elem_of_cons; contradiction.
Qed.

(** X2: the tick while the server is not connected.  Every record that is
    pending and due becomes [failed] with the error "WhatsApp not connected",
    every other object is left as it was, the array is unchanged, and no
    call reaches the client. *)
Theorem dispatch_not_connected s :
  isConnected s = false ->
  well_formed s ->
  exists s',
    dispatch s = (Resolved tt, s') /\
    log s' = log s /\
    scheduledMessages s' = scheduledMessages s /\
    let t := (Date_now (world s)).1 in
    forall l m,
      objs s !! l = Some m ->
      (l ∈ scheduledMessages s -> due t m ->
       objs s' !! l =
         Some (Msg.set_error "WhatsApp not connected" (Msg.set_status failed m))) /\
      (~ (l ∈ scheduledMessages s /\ due t m) -> objs s' !! l = Some m).
Proof.
  intros Hc Hwf. unfold dispatch, bind, now, filter_messages.
  destruct (Date_now (world s)) as [t w] eqn:Hd.
  cbn [world with_world objs scheduledMessages isConnected log fst].
  set (snapshot := List.filter _ _).
  assert (Hsnap : forall l,
    l ∈ snapshot <->
    l ∈ scheduledMessages s /\ due t (objs s !!! l)).
  { intros l. subst snapshot. rewrite !list_elem_of_In, filter_In. unfold due.
    rewrite andb_true_iff, bool_decide_eq_true, Z.leb_le. reflexivity. }
  destruct (send_all_not_connected snapshot (with_world s w))
    as (s' & Hrun & _ & Hlog & _ & Harr & Hobjs).
  { exact Hc. }
  { intros l [Hl _]%Hsnap. apply Hwf, Hl. }
  exists s'. split; [exact Hrun|]. split; [exact Hlog|]. split; [exact Harr|].
  intros l m Hl. rewrite (Hobjs l m Hl). split.
  - intros Harray Hdue. rewrite decide_True; [reflexivity|].
    apply Hsnap. rewrite (lookup_total_Some _ _ _ Hl). auto.
  - intros Hnot. rewrite decide_False; [reflexivity|].
    rewrite Hsnap, (lookup_total_Some _ _ _ Hl). exact Hnot.
Qed.

(** C8: the daily sweep keeps, in their order, the records that are pending
    or were created after the instant seven days of local time before the
    sweep, and drops the others: the [sent] and [failed] records created at
    or before that instant.  No object is changed.  Where the offset of the
    zone varies by less than a day, a record that is not pending and is eight
    days old or more goes, and a record six days old or less stays; a pending
    record stays at any age. *)
Theorem cleanup_sweep s :
  exists s' sevenDaysAgo,
    cleanup s = (Resolved tt, s') /\
    let t := (Date_now (world s)).1 in
    sevenDaysAgo = UTC LocalTZA (LocalTime LocalTZA t - 7 * msPerDay) /\
    objs s' = objs s /\
    scheduledMessages s'
      = List.filter
          (fun l => bool_decide (Msg.status (objs s !!! l) = pending)
                    || (sevenDaysAgo <? Msg.createdAt (objs s !!! l)))
          (scheduledMessages s) /\
    (forall l,
       l ∈ scheduledMessages s' <->
       l ∈ scheduledMessages s /\
       (Msg.status (objs s !!! l) = pending \/
        sevenDaysAgo < Msg.createdAt (objs s !!! l))) /\
    (forall l,
       l ∈ scheduledMessages s ->
       (l ∉ scheduledMessages s' <->
        Msg.status (objs s !!! l) <> pending /\
        Msg.createdAt (objs s !!! l) <= sevenDaysAgo)) /\
    (forall offset,
       (forall t' isUTC, LocalTZA t' isUTC = offset) ->
       sevenDaysAgo = t - 7 * msPerDay) /\
    ((forall t1 b1 t2 b2, Z.abs (LocalTZA t1 b1 - LocalTZA t2 b2) < msPerDay) ->
     forall l,
       l ∈ scheduledMessages s ->
       (Msg.status (objs s !!! l) <> pending ->
        Msg.createdAt (objs s !!! l) <= t - 8 * msPerDay ->
        l ∉ scheduledMessages s') /\
       (t - 6 * msPerDay <= Msg.createdAt (objs s !!! l) ->
        l ∈ scheduledMessages s')) /\
    (forall l,
       l ∈ scheduledMessages s ->
       Msg.status (objs s !!! l) = pending ->
       l ∈ scheduledMessages s').
Proof.
  unfold cleanup, bind, now, filter_messages, set_scheduledMessages.
  destruct (Date_now (world s)) as [t w] eqn:Hd.
  cbn [world with_world objs scheduledMessages isConnected log fst].
  replace (getDate LocalTZA t - 7) with (getDate LocalTZA t + -7) by lia.
  rewrite setDate_getDate.
  replace (LocalTime LocalTZA t + -7 * msPerDay)
    with (LocalTime LocalTZA t - 7 * msPerDay) by lia.
  set (sevenDaysAgo := UTC LocalTZA (LocalTime LocalTZA t - 7 * msPerDay)).
  set (keep := fun l : loc => _ || _).
  assert (Hkeep : forall l,
    l ∈ List.filter keep (scheduledMessages s) <->
    l ∈ scheduledMessages s /\
    (Msg.status (objs s !!! l) = pending \/
     sevenDaysAgo < Msg.createdAt (objs s !!! l))).
  { intros l. rewrite !list_elem_of_In, filter_In. subst keep. cbv beta.
    rewrite orb_true_iff, bool_decide_eq_true, Z.ltb_lt. reflexivity. }
  exists (mkState (objs s) (List.filter keep (scheduledMessages s))
            (isConnected s) w (log s)), sevenDaysAgo.
  cbn [objs scheduledMessages].
  split; [reflexivity|]. split; [reflexivity|]. split; [reflexivity|].
  split; [reflexivity|]. split; [exact Hkeep|].
  split; [|split; [|split]].
  - intros l Hl. rewrite Hkeep.
    destruct (decide (Msg.status (objs s !!! l) = pending)); split; intros; intuition lia.
  - intros offset Hz. subst sevenDaysAgo. unfold UTC, LocalTime. rewrite !Hz. lia.
  - intros Hz l Hl. rewrite Hkeep. subst sevenDaysAgo. unfold UTC, LocalTime.
    pose proof (Hz t true (t + LocalTZA t true - 7 * msPerDay) false) as Hb.
    unfold msPerDay in *. split.
    + intros Hst Hold [_ [Hp|Hnew]]; [contradiction|lia].
    + intros Hnew. split; [exact Hl|]. right. lia.
  - intros l Hl Hp. rewrite Hkeep. auto.
Qed.

End Scheduler.

(** ** The listing *)

Section Sorting.

Context {A : Type} (compare : A -> A -> Z).

Lemma insert_sorted_Permutation x l :
  JsArray.insert_sorted compare x l ≡ₚ x :: l.
Proof.
  induction l as [|y rest IH]; cbn [JsArray.insert_sorted]; [reflexivity|].
  destruct (compare x y <=? 0); [reflexivity|].
  rewrite IH. apply Permutation_swap.
Qed.

Lemma sort_Permutation l : JsArray.sort compare l ≡ₚ l.
Proof.
  induction l as [|x rest IH]; cbn [JsArray.sort]; [reflexivity|].
  rewrite insert_sorted_Permutation, IH. reflexivity.
Qed.

(** The sort is stable: elements that the comparator does not tell apart
    come out in the order in which they went in. *)
Lemma insert_sorted_filter (p : A -> bool) x l :
  (forall y z, p y = true -> p z = true -> compare y z <= 0) ->
  List.filter p (JsArray.insert_sorted compare x l) = List.filter p (x :: l).
Proof.
  intros Hp. induction l as [|y rest IH]; cbn [JsArray.insert_sorted]; [reflexivity|].
  destruct (Z.leb_spec (compare x y) 0) as [Hxy|Hxy]; [reflexivity|].
  cbn [List.filter] in *. rewrite IH.
  destruct (p x) eqn:Hx, (p y) eqn:Hy; try reflexivity.
  specialize (Hp x y Hx Hy). lia.
Qed.

Lemma sort_filter (p : A -> bool) l :
  (forall y z, p y = true -> p z = true -> compare y z <= 0) ->
  List.filter p (JsArray.sort compare l) = List.filter p l.
Proof.
  intros Hp. induction l as [|x rest IH]; cbn [JsArray.sort]; [reflexivity|].
  rewrite (insert_sorted_filter p x _ Hp). cbn [List.filter]. rewrite IH. reflexivity.
Qed.

Hypothesis compare_total : forall x y, 0 < compare x y -> compare y x <= 0.
Hypothesis compare_trans :
  forall x y z, compare x y <= 0 -> compare y z <= 0 -> compare x z <= 0.

Lemma insert_sorted_StronglySorted x l :
  StronglySorted (JsArray.in_order compare) l ->
  StronglySorted (JsArray.in_order compare) (JsArray.insert_sorted compare x l).
Proof.
  induction l as [|y rest IH]; cbn [JsArray.insert_sorted]; intros Hl.
  - repeat constructor.
  - apply StronglySorted_cons in Hl as [Hy Hrest].
    destruct (Z.leb_spec (compare x y) 0) as [Hxy|Hxy].
    + apply StronglySorted_cons. split.
      * constructor; [exact Hxy|].
        eapply Forall_impl; [exact Hy|]. intros z Hz. exact (compare_trans _ _ _ Hxy Hz).
      * apply StronglySorted_cons. auto.
    + apply StronglySorted_cons. split; [|apply IH, Hrest].
      rewrite insert_sorted_Permutation. constructor; [|exact Hy].
      apply compare_total, Hxy.
Qed.

Lemma sort_StronglySorted l :
  StronglySorted (JsArray.in_order compare) (JsArray.sort compare l).
Proof.
  induction l as [|x rest IH]; cbn [JsArray.sort]; [constructor|].
  apply insert_sorted_StronglySorted, IH.
Qed.

(** A sorted array cut after [n] elements keeps every element that has to
    come before one that it keeps. *)
Lemma slice0_closed n l x y :
  StronglySorted (JsArray.in_order compare) l ->
  x ∈ JsArray.slice0 n l -> y ∈ l -> ~ JsArray.in_order compare x y ->
  y ∈ JsArray.slice0 n l.
Proof.
  unfold JsArray.slice0. intros Hl Hx Hy Hxy.
  rewrite <- (take_drop n l) in Hl, Hy.
  apply elem_of_app in Hy as [Hy|Hy]; [exact Hy|].
  destruct Hxy. exact (StronglySorted_app_1_elem_of _ _ _ _ _ Hl Hx Hy).
Qed.

End Sorting.

Section Listing.

Context {W : Type} `{Host W}.

Implicit Types (s : state W) (m : Msg.t).

Lemma compare_messages_order a b :
  compare_messages a b <= 0 <-> lists_before a b.
Proof.
  unfold compare_messages, lists_before.
  destruct (decide (Msg.status a = pending)) as [Ha|Ha],
           (decide (Msg.status b = pending)) as [Hb|Hb];
    rewrite ?(bool_decide_eq_true_2 _ Ha), ?(bool_decide_eq_false_2 _ Ha),
            ?(bool_decide_eq_true_2 _ Hb), ?(bool_decide_eq_false_2 _ Hb);
    cbn [andb negb]; intuition lia.
Qed.

Lemma compare_messages_total a b :
  0 < compare_messages a b -> compare_messages b a <= 0.
Proof.
  unfold compare_messages.
  destruct (bool_decide (Msg.status a = pending)),
           (bool_decide (Msg.status b = pending)); cbn [andb negb]; lia.
Qed.

Lemma compare_messages_trans a b c :
  compare_messages a b <= 0 -> compare_messages b c <= 0 ->
  compare_messages a c <= 0.
Proof.
  unfold compare_messages.
  destruct (bool_decide (Msg.status a = pending)),
           (bool_decide (Msg.status b = pending)),
           (bool_decide (Msg.status c = pending)); cbn [andb negb]; lia.
Qed.

Lemma ties_order m0 a b :
  ties m0 a = true -> ties m0 b = true -> compare_messages a b <= 0.
Proof.
  unfold ties, compare_messages. rewrite !Z.eqb_eq.
  destruct (bool_decide (Msg.status m0 = pending)),
           (bool_decide (Msg.status a = pending)),
           (bool_decide (Msg.status b = pending)); cbn [andb negb]; lia.
Qed.

Lemma filter_fmap {A B} (f : A -> B) (p : B -> bool) (l : list A) :
  List.filter p (f <$> l) = f <$> List.filter (fun x => p (f x)) l.
Proof.
  induction l as [|x rest IH]; cbn; [reflexivity|].
  destruct (p (f x)); cbn; rewrite IH; reflexivity.
Qed.

(** X6: the listing.  [GET /api/messages] leaves the program as it is and
    answers with records of the array: all of them if there are fifty or
    fewer, fifty otherwise; the pending ones first, and within the pending
    ones as within the others the later scheduled time first; records that
    are alike in both come in the order of the array.  The cut keeps the head
    of that order: if a record is listed, so is every record of the array
    that the order puts strictly before it. *)
Theorem get_messages_listing s :
  exists messages,
    get_messages s = (Resolved messages, s) /\
    length messages = Nat.min 50 (length (scheduledMessages s)) /\
    StronglySorted lists_before messages /\
    (forall m, m ∈ messages ->
       exists l, l ∈ scheduledMessages s /\ objs s !!! l = m) /\
    ((length (scheduledMessages s) <= 50)%nat ->
     messages ≡ₚ (fun l => objs s !!! l) <$> scheduledMessages s) /\
    (forall l m,
       l ∈ scheduledMessages s -> m ∈ messages ->
       ~ lists_before m (objs s !!! l) ->
       objs s !!! l ∈ messages) /\
    (forall m0,
       List.filter (ties m0) messages
       `prefix_of`
       List.filter (ties m0) ((fun l => objs s !!! l) <$> scheduledMessages s)).
Proof.
  unfold get_messages.
  set (compare := fun a b : loc => compare_messages (objs s !!! a) (objs s !!! b)).
  set (sorted := JsArray.sort compare (scheduledMessages s)).
  assert (Hperm : sorted ≡ₚ scheduledMessages s) by apply sort_Permutation.
  assert (Hsorted : StronglySorted (JsArray.in_order compare) sorted).
  { apply sort_StronglySorted; subst compare; cbv beta.
    - intros x y. apply compare_messages_total.
    - intros x y z. apply compare_messages_trans. }
  eexists. split; [reflexivity|]. unfold JsArray.slice0.
  split; [|split; [|split; [|split; [|split]]]].
  - rewrite length_fmap, length_take, Hperm. reflexivity.
  - apply (StronglySorted_fmap _ (JsArray.in_order compare)).
    + intros x y Hxy. apply compare_messages_order, Hxy.
    + rewrite <- (take_drop 50 sorted) in Hsorted.
      exact (StronglySorted_app_1_l _ _ _ Hsorted).
  - intros m (l & -> & Hl)%list_elem_of_fmap. exists l. split; [|reflexivity].
    rewrite <- Hperm. exact (subseteq_take 50 sorted l Hl).
  - intros Hlen. rewrite take_ge by (rewrite Hperm; exact Hlen).
    rewrite Hperm. reflexivity.
  - intros l m Hl (l0 & -> & Hl0)%list_elem_of_fmap Hnot.
    apply list_elem_of_fmap. exists l. split; [reflexivity|].
    apply (slice0_closed compare 50 sorted l0 l Hsorted Hl0).
    + rewrite Hperm. exact Hl.
    + intros Hord. apply Hnot, compare_messages_order, Hord.
  - intros m0. rewrite !filter_fmap.
    set (q := fun l : loc => ties m0 (objs s !!! l)).
    rewrite <- (sort_filter compare q (scheduledMessages s))
      by (intros y z; apply ties_order).
    fold sorted. rewrite <- (take_drop 50 sorted) at 2.
    rewrite List.filter_app, fmap_app. eexists. reflexivity.
Qed.

End Listing.

(** ** Looking a record up *)

Section Lookups.

Context {W : Type} `{Host W}.

Implicit Types (s : state W) (m : Msg.t).

Lemma find_None id s :
  (forall l, l ∈ scheduledMessages s -> Msg.id (objs s !!! l) <> id) ->
  list_find (fun l => Msg.id (objs s !!! l) = id) (scheduledMessages s) = None.
Proof. intros Hn. apply list_find_None, Forall_forall. exact Hn. Qed.

(** X9: no route finds a record under an id that no record of the array
    has.  The three routes that take an id answer 404 then, and leave the
    program as it is. *)
Theorem unknown_id_not_found id body s :
  (forall l, l ∈ scheduledMessages s -> Msg.id (objs s !!! l) <> id) ->
  get_message id s = (Resolved (Missing 404 "Message not found"), s) /\
  put_message id body s = (Resolved (Failure 404 "Message not found"), s) /\
  delete_message id s = (Resolved (Failure 404 "Message not found"), s).
Proof.
  intros Hn. apply find_None in Hn.
  unfold get_message, put_message, delete_message, bind, find, findIndex.
  rewrite Hn. auto.
Qed.

(** The first element with a property, where one element only can have
    it. *)
Lemma list_find_only {A} (P : A -> Prop) `{!forall x, Decision (P x)} l x :
  x ∈ l -> P x -> (forall y, y ∈ l -> P y -> y = x) ->
  snd <$> list_find P l = Some x.
Proof.
  intros Hx HP Honly.
  destruct (list_find_elem_of P l x Hx HP) as [[i y] Hf]. rewrite Hf. cbn.
  apply list_find_Some in Hf as (Hi & Hy & _).
  f_equal. apply Honly; [|exact Hy]. eapply list_elem_of_lookup_2, Hi.
Qed.

(** X7: a record that was created is found under its id.  After a creation
    request that was accepted, [GET /api/messages/:id] on the id of the
    answer shows the record of the answer, provided that no record of the
    array had that id already. *)
Theorem get_message_after_schedule body s record s' :
  post_schedule body s = (Resolved (Scheduled record), s') ->
  (forall l, l ∈ scheduledMessages s -> Msg.id (objs s !!! l) <> Msg.id record) ->
  get_message (Msg.id record) s' = (Resolved (Shown record), s').
Proof.
  intros Hpost Hnew.
  assert (Hstore : exists l,
            objs s' = <[l := record]> (objs s) /\
            scheduledMessages s' = scheduledMessages s ++ [l]).
  { revert Hpost. unfold post_schedule. cbv zeta.
    destruct (negb (truthy (body_recipient body)) || negb (truthy (body_message body))
              || negb (truthy (body_scheduledTime body))); [discriminate|].
    destruct (Z.of_nat (String.length (strip_non_phone (body_recipient body))) <? 10);
      [discriminate|].
    unfold bind, now, uuid. destruct (Date_now (world s)) as [t0 w].
    destruct (date_le _ t0); [discriminate|].
    cbn [world with_world]. destruct (uuidv4 w) as [newId w1].
    destruct (Date_parse (body_scheduledTime body)) as [t|]; [|discriminate].
    cbn [toISOString ret world with_world]. destruct (Date_now w1) as [created w2].
    unfold alloc, push, bind, get_scheduledMessages, set_scheduledMessages, read, ret.
    cbn [objs scheduledMessages world with_world isConnected log].
    rewrite lookup_total_insert_eq. intros [= <- <-]. cbn. eauto. }
  destruct Hstore as (l & Hobjs & Harr).
  unfold get_message, bind, find. rewrite Harr, Hobjs.
  rewrite (list_find_only _ _ l).
  - unfold read, ret. cbn. rewrite Hobjs, lookup_total_insert_eq. reflexivity.
  - apply elem_of_app. right. left.
  - rewrite lookup_total_insert_eq. reflexivity.
  - intros l0 [Hl0| ->%list_elem_of_singleton]%elem_of_app; [|reflexivity].
    destruct (decide (l0 = l)) as [->|Hne]; [reflexivity|].
    rewrite lookup_total_insert_ne by congruence.
    intros Hid. destruct (Hnew l0 Hl0 Hid).
Qed.

End Lookups.

(** ** Editing and deleting a record *)

Section Edits.

Context {W : Type} `{Host W}.

Implicit Types (s : state W) (m : Msg.t).

(** An assignment to a field of the object at [l], on a heap written as
    that object put at [l]. *)
Lemma update_run l f (o : gmap loc Msg.t) arr c (w : W) lg m :
  update l f (mkState (<[l := m]> o) arr c w lg)
  = (Resolved tt, mkState (<[l := f m]> o) arr c w lg).
Proof.
  unfold update. cbn [objs scheduledMessages isConnected world log].
  rewrite (alter_Some _ _ _ m) by apply lookup_insert_eq.
  rewrite insert_insert_eq. reflexivity.
Qed.

Lemma assign_if_run v l set (o : gmap loc Msg.t) arr c (w : W) lg m :
  assign_if v l set (mkState (<[l := m]> o) arr c w lg)
  = (Resolved tt, mkState (<[l := if truthy v then set v m else m]> o) arr c w lg).
Proof.
  unfold assign_if. destruct (truthy v); [apply update_run|reflexivity].
Qed.

(** The record that an edit leaves: each field of the body that is not
    empty replaces the field of the record. *)
Lemma put_message_pending id body s i existing m :
  findIndex id s = (Resolved (Some (i, existing)), s) ->
  objs s !! existing = Some m ->
  Msg.status m = pending ->
  let m1 := if truthy (body_recipient body)
            then Msg.set_recipient (body_recipient body) m else m in
  let m2 := if truthy (body_message body)
            then Msg.set_message (body_message body) m1 else m1 in
  put_message id body s =
    if truthy (body_scheduledTime body) then
      match Date_parse (body_scheduledTime body) with
      | Some t =>
          let m3 := Msg.set_scheduledTime t m2 in
          let m4 := if truthy (body_repeat body)
                    then Msg.set_repeat (body_repeat body) m3 else m3 in
          let record := Msg.set_updatedAt (Date_now (world s)).1 m4 in
          (Resolved (Scheduled record),
           mkState (<[existing := record]> (objs s)) (scheduledMessages s)
             (isConnected s) (Date_now (world s)).2 (log s))
      | None =>
          (Rejected "Invalid time value",
           mkState (<[existing := m2]> (objs s)) (scheduledMessages s)
             (isConnected s) (world s) (log s))
      end
    else
      let m4 := if truthy (body_repeat body)
                then Msg.set_repeat (body_repeat body) m2 else m2 in
      let record := Msg.set_updatedAt (Date_now (world s)).1 m4 in
      (Resolved (Scheduled record),
       mkState (<[existing := record]> (objs s)) (scheduledMessages s)
         (isConnected s) (Date_now (world s)).2 (log s)).
Proof.
  intros Hf Hm Hst. cbv zeta. unfold put_message, bind. rewrite Hf.
  unfold read at 1. rewrite (lookup_total_Some _ _ _ Hm), Hst.
  rewrite bool_decide_eq_true_2 by reflexivity. cbn [negb].
  destruct s as [o arr c w lg]. cbn [objs scheduledMessages isConnected world log] in *.
  rewrite <- (insert_id o existing m Hm) at 1.
  rewrite !assign_if_run.
  destruct (truthy (body_scheduledTime body)).
  - destruct (Date_parse (body_scheduledTime body)) as [t|]; cbn [toISOString].
    + unfold ret at 1. cbv beta iota. rewrite update_run, assign_if_run.
      unfold now. cbn [world with_world objs scheduledMessages isConnected log].
      destruct (Date_now w) as [t0 w']. unfold with_world.
      cbn [world objs scheduledMessages isConnected log]. rewrite update_run.
      unfold read, ret. cbn [objs fst snd]. rewrite lookup_total_insert_eq. reflexivity.
    + unfold throw. reflexivity.
  - unfold ret at 1. cbv beta iota. rewrite assign_if_run.
    unfold now. cbn [world with_world objs scheduledMessages isConnected log].
    destruct (Date_now w) as [t0 w']. unfold with_world.
      cbn [world objs scheduledMessages isConnected log]. rewrite update_run.
    unfold read, ret. cbn [objs fst snd]. rewrite lookup_total_insert_eq. reflexivity.
Qed.


Lemma or_else_if (v old : string) (set : string -> Msg.t -> Msg.t)
    (field : Msg.t -> string) m :
  (forall x m0, field (set x m0) = x) ->
  field (if truthy v then set v m else m) = or_else v (field m).
Proof. intros Hset. unfold or_else. destruct (truthy v); [apply Hset|reflexivity]. Qed.

(** The first record with a given id, after an object has been replaced by
    one with the same id. *)
Lemma list_find_id_insert id (o : gmap loc Msg.t) l m m' arr :
  o !! l = Some m -> Msg.id m' = Msg.id m ->
  list_find (fun l0 => Msg.id (<[l := m']> o !!! l0) = id) arr
  = list_find (fun l0 => Msg.id (o !!! l0) = id) arr.
Proof.
  intros Hm Hid. apply list_find_ext. intros l0.
  destruct (decide (l0 = l)) as [->|Hne].
  - rewrite lookup_total_insert_eq, (lookup_total_Some _ _ _ Hm), Hid. reflexivity.
  - rewrite lookup_total_insert_ne by congruence. reflexivity.
Qed.

Ltac record_fields :=
  cbn [Msg.id Msg.recipient Msg.message Msg.scheduledTime Msg.repeat Msg.status
       Msg.createdAt Msg.updatedAt Msg.sentAt Msg.error Msg.parentId
       Msg.set_recipient Msg.set_message Msg.set_scheduledTime Msg.set_repeat
       Msg.set_status Msg.set_updatedAt Msg.set_sentAt Msg.set_error].

(** X10: an edit of a pending record.  Each of the four fields of the body
    that is not empty replaces the field of the record (the time as it
    parses), the fields of the body that are empty leave theirs alone,
    [updatedAt] takes the clock, and the id, the status and the other stamps
    stay; no other object changes, the array is as it was, and the record
    that the answer carries is the one that [GET /api/messages/:id] shows
    afterwards. *)
Theorem put_message_edits id body s i existing m :
  findIndex id s = (Resolved (Some (i, existing)), s) ->
  objs s !! existing = Some m ->
  Msg.status m = pending ->
  (truthy (body_scheduledTime body) = true ->
   is_Some (Date_parse (body_scheduledTime body))) ->
  exists record s',
    put_message id body s = (Resolved (Scheduled record), s') /\
    objs s' = <[existing := record]> (objs s) /\
    scheduledMessages s' = scheduledMessages s /\
    Msg.recipient record = or_else (body_recipient body) (Msg.recipient m) /\
    Msg.message record = or_else (body_message body) (Msg.message m) /\
    Msg.repeat record = or_else (body_repeat body) (Msg.repeat m) /\
    (truthy (body_scheduledTime body) = false ->
     Msg.scheduledTime record = Msg.scheduledTime m) /\
    (truthy (body_scheduledTime body) = true ->
     Date_parse (body_scheduledTime body) = Some (Msg.scheduledTime record)) /\
    Msg.updatedAt record = Some (Date_now (world s)).1 /\
    Msg.id record = Msg.id m /\
    Msg.status record = pending /\
    Msg.createdAt record = Msg.createdAt m /\
    Msg.sentAt record = Msg.sentAt m /\
    Msg.error record = Msg.error m /\
    Msg.parentId record = Msg.parentId m /\
    get_message id s' = (Resolved (Shown record), s').
Proof.
  intros Hf Hm Hst Hparse.
  pose proof (put_message_pending id body s i existing m Hf Hm Hst) as Hput.
  cbv zeta in Hput.
  assert (Hshow : forall record (w : W),
    Msg.id record = Msg.id m ->
    get_message id
      (mkState (<[existing := record]> (objs s)) (scheduledMessages s)
         (isConnected s) w (log s))
    = (Resolved (Shown record),
       mkState (<[existing := record]> (objs s)) (scheduledMessages s)
         (isConnected s) w (log s))).
  { intros record w Hid. unfold get_message, bind, find.
    cbn [objs scheduledMessages].
    rewrite (list_find_id_insert id (objs s) existing m record _ Hm Hid).
    injection Hf as ->. cbn. unfold read, ret. cbn [objs].
    rewrite lookup_total_insert_eq. reflexivity. }
  destruct (truthy (body_scheduledTime body)) eqn:Ht.
  - destruct (Hparse eq_refl) as [t Hp]. rewrite Hp in Hput.
    do 2 eexists. split; [exact Hput|]. cbn [objs scheduledMessages].
    split; [reflexivity|]. split; [reflexivity|].
    destruct (truthy (body_recipient body)) eqn:Hr,
             (truthy (body_message body)) eqn:Hb,
             (truthy (body_repeat body)) eqn:Hk;
      unfold or_else; rewrite ?Hr, ?Hb, ?Hk; record_fields;
      (repeat split; intros; try first [reflexivity | assumption | discriminate]);
      apply Hshow; reflexivity.
  - do 2 eexists. split; [exact Hput|]. cbn [objs scheduledMessages].
    split; [reflexivity|]. split; [reflexivity|].
    destruct (truthy (body_recipient body)) eqn:Hr,
             (truthy (body_message body)) eqn:Hb,
             (truthy (body_repeat body)) eqn:Hk;
      unfold or_else; rewrite ?Hr, ?Hb, ?Hk; record_fields;
      (repeat split; intros; try first [reflexivity | assumption | discriminate]);
      apply Hshow; reflexivity.
Qed.

(** X11: an edit whose time does not parse.  The handler throws on
    [toISOString], after it has assigned the recipient and the message and
    before it looks at [repeat] and stamps [updatedAt]: the record keeps the
    new recipient and message of a request that failed. *)
Theorem put_message_invalid_time id body s i existing m :
  findIndex id s = (Resolved (Some (i, existing)), s) ->
  objs s !! existing = Some m ->
  Msg.status m = pending ->
  truthy (body_scheduledTime body) = true ->
  Date_parse (body_scheduledTime body) = None ->
  exists m' s',
    put_message id body s = (Rejected "Invalid time value", s') /\
    objs s' = <[existing := m']> (objs s) /\
    scheduledMessages s' = scheduledMessages s /\
    Msg.recipient m' = or_else (body_recipient body) (Msg.recipient m) /\
    Msg.message m' = or_else (body_message body) (Msg.message m) /\
    Msg.scheduledTime m' = Msg.scheduledTime m /\
    Msg.repeat m' = Msg.repeat m /\
    Msg.updatedAt m' = Msg.updatedAt m.
Proof.
  intros Hf Hm Hst Ht Hp.
  pose proof (put_message_pending id body s i existing m Hf Hm Hst) as Hput.
  cbv zeta in Hput. rewrite Ht, Hp in Hput.
  do 2 eexists. split; [exact Hput|]. cbn [objs scheduledMessages].
  split; [reflexivity|]. split; [reflexivity|]. unfold or_else.
  destruct (truthy (body_recipient body)), (truthy (body_message body));
    repeat split; reflexivity.
Qed.

(** The first element with a property is the same once an element without
    it is taken out. *)
Lemma list_find_delete {A} (P : A -> Prop) `{!forall x, Decision (P x)} l i x :
  l !! i = Some x -> ~ P x ->
  snd <$> list_find P (delete i l) = snd <$> list_find P l.
Proof.
  revert i. induction l as [|y rest IH]; intros i Hi Hx; [discriminate|].
  destruct i as [|i]; cbn in Hi.
  - injection Hi as ->. cbn. rewrite decide_False by exact Hx.
    rewrite <- option_fmap_compose. destruct (list_find P rest) as [[j z]|]; reflexivity.
  - cbn. destruct (decide (P y)); [reflexivity|].
    rewrite <- !option_fmap_compose.
    specialize (IH i Hi Hx).
    destruct (list_find P (delete i rest)) as [[j z]|],
             (list_find P rest) as [[j' z']|]; cbn in *; congruence.
Qed.

(** X8: a deletion takes one record away and no other.  After the deletion
    [GET /api/messages/:id] shows under every other id what it showed
    before; under the id of the deletion it answers 404 if the ids of the
    records of the array are distinct.  The object itself is not changed. *)
Theorem delete_message_then_get id s i existing :
  findIndex id s = (Resolved (Some (i, existing)), s) ->
  exists s',
    delete_message id s
      = (Resolved (Success "Message cancelled successfully"), s') /\
    objs s' = objs s /\
    scheduledMessages s' = delete i (scheduledMessages s) /\
    (forall id', id' <> id -> (get_message id' s').1 = (get_message id' s).1) /\
    (NoDup ((fun l => Msg.id (objs s !!! l)) <$> scheduledMessages s) ->
     get_message id s' = (Resolved (Missing 404 "Message not found"), s')).
Proof.
  intros Hf. destruct (findIndex_found _ _ _ _ Hf) as [Hi Hid].
  eexists. split; [unfold delete_message, bind; rewrite Hf; reflexivity|].
  cbn [objs scheduledMessages]. split; [reflexivity|]. split; [reflexivity|]. split.
  - intros id' Hne. unfold get_message, bind, find. cbn [objs scheduledMessages].
    rewrite (list_find_delete _ _ i existing Hi) by congruence.
    destruct (snd <$> list_find _ (scheduledMessages s)); reflexivity.
  - intros Hnd.
    unfold get_message, bind, find. rewrite find_None; [reflexivity|].
    cbn [objs scheduledMessages]. intros l Hl Hsame.
    rewrite <- (take_drop_middle _ _ _ Hi) in Hnd.
    rewrite fmap_app, fmap_cons in Hnd.
    apply NoDup_app in Hnd as (_ & Hleft & Hright).
    apply NoDup_cons in Hright as [Hright _].
    rewrite delete_take_drop in Hl.
    apply elem_of_app in Hl as [Hl|Hl].
    + apply (Hleft (Msg.id (objs s !!! l))).
      * apply list_elem_of_fmap. eauto.
      * rewrite Hsame, <- Hid. left.
    + apply Hright. rewrite Hid, <- Hsame. apply list_elem_of_fmap. eauto.
Qed.

End Edits.

(** ** Creating a record, and sending at once *)

Section Creation.

Context {W : Type} `{Host W}.

Implicit Types (s : state W) (m : Msg.t).

(** The handler of [POST /api/schedule], step by step. *)
Lemma post_schedule_run body s :
  post_schedule body s =
    if negb (truthy (body_recipient body)) || negb (truthy (body_message body))
       || negb (truthy (body_scheduledTime body))
    then (Resolved (Failure 400 "Missing required fields: recipient, message, scheduledTime"), s)
    else
      let cleanPhone := strip_non_phone (body_recipient body) in
      if Z.of_nat (String.length cleanPhone) <? 10
      then (Resolved (Failure 400 "Invalid phone number format"), s)
      else
        let (t0, w) := Date_now (world s) in
        match Date_parse (body_scheduledTime body) with
        | Some t =>
            if t <=? t0
            then (Resolved (Failure 400 "Scheduled time must be in the future"),
                  with_world s w)
            else
              let (newId, w1) := uuidv4 w in
              let (created, w2) := Date_now w1 in
              let record :=
                Msg.mk newId
                  (if startsWith "+" cleanPhone then cleanPhone else "+" +:+ cleanPhone)
                  (body_message body) t (or_else (body_repeat body) "none") pending
                  created None None None None in
              let l := fresh (dom (objs s)) in
              (Resolved (Scheduled record),
               mkState (<[l := record]> (objs s)) (scheduledMessages s ++ [l])
                 (isConnected s) w2 (log s))
        | None =>
            let (newId, w1) := uuidv4 w in
            (Rejected "Invalid time value", with_world s w1)
        end.
Proof.
  unfold post_schedule. cbv zeta.
  destruct (negb (truthy (body_recipient body)) || negb (truthy (body_message body))
            || negb (truthy (body_scheduledTime body))); [reflexivity|].
  destruct (Z.of_nat (String.length (strip_non_phone (body_recipient body))) <? 10);
    [reflexivity|].
  unfold bind, now, uuid. destruct (Date_now (world s)) as [t0 w].
  destruct (Date_parse (body_scheduledTime body)) as [t|]; cbn [date_le].
  - destruct (t <=? t0); [reflexivity|].
    cbn [world with_world]. destruct (uuidv4 w) as [newId w1].
    cbn [toISOString ret world with_world]. destruct (Date_now w1) as [created w2].
    unfold alloc, push, bind, get_scheduledMessages, set_scheduledMessages, read, ret.
    cbn [objs scheduledMessages world with_world isConnected log].
    rewrite lookup_total_insert_eq. reflexivity.
  - cbn [world with_world]. destruct (uuidv4 w) as [newId w1]. reflexivity.
Qed.

Lemma strip_non_phone_fixed (p : string) :
  all_chars is_phone_char p = true -> strip_non_phone p = p.
Proof.
  induction p as [|c r IH]; cbn; [reflexivity|].
  intros [Hc Hr]%andb_true_iff. rewrite Hc, (IH Hr). reflexivity.
Qed.

(** X12: what a creation request stores of its fields.  The recipient of
    the record holds digits and [+] only and starts with a [+]; the delivery
    engine computes from it the chat id that [formatPhoneNumber] computes
    from the recipient of the request.  The message is that of the request,
    and [repeat] is that of the request, or [none] if it is empty. *)
Theorem post_schedule_stores body s record s' :
  post_schedule body s = (Resolved (Scheduled record), s') ->
  startsWith "+" (Msg.recipient record) = true /\
  all_chars is_phone_char (Msg.recipient record) = true /\
  formatPhoneNumber (Msg.recipient record) = formatPhoneNumber (body_recipient body) /\
  Msg.message record = body_message body /\
  Msg.repeat record = or_else (body_repeat body) "none" /\
  Msg.updatedAt record = None /\
  Msg.sentAt record = None /\
  Msg.error record = None /\
  Msg.parentId record = None.
Proof.
  rewrite post_schedule_run. cbv zeta.
  destruct (negb (truthy (body_recipient body)) || negb (truthy (body_message body))
            || negb (truthy (body_scheduledTime body))); [discriminate|].
  destruct (Z.of_nat (String.length (strip_non_phone (body_recipient body))) <? 10);
    [discriminate|].
  destruct (Date_now (world s)) as [t0 w].
  destruct (Date_parse (body_scheduledTime body)) as [t|].
  2:{ destruct (uuidv4 w). discriminate. }
  destruct (t <=? t0); [discriminate|].
  destruct (uuidv4 w) as [newId w1]. destruct (Date_now w1) as [created w2].
  pose proof (strip_non_phone_chars (body_recipient body)) as Hchars.
  unfold formatPhoneNumber.
  set (cleanPhone := strip_non_phone (body_recipient body)) in *.
  destruct (startsWith "+" cleanPhone) eqn:Hplus; intros [= <- <-];
    cbn [Msg.recipient Msg.message Msg.repeat Msg.updatedAt Msg.sentAt Msg.error
         Msg.parentId].
  - rewrite (strip_non_phone_fixed _ Hchars), Hplus. repeat split; assumption.
  - change (strip_non_phone ("+" +:+ cleanPhone))
      with (String "+" (strip_non_phone cleanPhone)).
    rewrite (strip_non_phone_fixed _ Hchars). repeat split. exact Hchars.
Qed.

(** X13: a creation request is accepted or leaves the store as it was.
    Whatever the handler answers, unless it answers with a record, the
    objects, the array, the connection flag and the log are those of
    before; the answer is then a 400, or the handler threw because the time
    of the request did not parse. *)
Theorem post_schedule_refused body s r s' :
  post_schedule body s = (r, s') ->
  (forall record, r <> Resolved (Scheduled record)) ->
  objs s' = objs s /\
  scheduledMessages s' = scheduledMessages s /\
  isConnected s' = isConnected s /\
  log s' = log s /\
  ((exists error, r = Resolved (Failure 400 error)) \/
   (r = Rejected "Invalid time value" /\
    Date_parse (body_scheduledTime body) = None)).
Proof.
  rewrite post_schedule_run. cbv zeta.
  destruct (negb (truthy (body_recipient body)) || negb (truthy (body_message body))
            || negb (truthy (body_scheduledTime body))).
  { intros [= <- <-] _. repeat split. left. eauto. }
  destruct (Z.of_nat (String.length (strip_non_phone (body_recipient body))) <? 10).
  { intros [= <- <-] _. repeat split. left. eauto. }
  destruct (Date_now (world s)) as [t0 w].
  destruct (Date_parse (body_scheduledTime body)) as [t|].
  - destruct (t <=? t0).
    + intros [= <- <-] _. repeat split. left. eauto.
    + destruct (uuidv4 w) as [newId w1]. destruct (Date_now w1) as [created w2].
      intros [= <- <-] Hnot. edestruct Hnot. reflexivity.
  - destruct (uuidv4 w) as [newId w1].
    intros [= <- <-] _. repeat split. right. auto.
Qed.

(** X14: a time that does not parse is not answered 400.  With the three
    fields present and a recipient of ten characters or more, a request
    whose time is not a date passes the comparison with the clock (which is
    false on an invalid date) and the handler throws on [toISOString]; an id
    has been drawn by then, and nothing is stored. *)
Theorem post_schedule_invalid_date body s :
  truthy (body_recipient body) = true ->
  truthy (body_message body) = true ->
  truthy (body_scheduledTime body) = true ->
  10 <= Z.of_nat (String.length (strip_non_phone (body_recipient body))) ->
  Date_parse (body_scheduledTime body) = None ->
  exists s',
    post_schedule body s = (Rejected "Invalid time value", s') /\
    objs s' = objs s /\
    scheduledMessages s' = scheduledMessages s /\
    world s' = (uuidv4 (Date_now (world s)).2).2.
Proof.
  intros Hr Hm Ht Hlen Hp. rewrite post_schedule_run. cbv zeta.
  rewrite Hr, Hm, Ht, Hp. cbn [negb orb].
  destruct (Z.ltb_spec (Z.of_nat (String.length (strip_non_phone (body_recipient body)))) 10);
    [lia|].
  destruct (Date_now (world s)) as [t0 w]. cbn [snd].
  destruct (uuidv4 w) as [newId w1]. eexists. split; [reflexivity|]. auto.
Qed.

(** X15: the immediate send.  While the server is not connected the
    request is answered 400 and no call reaches the client.  Otherwise the
    handler calls [sendMessage] once, with the chat id that
    [formatPhoneNumber] makes of the recipient and the message of the
    request, and answers with success, or with a 500 that carries the
    message of the error.  Either way the store and the connection flag are
    as before: an error that would make the delivery engine restart the
    client does not here. *)
Theorem post_send_outcome recipient message s :
  exists r s',
    post_send recipient message s = (Resolved r, s') /\
    objs s' = objs s /\
    scheduledMessages s' = scheduledMessages s /\
    isConnected s' = isConnected s /\
    (isConnected s = false ->
     r = Failure 400 "WhatsApp is not connected" /\ s' = s) /\
    (isConnected s = true ->
     log s' = log s ++ [ESendMessage (formatPhoneNumber recipient) message] /\
     match client_sendMessage (formatPhoneNumber recipient) message (world s) with
     | (Resolved _, w) => r = Success "Message sent successfully" /\ world s' = w
     | (Rejected e, w) =>
         r = Failure 500 ("Failed to send message: " +:+ e) /\ world s' = w
     end).
Proof.
  unfold post_send, bind, get_isConnected.
  destruct (isConnected s) eqn:Hc; cbn [negb].
  - unfold try_catch, bind, sendMessage, ret.
    destruct (client_sendMessage (formatPhoneNumber recipient) message (world s))
      as [[[]|e] w]; do 2 eexists; (split; [reflexivity|]); cbn;
      repeat split; try discriminate; auto.
  - unfold ret. do 2 eexists. split; [reflexivity|].
    repeat split; try discriminate; auto.
Qed.

End Creation.

(** ** The delivery engine, call by call *)

Section Calls.

Context {W : Type} `{Host W}.

Implicit Types (s : state W) (m : Msg.t).

Lemma sends_app evs evs' : sends (evs ++ evs') = sends evs ++ sends evs'.
Proof. apply List.filter_app. Qed.

Lemma probes_app evs evs' : probes (evs ++ evs') = probes evs ++ probes evs'.
Proof. apply List.filter_app. Qed.

(** The [catch] block calls neither [getState] nor [sendMessage]. *)
Lemma recover_log n e s :
  exists evs,
    log (after (recover n e) s) = log s ++ evs /\ sends evs = [] /\ probes evs = [].
Proof.
  unfold after. destruct (is_session_error e) eqn:He.
  - destruct (recover_session n e s He) as (s' & started & -> & _ & _ & _ & Hl).
    eexists. split; [exact Hl|]. destruct started; split; reflexivity.
  - rewrite (recover_generic n e s He). cbn.
    eexists. split; [reflexivity|]. split; reflexivity.
Qed.

(** What the loop adds to the log: with [remaining] iterations to go, at
    most as many calls of [getState] and of [sendMessage], the latter all
    with the chat id and the message of the record; and if the loop returns
    [true], the call that went through is the last thing in the log. *)
Lemma retry_log remaining n lastError msgData s m :
  objs s !! msgData = Some m ->
  let send := ESendMessage (formatPhoneNumber (Msg.recipient m)) (Msg.message m) in
  exists b s' evs,
    retry remaining n lastError msgData s = (Resolved b, s') /\
    log s' = log s ++ evs /\
    (length (sends evs) <= remaining)%nat /\
    (length (probes evs) <= remaining)%nat /\
    Forall (eq send) (sends evs) /\
    (b = true -> exists evs0, evs = evs0 ++ [EGetState; send]).
Proof.
  intros Hm send. revert n lastError s Hm.
  induction remaining as [|remaining IH]; intros n lastError s Hm.
  - exists false. eexists _, []. split; [apply (all_failed_run _ _ _ m Hm)|].
    cbn [log]. rewrite app_nil_r. split; [reflexivity|].
    split; [cbn; lia|]. split; [cbn; lia|]. split; [constructor|discriminate].
  - destruct (attempt msgData s) as [[b|e] s1] eqn:Ha.
    + destruct (attempt_Resolved _ _ _ _ _ Hm Ha) as (w & w' & _ & _ & Hmark).
      match type of Hmark with mark_sent _ ?s0 = _ =>
        destruct (mark_sent_run msgData s0 m Hm) as (t & w1 & s2 & _ & Hrun & _ & Hlog & _)
      end.
      rewrite Hrun in Hmark. injection Hmark as <- <-.
      exists true, s2, [EGetState; send].
      split; [apply retry_done; exact Ha|].
      split; [rewrite Hlog; cbn; rewrite <- app_assoc; reflexivity|].
      split; [cbn; lia|]. split; [cbn; lia|]. split; [repeat constructor|].
      intros _. exists []. reflexivity.
    + destruct (attempt_Rejected _ _ _ _ _ Hm Ha) as (Ho & _ & _ & calls & Hl1 & Hcalls).
      destruct (after_recover n e s1) as [Ho' _].
      destruct (recover_log n e s1) as (evs1 & Hl2 & Hs1 & Hp1).
      rewrite (retry_step _ _ _ _ _ _ _ Ha).
      destruct (IH (n + 1) (Some e) (after (recover n e) s1)) as
        (b & s' & evs & Hr & Hl & Hsends & Hprobes & Hall & Hlast).
      { rewrite Ho', Ho. exact Hm. }
      exists b, s', (calls ++ evs1 ++ evs). split; [exact Hr|].
      split; [rewrite Hl, Hl2, Hl1, <- !app_assoc; reflexivity|].
      rewrite !sends_app, !probes_app, Hs1, Hp1. cbn [app]. rewrite !length_app.
      assert (Hc : (length (sends calls) <= 1)%nat /\ (length (probes calls) <= 1)%nat /\
                   Forall (eq send) (sends calls)).
      { destruct Hcalls as [-> | ->];
          (split; [cbn; lia|]; split; [cbn; lia|]; repeat constructor). }
      destruct Hc as (Hc1 & Hc2 & Hc3).
      split; [lia|]. split; [lia|]. split; [apply Forall_app; auto|].
      intros Hb. destruct (Hlast Hb) as (evs0 & ->).
      exists (calls ++ evs1 ++ evs0). rewrite <- !app_assoc. reflexivity.
Qed.

(** X16: the calls of one delivery.  With the server connected or not, the
    function asks the client for its state at most three times and sends at
    most three times, each time the message of the record to the chat id of
    its recipient and to no one else; and once a send has gone through it
    makes no other call: when the function returns [true] that send is the
    last entry of the log. *)
Theorem sendWhatsAppMessage_calls msgData s m :
  objs s !! msgData = Some m ->
  let send := ESendMessage (formatPhoneNumber (Msg.recipient m)) (Msg.message m) in
  exists b s' evs,
    sendWhatsAppMessage msgData s = (Resolved b, s') /\
    log s' = log s ++ evs /\
    (length (probes evs) <= 3)%nat /\
    (length (sends evs) <= 3)%nat /\
    (forall e, e ∈ sends evs -> e = send) /\
    (b = true -> exists evs0, evs = evs0 ++ [EGetState; send]).
Proof.
  intros Hm send. destruct (isConnected s) eqn:Hc.
  - rewrite (sendWhatsAppMessage_connected _ _ Hc).
    destruct (retry_log (Z.to_nat maxRetries) 1 None msgData s m Hm)
      as (b & s' & evs & Hr & Hl & Hsends & Hprobes & Hall & Hlast).
    exists b, s', evs. split; [exact Hr|]. split; [exact Hl|].
    change (Z.to_nat maxRetries) with 3%nat in *.
    split; [exact Hprobes|]. split; [exact Hsends|]. split.
    + intros e He. rewrite Forall_forall in Hall. symmetry. apply Hall, He.
    + exact Hlast.
  - rewrite (sendWhatsAppMessage_disconnected _ _ Hc).
    exists false. eexists _, []. split; [reflexivity|]. cbn [log].
    rewrite app_nil_r. split; [reflexivity|].
    split; [cbn; lia|]. split; [cbn; lia|]. split; [|discriminate].
    intros e He. inversion He.
Qed.

End Calls.

(** ** What no handler does *)

Section Store.

Context {W : Type} `{Host W}.

Implicit Types (s : state W) (m : Msg.t).

Lemma same_content_refl m : same_content m m.
Proof. repeat split. Qed.

Lemma same_content_trans m1 m2 m3 :
  same_content m1 m2 -> same_content m2 m3 -> same_content m1 m3.
Proof. unfold same_content. intuition congruence. Qed.

(** One delivery and the store: the record keeps its content, no other
    object changes, and the array grows by at most one reference, to an
    object that did not exist. *)
Lemma sendWhatsAppMessage_store msgData s m :
  objs s !! msgData = Some m ->
  exists b s' m' new,
    sendWhatsAppMessage msgData s = (Resolved b, s') /\
    objs s' !! msgData = Some m' /\
    same_content m m' /\
    (forall l m0, l <> msgData -> objs s !! l = Some m0 -> objs s' !! l = Some m0) /\
    scheduledMessages s' = scheduledMessages s ++ new /\
    NoDup new /\
    (forall l, l ∈ new -> objs s !! l = None /\ is_Some (objs s' !! l)) /\
    (isConnected s = false -> isConnected s' = false).
Proof.
  intros Hm. destruct (isConnected s) eqn:Hc.
  - rewrite (sendWhatsAppMessage_connected _ _ Hc).
    destruct (retry_outcome (Z.to_nat maxRetries) 1 None msgData s m Hm)
      as ([|] & s' & Hr & Hpost).
    + destruct Hpost as (s0 & evs & Ho & Hs & _ & Hmark).
      rewrite <- Ho in Hm.
      destruct (mark_sent_store msgData s0 m s' Hm Hmark) as (t & Hm' & Hrep & Hnot).
      rewrite Ho, Hs in *.
      destruct (repeating_or_not (Msg.repeat m)) as [Hk|Hk].
      * destruct (Hrep Hk) as (l' & child & Hfree & Hobjs & Harr & _).
        exists true, s'. eexists _, [l']. split; [exact Hr|].
        split; [exact Hm'|]. split; [repeat split|].
        split; [|split; [exact Harr|split; [|split; [|discriminate]]]].
        -- intros l m0 Hne Hl. rewrite Hobjs.
           rewrite lookup_insert_ne by congruence.
           rewrite lookup_insert_ne by congruence. exact Hl.
        -- apply NoDup_singleton.
        -- intros l ->%list_elem_of_singleton. split; [exact Hfree|].
           rewrite Hobjs, lookup_insert_eq. eauto.
      * destruct (Hnot Hk) as [Hobjs Harr].
        exists true, s'. eexists _, []. split; [exact Hr|].
        split; [exact Hm'|]. split; [repeat split|].
        split; [|split; [|split; [|split; [|discriminate]]]].
        -- intros l m0 Hne Hl. rewrite Hobjs, lookup_insert_ne by congruence. exact Hl.
        -- rewrite app_nil_r. exact Harr.
        -- constructor.
        -- intros l Hl. inversion Hl.
    + destruct Hpost as (e & Hobjs & Harr).
      exists false, s'. eexists _, []. split; [exact Hr|].
      split; [rewrite Hobjs; apply lookup_insert_eq|]. split; [repeat split|].
      split; [|split; [|split; [|split; [|discriminate]]]].
      * intros l m0 Hne Hl. rewrite Hobjs, lookup_insert_ne by congruence. exact Hl.
      * rewrite app_nil_r. exact Harr.
      * constructor.
      * intros l Hl. inversion Hl.
  - rewrite (sendWhatsAppMessage_disconnected _ _ Hc).
    exists false. eexists _, _, []. split; [reflexivity|].
    cbn [objs scheduledMessages isConnected].
    rewrite (alter_Some _ _ _ m Hm).
    rewrite (alter_Some _ _ _ (Msg.set_status failed m)) by apply lookup_insert_eq.
    rewrite insert_insert_eq.
    split; [apply lookup_insert_eq|]. split; [repeat split|].
    split; [|split; [|split; [|split; [|intros _; exact Hc]]]].
    + intros l m0 Hne Hl. rewrite lookup_insert_ne by congruence. exact Hl.
    + rewrite app_nil_r. reflexivity.
    + constructor.
    + intros l Hl. inversion Hl.
Qed.

(** The loop of the tick and the store. *)
Lemma send_all_store msgs s :
  (forall l, l ∈ msgs -> is_Some (objs s !! l)) ->
  exists s' new,
    send_all msgs s = (Resolved tt, s') /\
    (forall l m,
       objs s !! l = Some m ->
       exists m',
         objs s' !! l = Some m' /\ (l ∉ msgs -> m' = m) /\ same_content m m') /\
    scheduledMessages s' = scheduledMessages s ++ new /\
    NoDup new /\
    (forall l, l ∈ new -> objs s !! l = None /\ is_Some (objs s' !! l)) /\
    (isConnected s = false -> isConnected s' = false).
Proof.
  revert s. induction msgs as [|msg rest IH]; intros s Hvalid.
  - exists s, []. split; [reflexivity|]. split; [|split; [|split; [|split]]].
    + intros l m Hl. exists m. split; [exact Hl|]. split; [reflexivity|].
      apply same_content_refl.
    + rewrite app_nil_r. reflexivity.
    + constructor.
    + intros l Hin. inversion Hin.
    + auto.
  - destruct (Hvalid msg) as [m0 Hm0]; [left|].
    destruct (sendWhatsAppMessage_store msg s m0 Hm0)
      as (b & s1 & m1 & new1 & Hrun & Hm1 & Hsame1 & Hframe & Harr1 & Hnd1 & Hnew1 & Hc1).
    assert (Hkept : forall l m, objs s !! l = Some m ->
              exists m', objs s1 !! l = Some m' /\ (l <> msg -> m' = m) /\
                         same_content m m').
    { intros l m Hl. destruct (decide (l = msg)) as [->|Hne].
      - exists m1. split; [exact Hm1|]. split; [congruence|].
        rewrite Hl in Hm0. injection Hm0 as ->. exact Hsame1.
      - exists m. split; [apply Hframe; assumption|]. split; [reflexivity|].
        apply same_content_refl. }
    destruct (IH s1) as (s' & new & Hrest & Hobjs & Harr & Hnd & Hnew & Hc).
    { intros l Hl. destruct (Hvalid l) as [m Hm]; [right; exact Hl|].
      destruct (Hkept l m Hm) as (m' & Hm' & _). eauto. }
    exists s', (new1 ++ new). split; [|split; [|split; [|split; [|split]]]].
    + cbn [send_all]. unfold bind. rewrite Hrun. exact Hrest.
    + intros l m Hl. destruct (Hkept l m Hl) as (m' & Hm' & Heq & Hs1).
      destruct (Hobjs l m' Hm') as (m'' & Hm'' & Hout & Hs2).
      exists m''. split; [exact Hm''|]. split.
      * intros Hnot. rewrite not_elem_of_cons in Hnot. destruct Hnot as [Hne Hnot].
        rewrite (Hout Hnot). apply Heq, Hne.
      * exact (same_content_trans _ _ _ Hs1 Hs2).
    + rewrite Harr, Harr1, app_assoc. reflexivity.
    + apply NoDup_app. split; [exact Hnd1|]. split; [|exact Hnd].
      intros l Hl1 Hl2. destruct (Hnew1 l Hl1) as [_ [m Hm]].
      destruct (Hnew l Hl2) as [Hnone _]. congruence.
    + intros l [Hl|Hl]%elem_of_app.
      * destruct (Hnew1 l Hl) as [Hnone [m Hm]]. split; [exact Hnone|].
        destruct (Hobjs l m Hm) as (m' & Hm' & _). eauto.
      * destruct (Hnew l Hl) as [Hnone Hsome]. split; [|exact Hsome].
        destruct (objs s !! l) as [m|] eqn:Hl0; [|reflexivity].
        destruct (Hkept l m Hl0) as (m' & Hm' & _). congruence.
    + auto.
Qed.

(** The tick and the store. *)
Lemma dispatch_store s :
  sound s ->
  exists s',
    dispatch s = (Resolved tt, s') /\
    sound s' /\
    (forall l m,
       objs s !! l = Some m ->
       exists m',
         objs s' !! l = Some m' /\
         (Msg.status m <> pending -> m' = m) /\
         same_content m m') /\
    (isConnected s = false -> isConnected s' = false).
Proof.
  intros [Hwf Hnd]. unfold dispatch, bind, now, filter_messages.
  destruct (Date_now (world s)) as [t w] eqn:Hd.
  cbn [world with_world objs scheduledMessages isConnected log fst].
  set (s0 := with_world s w).
  set (snapshot := List.filter _ _).
  assert (Hsnap : forall l,
    l ∈ snapshot ->
    l ∈ scheduledMessages s /\ Msg.status (objs s !!! l) = pending).
  { intros l. subst snapshot. rewrite !list_elem_of_In, filter_In.
    rewrite andb_true_iff, bool_decide_eq_true. tauto. }
  destruct (send_all_store snapshot s0) as (s' & new & Hrun & Hobjs & Harr & Hnew1 & Hnew & Hc).
  { intros l [Hl _]%Hsnap. apply Hwf, Hl. }
  exists s'. split; [exact Hrun|]. split; [split|split; [|exact Hc]].
  - intros l. rewrite Harr. intros [Hl|Hl]%elem_of_app; [|apply Hnew, Hl].
    destruct (Hwf l Hl) as [m Hm].
    destruct (Hobjs l m Hm) as (m' & Hm' & _). eauto.
  - rewrite Harr. apply NoDup_app. split; [exact Hnd|]. split; [|exact Hnew1].
    intros l Hl Hl'. destruct (Hwf l Hl) as [m Hm].
    destruct (Hnew l Hl') as [Hnone _]. cbn in Hnone. congruence.
  - intros l m Hl. destruct (Hobjs l m Hl) as (m' & Hm' & Hout & Hsame).
    exists m'. split; [exact Hm'|]. split; [|exact Hsame].
    intros Hst. apply Hout. intros [_ Hp]%Hsnap.
    rewrite (lookup_total_Some _ _ _ Hl) in Hp. contradiction.
Qed.

End Store.

Section Writes.

Context {W : Type} `{Host W}.

Implicit Types (s : state W) (m : Msg.t).

Lemma survives_refl m : survives m m.
Proof. repeat split. Qed.

Lemma survives_trans m1 m2 m3 :
  survives m1 m2 -> survives m2 m3 -> survives m1 m3.
Proof.
  intros (Hi & Hc & Hp & Hs) (Hi' & Hc' & Hp' & Hs').
  repeat split; try congruence.
  intros Hst. specialize (Hs Hst). subst m2. auto.
Qed.

Lemma sound_sublist s s' :
  sound s -> objs s' = objs s ->
  scheduledMessages s' `sublist_of` scheduledMessages s ->
  sound s'.
Proof.
  intros [Hwf Hnd] Ho Hsub. split.
  - intros l Hl. rewrite Ho. apply Hwf. exact (sublist_subseteq _ _ Hsub l Hl).
  - eapply sublist_NoDup; eassumption.
Qed.

Lemma filter_sublist (p : loc -> bool) (l : list loc) :
  List.filter p l `sublist_of` l.
Proof.
  induction l as [|x rest IH]; cbn; [constructor|].
  destruct (p x); [apply sublist_skip|apply sublist_cons]; exact IH.
Qed.

(** A creation leaves every object as it is. *)
Lemma post_schedule_sound body s :
  sound s ->
  sound (after (post_schedule body) s) /\
  (forall l m,
     objs s !! l = Some m -> objs (after (post_schedule body) s) !! l = Some m) /\
  isConnected (after (post_schedule body) s) = isConnected s.
Proof.
  intros Hs. unfold after. rewrite post_schedule_run. cbv zeta.
  destruct (negb (truthy (body_recipient body)) || negb (truthy (body_message body))
            || negb (truthy (body_scheduledTime body))); [auto|].
  destruct (Z.of_nat (String.length (strip_non_phone (body_recipient body))) <? 10);
    [auto|].
  destruct (Date_now (world s)) as [t0 w].
  destruct (Date_parse (body_scheduledTime body)) as [t|].
  2:{ destruct (uuidv4 w). auto. }
  destruct (t <=? t0); [auto|].
  destruct (uuidv4 w) as [newId w1]. destruct (Date_now w1) as [created w2].
  destruct Hs as [Hwf Hnd].
  unfold sound, well_formed. cbn [snd objs scheduledMessages isConnected].
  assert (Hfresh : fresh (dom (objs s)) ∉ scheduledMessages s).
  { intros Hin. apply Hwf, elem_of_dom in Hin. exact (is_fresh _ Hin). }
  split; [split|split; [|reflexivity]].
  - intros l [Hl| ->%list_elem_of_singleton]%elem_of_app.
    + rewrite lookup_insert_is_Some'. right. apply Hwf, Hl.
    + rewrite lookup_insert_eq. eauto.
  - apply NoDup_app. split; [exact Hnd|]. split; [|apply NoDup_singleton].
    intros l Hl ->%list_elem_of_singleton. contradiction.
  - intros l m Hl. rewrite lookup_insert_ne; [exact Hl|].
    intros <-. apply elem_of_dom_2 in Hl. exact (is_fresh _ Hl).
Qed.

(** An edit changes one object at most, a pending one. *)
Lemma put_message_sound id body s :
  sound s ->
  sound (after (put_message id body) s) /\
  (forall l m,
     objs s !! l = Some m ->
     exists m', objs (after (put_message id body) s) !! l = Some m' /\ survives m m') /\
  isConnected (after (put_message id body) s) = isConnected s.
Proof.
  intros Hs.
  assert (Hsame : forall r,
    put_message id body s = (r, s) ->
    sound (after (put_message id body) s) /\
    (forall l m,
       objs s !! l = Some m ->
       exists m', objs (after (put_message id body) s) !! l = Some m' /\ survives m m') /\
    isConnected (after (put_message id body) s) = isConnected s).
  { intros r Hr. unfold after. rewrite Hr. split; [exact Hs|]. split; [|reflexivity].
    intros l m Hl. exists m. split; [exact Hl|apply survives_refl]. }
  destruct (list_find (fun l => Msg.id (objs s !!! l) = id) (scheduledMessages s))
    as [[i existing]|] eqn:Hfind.
  2:{ apply (Hsame (Resolved (Failure 404 "Message not found"))).
      unfold put_message, bind, findIndex. rewrite Hfind. reflexivity. }
  assert (Hf : findIndex id s = (Resolved (Some (i, existing)), s)).
  { unfold findIndex. rewrite Hfind. reflexivity. }
  destruct (findIndex_found _ _ _ _ Hf) as [Hi _].
  destruct Hs as [Hwf Hnd].
  destruct (Hwf existing) as [m0 Hm0]; [eapply list_elem_of_lookup_2, Hi|].
  destruct (decide (Msg.status m0 = pending)) as [Hst|Hst].
  2:{ apply (Hsame (Resolved (Failure 400 "Can only edit pending messages"))).
      unfold put_message, bind. rewrite Hf. unfold read.
      rewrite (lookup_total_Some _ _ _ Hm0).
      rewrite bool_decide_eq_false_2 by exact Hst. reflexivity. }
  pose proof (put_message_pending id body s i existing m0 Hf Hm0 Hst) as Hput.
  cbv zeta in Hput.
  assert (Hgen : forall r m' (w : W),
    put_message id body s =
      (r, mkState (<[existing := m']> (objs s)) (scheduledMessages s) (isConnected s)
            w (log s)) ->
    Msg.id m' = Msg.id m0 -> Msg.createdAt m' = Msg.createdAt m0 ->
    Msg.parentId m' = Msg.parentId m0 ->
    sound (after (put_message id body) s) /\
    (forall l m,
       objs s !! l = Some m ->
       exists m', objs (after (put_message id body) s) !! l = Some m' /\ survives m m') /\
    isConnected (after (put_message id body) s) = isConnected s).
  { intros r m' w Hr Hid Hcr Hpa. unfold after. rewrite Hr.
    unfold sound, well_formed. cbn [snd objs scheduledMessages isConnected].
    split; [split|split; [|reflexivity]].
    - intros l Hl. rewrite lookup_insert_is_Some'. right. apply Hwf, Hl.
    - exact Hnd.
    - intros l m Hl. destruct (decide (l = existing)) as [->|Hne].
      + exists m'. rewrite lookup_insert_eq. split; [reflexivity|].
        rewrite Hl in Hm0. injection Hm0 as ->.
        repeat split; try assumption. intros Hn. contradiction.
      + exists m. rewrite lookup_insert_ne by congruence.
        split; [exact Hl|apply survives_refl]. }
  destruct (truthy (body_scheduledTime body));
    [destruct (Date_parse (body_scheduledTime body))|];
    (eapply Hgen; [exact Hput|..]);
    destruct (truthy (body_recipient body)), (truthy (body_message body)),
             (truthy (body_repeat body)); reflexivity.
Qed.

Lemma delete_message_sound id s :
  sound s ->
  sound (after (delete_message id) s) /\
  objs (after (delete_message id) s) = objs s /\
  isConnected (after (delete_message id) s) = isConnected s.
Proof.
  intros Hs. unfold after, delete_message, bind, findIndex.
  destruct (list_find _ _) as [[i existing]|]; [|auto].
  cbn. split; [|auto].
  apply (sound_sublist s); [exact Hs|reflexivity|]. apply sublist_delete.
Qed.

Lemma cleanup_sound s :
  sound s ->
  sound (after cleanup s) /\
  objs (after cleanup s) = objs s /\
  isConnected (after cleanup s) = isConnected s.
Proof.
  intros Hs. unfold after, cleanup, bind, now, filter_messages, set_scheduledMessages.
  destruct (Date_now (world s)) as [t w]. cbn. split; [|auto].
  apply (sound_sublist s); [exact Hs|reflexivity|]. apply filter_sublist.
Qed.

End Writes.

Section TickCalls.

Context {W : Type} `{Host W}.

Implicit Types (s : state W) (m : Msg.t).

(** The sends of one delivery. *)
Lemma sendWhatsAppMessage_log msgData s m :
  objs s !! msgData = Some m ->
  exists evs,
    log (after (sendWhatsAppMessage msgData) s) = log s ++ evs /\
    (length (sends evs) <= 3)%nat /\
    Forall (eq (ESendMessage (formatPhoneNumber (Msg.recipient m)) (Msg.message m)))
      (sends evs) /\
    (length (probes evs) <= 3)%nat.
Proof.
  intros Hm. unfold after. destruct (isConnected s) eqn:Hc.
  - rewrite (sendWhatsAppMessage_connected _ _ Hc).
    destruct (retry_log (Z.to_nat maxRetries) 1 None msgData s m Hm)
      as (b & s' & evs & -> & Hl & Hsends & Hprobes & Hall & _).
    exists evs. auto.
  - rewrite (sendWhatsAppMessage_disconnected _ _ Hc).
    exists []. cbn. rewrite app_nil_r. repeat split; [lia|constructor|lia].
Qed.

(** The sends of the loop of the tick: three at most for each reference of
    the snapshot, each with the recipient and the message that the record
    had when the loop started. *)
Lemma send_all_log msgs s :
  (forall l, l ∈ msgs -> is_Some (objs s !! l)) ->
  exists evs,
    log (after (send_all msgs) s) = log s ++ evs /\
    (length (sends evs) <= 3 * length msgs)%nat /\
    forall e, e ∈ sends evs ->
      exists l m,
        l ∈ msgs /\ objs s !! l = Some m /\
        e = ESendMessage (formatPhoneNumber (Msg.recipient m)) (Msg.message m).
Proof.
  revert s. induction msgs as [|msg rest IH]; intros s Hvalid.
  - exists []. cbn. rewrite app_nil_r. repeat split; [lia|].
    intros e He. inversion He.
  - destruct (Hvalid msg) as [m0 Hm0]; [left|].
    destruct (sendWhatsAppMessage_log msg s m0 Hm0) as (evs1 & Hl1 & Hn1 & Hall1 & Hp1).
    destruct (sendWhatsAppMessage_store msg s m0 Hm0)
      as (b & s1 & m1 & new1 & Hrun & Hm1 & Hsame1 & Hframe & _).
    unfold after in *. cbn [send_all]. unfold bind. rewrite Hrun in *. cbn [snd] in Hl1.
    assert (Hkept : forall l m, objs s !! l = Some m ->
              exists m', objs s1 !! l = Some m' /\ same_content m m').
    { intros l m Hl. destruct (decide (l = msg)) as [->|Hne].
      - exists m1. split; [exact Hm1|]. rewrite Hl in Hm0. injection Hm0 as ->.
        exact Hsame1.
      - exists m. split; [apply Hframe; assumption|apply same_content_refl]. }
    destruct (IH s1) as (evs & Hl & Hn & Hall).
    { intros l Hl. destruct (Hvalid l) as [m Hm]; [right; exact Hl|].
      destruct (Hkept l m Hm) as (m' & Hm' & _). eauto. }
    exists (evs1 ++ evs). split; [rewrite Hl, Hl1, app_assoc; reflexivity|].
    rewrite sends_app, length_app. split; [cbn [length]; lia|].
    intros e [He|He]%elem_of_app.
    + exists msg, m0. split; [left|]. split; [exact Hm0|].
      rewrite Forall_forall in Hall1. symmetry. apply Hall1, He.
    + destruct (Hall e He) as (l & m' & Hin & Hm' & ->).
      destruct (Hvalid l) as [m Hm]; [right; exact Hin|].
      destruct (Hkept l m Hm) as (m'' & Hm'' & (_ & Hr & Hb & _)).
      rewrite Hm' in Hm''. injection Hm'' as <-.
      exists l, m. split; [right; exact Hin|]. split; [exact Hm|].
      rewrite Hr, Hb. reflexivity.
Qed.

(** The log of the loop of the tick, record by record: one stretch for each
    reference of the snapshot, in order, with at most three sends, each of
    the message that the record had when the loop started, to its
    recipient. *)
Lemma send_all_stretches msgs s :
  (forall l, l ∈ msgs -> is_Some (objs s !! l)) ->
  exists stretches,
    log (after (send_all msgs) s) = log s ++ concat stretches /\
    Forall2
      (fun l evs =>
         exists m,
           l ∈ msgs /\ objs s !! l = Some m /\
           (length (sends evs) <= 3)%nat /\
           Forall (eq (ESendMessage (formatPhoneNumber (Msg.recipient m)) (Msg.message m)))
             (sends evs) /\
           (length (probes evs) <= 3)%nat)
      msgs stretches.
Proof.
  revert s. induction msgs as [|msg rest IH]; intros s Hvalid.
  - exists []. cbn. rewrite app_nil_r. split; [reflexivity|constructor].
  - destruct (Hvalid msg) as [m0 Hm0]; [left|].
    destruct (sendWhatsAppMessage_log msg s m0 Hm0) as (evs1 & Hl1 & Hn1 & Hall1 & Hp1).
    destruct (sendWhatsAppMessage_store msg s m0 Hm0)
      as (b & s1 & m1 & new1 & Hrun & Hm1 & Hsame1 & Hframe & _).
    unfold after in *. cbn [send_all]. unfold bind. rewrite Hrun in *. cbn [snd] in Hl1.
    assert (Hkept : forall l m, objs s !! l = Some m ->
              exists m', objs s1 !! l = Some m' /\ same_content m m').
    { intros l m Hl. destruct (decide (l = msg)) as [->|Hne].
      - exists m1. split; [exact Hm1|]. rewrite Hl in Hm0. injection Hm0 as ->.
        exact Hsame1.
      - exists m. split; [apply Hframe; assumption|apply same_content_refl]. }
    destruct (IH s1) as (stretches & Hl & Hall).
    { intros l Hl. destruct (Hvalid l) as [m Hm]; [right; exact Hl|].
      destruct (Hkept l m Hm) as (m' & Hm' & _). eauto. }
    exists (evs1 :: stretches). split.
    + rewrite Hl, Hl1. cbn [concat]. rewrite app_assoc. reflexivity.
    + constructor.
      * exists m0. split; [left|]. auto.
      * eapply Forall2_impl; [exact Hall|]. cbv beta.
        intros l evs (m' & Hin & Hm' & Hn & Hsends & Hprobes).
        destruct (Hvalid l) as [m Hm]; [right; exact Hin|].
        destruct (Hkept l m Hm) as (m'' & Hm'' & (_ & Hr & Hb & _)).
        rewrite Hm' in Hm''. injection Hm'' as <-.
        exists m. split; [right; exact Hin|]. split; [exact Hm|].
        split; [exact Hn|]. split; [|exact Hprobes].
        rewrite <- Hr, <- Hb. exact Hsends.
Qed.

(** X27: what a tick sends.  The log of one run of the every-minute job
    grows by one stretch for each record of the array that was pending and
    due when the job started, in the order of the array; the stretch of a
    record holds at most three sends, each of them the message of that
    record to the chat id of its recipient.  So every message that goes to
    the client is that of a record that was due, and the job sends at most
    three times for each. *)
Theorem dispatch_sends s :
  well_formed s ->
  exists s' stretches,
    dispatch s = (Resolved tt, s') /\
    log s' = log s ++ concat stretches /\
    let t := (Date_now (world s)).1 in
    let taken :=
      List.filter
        (fun l => bool_decide (Msg.status (objs s !!! l) = pending)
                  && (Msg.scheduledTime (objs s !!! l) <=? t))
        (scheduledMessages s) in
    Forall2
      (fun l evs =>
         exists m,
           l ∈ scheduledMessages s /\ objs s !! l = Some m /\ due t m /\
           (length (probes evs) <= 3)%nat /\
           (length (sends evs) <= 3)%nat /\
           forall e, e ∈ sends evs ->
             e = ESendMessage (formatPhoneNumber (Msg.recipient m)) (Msg.message m))
      taken stretches /\
    (length (sends (concat stretches)) <= 3 * length taken)%nat /\
    forall e, e ∈ sends (concat stretches) ->
      exists l m,
        l ∈ scheduledMessages s /\ objs s !! l = Some m /\ due t m /\
        e = ESendMessage (formatPhoneNumber (Msg.recipient m)) (Msg.message m).
Proof.
  intros Hwf. unfold dispatch, bind, now, filter_messages.
  destruct (Date_now (world s)) as [t w] eqn:Hd.
  cbn [world with_world objs scheduledMessages isConnected log fst].
  set (s0 := with_world s w).
  set (snapshot := List.filter _ _).
  assert (Hsnap : forall l,
    l ∈ snapshot <->
    l ∈ scheduledMessages s /\ due t (objs s !!! l)).
  { intros l. subst snapshot. rewrite !list_elem_of_In, filter_In. unfold due.
    rewrite andb_true_iff, bool_decide_eq_true, Z.leb_le. reflexivity. }
  assert (Hvalid : forall l, l ∈ snapshot -> is_Some (objs s0 !! l)).
  { intros l [Hl _]%Hsnap. apply Hwf, Hl. }
  destruct (send_all_store snapshot s0 Hvalid) as (s' & new & Hrun & _).
  destruct (send_all_log snapshot s0 Hvalid) as (evs & Hl & Hn & Hall).
  destruct (send_all_stretches snapshot s0 Hvalid) as (stretches & Hl' & Hper).
  unfold after in Hl, Hl'. rewrite Hrun in Hl, Hl'. cbn [snd] in Hl, Hl'.
  assert (Hevs : evs = concat stretches)
    by (rewrite Hl in Hl'; exact (app_inv_head _ _ _ Hl')).
  subst evs.
  exists s', stretches. split; [exact Hrun|]. split; [exact Hl|]. cbv zeta.
  split; [|split; [exact Hn|]].
  - eapply Forall2_impl; [exact Hper|]. cbv beta.
    intros l evs (m & Hin & Hm & Hlen & Hsends & Hprobes).
    apply Hsnap in Hin as [Hin Hdue]. cbn in Hm.
    rewrite (lookup_total_Some _ _ _ Hm) in Hdue.
    exists m. do 5 (split; [assumption|]).
    intros e He. rewrite Forall_forall in Hsends. symmetry. apply Hsends, He.
  - intros e He. destruct (Hall e He) as (l & m & Hin & Hm & ->).
    apply Hsnap in Hin as [Hin Hdue]. cbn in Hm.
    rewrite (lookup_total_Some _ _ _ Hm) in Hdue. eauto 10.
Qed.

End TickCalls.

Section TickChildren.

Context {W : Type} `{Host W}.

Implicit Types (s : state W) (m : Msg.t).

(** What one delivery appends to the array: nothing, or the continuation
    of the record, a pending object that did not exist. *)
Lemma sendWhatsAppMessage_children msgData s m :
  objs s !! msgData = Some m ->
  let s' := after (sendWhatsAppMessage msgData) s in
  exists new,
    scheduledMessages s' = scheduledMessages s ++ new /\
    (length new <= 1)%nat /\
    forall l, l ∈ new ->
      objs s !! l = None /\
      exists child,
        objs s' !! l = Some child /\
        Msg.status child = pending /\
        Msg.parentId child = Some (Msg.id m) /\
        repeating (Msg.repeat m).
Proof.
  intros Hm. cbv zeta. unfold after. destruct (isConnected s) eqn:Hc.
  - rewrite (sendWhatsAppMessage_connected _ _ Hc).
    destruct (retry_outcome (Z.to_nat maxRetries) 1 None msgData s m Hm)
      as ([|] & s' & -> & Hpost); cbn [snd].
    + destruct Hpost as (s0 & evs & Ho & Hs & _ & Hmark).
      rewrite <- Ho in Hm.
      destruct (mark_sent_store msgData s0 m s' Hm Hmark) as (t & Hm' & Hrep & Hnot).
      rewrite Ho, Hs in *.
      destruct (repeating_or_not (Msg.repeat m)) as [Hk|Hk].
      * destruct (Hrep Hk) as (l' & child & Hfree & Hobjs & Harr & Hparent & Hstatus).
        exists [l']. split; [exact Harr|]. split; [cbn; lia|].
        intros l ->%list_elem_of_singleton. split; [exact Hfree|].
        exists child. rewrite Hobjs, lookup_insert_eq. auto.
      * destruct (Hnot Hk) as [_ Harr].
        exists []. rewrite app_nil_r. split; [exact Harr|]. split; [cbn; lia|].
        intros l Hl. inversion Hl.
    + destruct Hpost as (e & _ & Harr).
      exists []. rewrite app_nil_r. split; [exact Harr|]. split; [cbn; lia|].
      intros l Hl. inversion Hl.
  - rewrite (sendWhatsAppMessage_disconnected _ _ Hc). cbn [snd scheduledMessages].
    exists []. rewrite app_nil_r. split; [reflexivity|]. split; [cbn; lia|].
    intros l Hl. inversion Hl.
Qed.

(** What the loop of the tick appends to the array. *)
Lemma send_all_children msgs s :
  (forall l, l ∈ msgs -> is_Some (objs s !! l)) ->
  let s' := after (send_all msgs) s in
  exists new,
    scheduledMessages s' = scheduledMessages s ++ new /\
    (length new <= length msgs)%nat /\
    forall l, l ∈ new ->
      objs s !! l = None /\
      exists child lp m,
        objs s' !! l = Some child /\
        Msg.status child = pending /\
        lp ∈ msgs /\
        objs s !! lp = Some m /\
        Msg.parentId child = Some (Msg.id m) /\
        repeating (Msg.repeat m).
Proof.
  cbv zeta. revert s. induction msgs as [|msg rest IH]; intros s Hvalid.
  - exists []. cbn. rewrite app_nil_r. split; [reflexivity|]. split; [lia|].
    intros l Hl. inversion Hl.
  - destruct (Hvalid msg) as [m0 Hm0]; [left|].
    destruct (sendWhatsAppMessage_children msg s m0 Hm0) as (new1 & Harr1 & Hlen1 & Hnew1).
    destruct (sendWhatsAppMessage_store msg s m0 Hm0)
      as (b & s1 & m1 & new0 & Hrun & Hm1 & Hsame1 & Hframe & _).
    unfold after in *. cbn [send_all]. unfold bind. rewrite Hrun in *.
    cbn [snd] in Harr1, Hnew1.
    assert (Hkept : forall l m, objs s !! l = Some m ->
              exists m', objs s1 !! l = Some m' /\ same_content m m').
    { intros l m Hl. destruct (decide (l = msg)) as [->|Hne].
      - exists m1. split; [exact Hm1|]. rewrite Hl in Hm0. injection Hm0 as ->.
        exact Hsame1.
      - exists m. split; [apply Hframe; assumption|apply same_content_refl]. }
    assert (Hvalid1 : forall l, l ∈ rest -> is_Some (objs s1 !! l)).
    { intros l Hl. destruct (Hvalid l) as [m Hm]; [right; exact Hl|].
      destruct (Hkept l m Hm) as (m' & Hm' & _). eauto. }
    destruct (IH s1 Hvalid1) as (new & Harr & Hlen & Hnew).
    destruct (send_all_store rest s1 Hvalid1) as (s' & new' & Hrest & Hobjs & _).
    rewrite Hrest in *. cbn [snd] in *.
    exists (new1 ++ new). split; [rewrite Harr, Harr1, app_assoc; reflexivity|].
    split; [rewrite length_app; cbn [length]; lia|].
    intros l [Hl|Hl]%elem_of_app.
    + destruct (Hnew1 l Hl) as (Hnone & child & Hchild & Hst & Hpar & Hrep).
      split; [exact Hnone|].
      destruct (Hobjs l child Hchild) as (child' & Hchild' & Hsame & _).
      rewrite Hsame in Hchild'.
      2:{ intros Hin. destruct (Hvalid l) as [m Hm]; [right; exact Hin|]. congruence. }
      exists child, msg, m0. split; [exact Hchild'|]. split; [exact Hst|].
      split; [left|]. auto.
    + destruct (Hnew l Hl) as (Hnone & child & lp & m' & Hchild & Hst & Hin & Hm' & Hpar & Hrep).
      split.
      { destruct (objs s !! l) as [m|] eqn:Hl0; [|reflexivity].
        destruct (Hkept l m Hl0) as (m2 & Hm2 & _). congruence. }
      destruct (Hvalid lp) as [m Hm]; [right; exact Hin|].
      destruct (Hkept lp m Hm) as (m2 & Hm2 & (Hid & _ & _ & _ & Hk & _)).
      rewrite Hm' in Hm2. injection Hm2 as <-.
      exists child, lp, m. split; [exact Hchild|]. split; [exact Hst|].
      split; [right; exact Hin|]. split; [exact Hm|].
      rewrite <- Hid, <- Hk. auto.
Qed.

(** What the loop of the tick appends to the array, record by record: for
    each reference of the snapshot, in order, nothing or one reference, to
    the continuation of that record. *)
Lemma send_all_families msgs s :
  (forall l, l ∈ msgs -> is_Some (objs s !! l)) ->
  let s' := after (send_all msgs) s in
  exists families,
    scheduledMessages s' = scheduledMessages s ++ concat families /\
    Forall2
      (fun lp family =>
         exists m,
           lp ∈ msgs /\ objs s !! lp = Some m /\
           (length family <= 1)%nat /\
           forall l, l ∈ family ->
             objs s !! l = None /\
             exists child,
               objs s' !! l = Some child /\
               Msg.status child = pending /\
               Msg.parentId child = Some (Msg.id m) /\
               repeating (Msg.repeat m))
      msgs families.
Proof.
  cbv zeta. revert s. induction msgs as [|msg rest IH]; intros s Hvalid.
  - exists []. cbn. rewrite app_nil_r. split; [reflexivity|constructor].
  - destruct (Hvalid msg) as [m0 Hm0]; [left|].
    destruct (sendWhatsAppMessage_children msg s m0 Hm0) as (new1 & Harr1 & Hlen1 & Hnew1).
    destruct (sendWhatsAppMessage_store msg s m0 Hm0)
      as (b & s1 & m1 & new0 & Hrun & Hm1 & Hsame1 & Hframe & _).
    unfold after in *. cbn [send_all]. unfold bind. rewrite Hrun in *.
    cbn [snd] in Harr1, Hnew1.
    assert (Hkept : forall l m, objs s !! l = Some m ->
              exists m', objs s1 !! l = Some m' /\ same_content m m').
    { intros l m Hl. destruct (decide (l = msg)) as [->|Hne].
      - exists m1. split; [exact Hm1|]. rewrite Hl in Hm0. injection Hm0 as ->.
        exact Hsame1.
      - exists m. split; [apply Hframe; assumption|apply same_content_refl]. }
    assert (Hvalid1 : forall l, l ∈ rest -> is_Some (objs s1 !! l)).
    { intros l Hl. destruct (Hvalid l) as [m Hm]; [right; exact Hl|].
      destruct (Hkept l m Hm) as (m' & Hm' & _). eauto. }
    destruct (IH s1 Hvalid1) as (families & Harr & Hall).
    destruct (send_all_store rest s1 Hvalid1) as (s' & new' & Hrest & Hobjs & _).
    rewrite Hrest in *. cbn [snd] in *.
    exists (new1 :: families). split.
    + rewrite Harr, Harr1. cbn [concat]. rewrite app_assoc. reflexivity.
    + constructor.
      * exists m0. split; [left|]. split; [exact Hm0|]. split; [exact Hlen1|].
        intros l Hl. destruct (Hnew1 l Hl) as (Hnone & child & Hchild & Hst & Hpar & Hrep).
        split; [exact Hnone|].
        destruct (Hobjs l child Hchild) as (child' & Hchild' & Hsame & _).
        rewrite Hsame in Hchild'.
        2:{ intros Hin. destruct (Hvalid l) as [m Hm]; [right; exact Hin|]. congruence. }
        exists child. auto.
      * eapply Forall2_impl; [exact Hall|]. cbv beta.
        intros lp family (m' & Hin & Hm' & Hlen & Hfam).
        destruct (Hvalid lp) as [m Hm]; [right; exact Hin|].
        destruct (Hkept lp m Hm) as (m2 & Hm2 & (Hid & _ & _ & _ & Hk & _)).
        rewrite Hm' in Hm2. injection Hm2 as <-.
        exists m. split; [right; exact Hin|]. split; [exact Hm|]. split; [exact Hlen|].
        intros l Hl. destruct (Hfam l Hl) as (Hnone & child & Hchild & Hst & Hpar & Hrep).
        split.
        { destruct (objs s !! l) as [m3|] eqn:Hl0; [|reflexivity].
          destruct (Hkept l m3 Hl0) as (m4 & Hm4 & _). congruence. }
        exists child. rewrite <- Hid, <- Hk. auto.
Qed.

(** X28: what a tick creates.  One run of the every-minute job appends to
    the array, for each record that it took and in their order, nothing or
    one reference; the reference is to a new object, the continuation of
    that record, which was pending and due when the job started and repeats
    daily, weekly or monthly.  The continuation is still pending when the job
    ends, whatever its time: the job delivers what was in the array when it
    started, and a continuation that is already due waits for the next
    run. *)
Theorem dispatch_continuations s :
  well_formed s ->
  exists s' families,
    dispatch s = (Resolved tt, s') /\
    scheduledMessages s' = scheduledMessages s ++ concat families /\
    let t := (Date_now (world s)).1 in
    let taken :=
      List.filter
        (fun l => bool_decide (Msg.status (objs s !!! l) = pending)
                  && (Msg.scheduledTime (objs s !!! l) <=? t))
        (scheduledMessages s) in
    Forall2
      (fun lp family =>
         exists parent,
           lp ∈ scheduledMessages s /\ objs s !! lp = Some parent /\ due t parent /\
           (length family <= 1)%nat /\
           forall l, l ∈ family ->
             objs s !! l = None /\
             exists child,
               objs s' !! l = Some child /\
               Msg.status child = pending /\
               Msg.parentId child = Some (Msg.id parent) /\
               repeating (Msg.repeat parent))
      taken families /\
    (length (concat families) <= length taken)%nat /\
    forall l, l ∈ concat families ->
      objs s !! l = None /\
      exists child lp parent,
        objs s' !! l = Some child /\
        Msg.status child = pending /\
        lp ∈ scheduledMessages s /\
        objs s !! lp = Some parent /\
        due t parent /\
        repeating (Msg.repeat parent) /\
        Msg.parentId child = Some (Msg.id parent).
Proof.
  intros Hwf. unfold dispatch, bind, now, filter_messages.
  destruct (Date_now (world s)) as [t w] eqn:Hd.
  cbn [world with_world objs scheduledMessages isConnected log fst].
  set (s0 := with_world s w).
  set (snapshot := List.filter _ _).
  assert (Hsnap : forall l,
    l ∈ snapshot <->
    l ∈ scheduledMessages s /\ due t (objs s !!! l)).
  { intros l. subst snapshot. rewrite !list_elem_of_In, filter_In. unfold due.
    rewrite andb_true_iff, bool_decide_eq_true, Z.leb_le. reflexivity. }
  assert (Hvalid : forall l, l ∈ snapshot -> is_Some (objs s0 !! l)).
  { intros l [Hl _]%Hsnap. apply Hwf, Hl. }
  destruct (send_all_store snapshot s0 Hvalid) as (s' & new' & Hrun & _).
  destruct (send_all_children snapshot s0 Hvalid) as (new & Harr & Hlen & Hnew).
  destruct (send_all_families snapshot s0 Hvalid) as (families & Harr' & Hper).
  unfold after in *. rewrite Hrun in *. cbn [snd] in *.
  assert (Hfam : new = concat families)
    by (rewrite Harr in Harr'; exact (app_inv_head _ _ _ Harr')).
  subst new.
  exists s', families. split; [reflexivity|]. split; [exact Harr|]. cbv zeta.
  split; [|split; [exact Hlen|]].
  - eapply Forall2_impl; [exact Hper|]. cbv beta.
    intros lp family (m & Hin & Hm & Hone & Hchildren).
    apply Hsnap in Hin as [Hin Hdue]. cbn in Hm.
    rewrite (lookup_total_Some _ _ _ Hm) in Hdue.
    exists m. auto.
  - intros l Hl.
    destruct (Hnew l Hl) as (Hnone & child & lp & m & Hchild & Hst & Hin & Hm & Hpar & Hrep).
    split; [exact Hnone|].
    apply Hsnap in Hin as [Hin Hdue]. cbn in Hm.
    rewrite (lookup_total_Some _ _ _ Hm) in Hdue.
    exists child, lp, m. auto 10.
Qed.

End TickChildren.

Section Program.

Context {W : Type} {host : Host W} {platform : Platform W}.

Implicit Types (s : state W) (m : Msg.t) (b : backend W).

Lemma core_lift {A} (c : M A) b : core (lift c b).2 = after c (core b).
Proof. unfold lift, after. destruct (c (core b)). reflexivity. Qed.

Lemma currentQR_lift {A} (c : M A) b : currentQR (lift c b).2 = currentQR b.
Proof. unfold lift. destruct (c (core b)). reflexivity. Qed.

Lemma connectedPhone_lift {A} (c : M A) b :
  connectedPhone (lift c b).2 = connectedPhone b.
Proof. unfold lift. destruct (c (core b)). reflexivity. Qed.

(** Tearing the client down and starting it again: two calls, and nothing
    else. *)
Lemma restart_core b :
  objs (core (restart b)) = objs (core b) /\
  scheduledMessages (core (restart b)) = scheduledMessages (core b) /\
  isConnected (core (restart b)) = isConnected (core b) /\
  log (core (restart b)) = log (core b) ++ [EDestroy; EInitialize] /\
  currentQR (restart b) = currentQR b /\
  connectedPhone (restart b) = connectedPhone b /\
  unhandled (restart b)
  = unhandled b ++
    match client_initialize (client_destroy (world (core b))).2 with
    | (Resolved _, _) => []
    | (Rejected e, _) => [e]
    end.
Proof.
  unfold restart, destroy, initialize.
  destruct (client_destroy (world (core b))) as [r1 w1].
  cbn [world with_event snd].
  destruct (client_initialize w1) as [[[]|e] w2]; cbn;
    rewrite <- app_assoc, ?app_nil_r; auto 10.
Qed.

(** The handlers that do not write to the store leave the objects and the
    array as they are. *)
Lemma handle_reads i b :
  writes_store i = false ->
  objs (core (handle i b)) = objs (core b) /\
  scheduledMessages (core (handle i b)) = scheduledMessages (core b).
Proof.
  destruct i as [data| | | | | | |r];
    [..|destruct r as [| |body| |id|id body|id|recipient message|]];
    try discriminate; intros _; cbn [handle serve]; rewrite ?core_lift; auto.
  - unfold on_qr. destruct (qrcode_toDataURL data _) as [[url|e] w]; auto.
  - unfold on_ready. cbn. destruct (client_info_wid_user _); auto.
  - unfold on_disconnected.
    match goal with |- context [restart ?b0] =>
      destruct (restart_core b0) as (-> & -> & _) end. auto.
  - unfold heartbeat. destruct (isConnected (core b)); [|auto].
    unfold getState. destruct (client_getState _) as [[st|e] w]; [auto|].
    match goal with |- context [restart ?b0] =>
      destruct (restart_core b0) as (-> & -> & _) end. auto.
  - unfold after, get_message, bind, find, read, ret.
    destruct (snd <$> list_find _ _); auto.
  - unfold after, post_send, bind, get_isConnected, try_catch, sendMessage, ret.
    destruct (isConnected (core b)); cbn [negb]; [|auto].
    destruct (client_sendMessage _ _ _) as [[[]|e] w]; auto.
  - unfold post_disconnect. destruct (client_logout _) as [[[]|e] w]; auto.
Qed.

(** One handler and the store. *)
Lemma handle_store i b :
  sound (core b) ->
  sound (core (handle i b)) /\
  forall l m,
    objs (core b) !! l = Some m ->
    exists m',
      objs (core (handle i b)) !! l = Some m' /\
      survives m m' /\
      (is_edit i = false -> same_content m m').
Proof.
  intros Hs.
  assert (Hsame : forall b',
    objs (core b') = objs (core b) ->
    forall l m,
      objs (core b) !! l = Some m ->
      exists m',
        objs (core b') !! l = Some m' /\ survives m m' /\
        (is_edit i = false -> same_content m m')).
  { intros b' Ho l m Hl. exists m. rewrite Ho.
    split; [exact Hl|]. split; [apply survives_refl|]. intros _. apply same_content_refl. }
  destruct (writes_store i) eqn:Hw.
  2:{ destruct (handle_reads i b Hw) as [Ho Ha]. split; [|apply Hsame, Ho].
      destruct Hs as [Hwf Hnd]. split.
      - intros l. rewrite Ha, Ho. apply Hwf.
      - rewrite Ha. exact Hnd. }
  destruct i as [data| | | | | | |r];
    [..|destruct r as [| |body| |id|id body|id|recipient message|]];
    try discriminate; cbn [handle serve]; rewrite !core_lift.
  - unfold after. destruct (dispatch_store (core b) Hs) as (s' & -> & Hs' & Hobjs & _).
    split; [exact Hs'|]. intros l m Hl.
    destruct (Hobjs l m Hl) as (m' & Hm' & Hterm & Hcontent).
    exists m'. split; [exact Hm'|]. split; [|intros _; exact Hcontent].
    destruct Hcontent as (Hid & _ & _ & _ & _ & Hc & _ & Hp). repeat split; assumption.
  - destruct (cleanup_sound (core b) Hs) as (Hs' & Ho & _).
    split; [exact Hs'|].
    apply (Hsame (mkBackend (after cleanup (core b)) None None [])), Ho.
  - destruct (post_schedule_sound body (core b) Hs) as (Hs' & Ho & _).
    split; [exact Hs'|]. intros l m Hl. exists m.
    split; [apply Ho, Hl|]. split; [apply survives_refl|]. intros _. apply same_content_refl.
  - destruct (put_message_sound id body (core b) Hs) as (Hs' & Ho & _).
    split; [exact Hs'|]. intros l m Hl. destruct (Ho l m Hl) as (m' & Hm' & Hsv).
    exists m'. split; [exact Hm'|]. split; [exact Hsv|discriminate].
  - destruct (delete_message_sound id (core b) Hs) as (Hs' & Ho & _).
    split; [exact Hs'|].
    apply (Hsame (mkBackend (after (delete_message id) (core b)) None None [])), Ho.
Qed.

Lemma run_cons i inputs b : run (i :: inputs) b = run inputs (handle i b).
Proof. reflexivity. Qed.

(** A run of handlers and the store. *)
Lemma run_store inputs b :
  sound (core b) ->
  sound (core (run inputs b)) /\
  forall l m,
    objs (core b) !! l = Some m ->
    exists m',
      objs (core (run inputs b)) !! l = Some m' /\
      survives m m' /\
      (forallb (fun i => negb (is_edit i)) inputs = true -> same_content m m').
Proof.
  revert b. induction inputs as [|i inputs IH]; intros b Hs.
  - split; [exact Hs|]. intros l m Hl. exists m.
    split; [exact Hl|]. split; [apply survives_refl|]. intros _. apply same_content_refl.
  - rewrite run_cons. destruct (handle_store i b Hs) as [Hs1 Ho1].
    destruct (IH (handle i b) Hs1) as [Hs2 Ho2]. split; [exact Hs2|].
    intros l m Hl. destruct (Ho1 l m Hl) as (m1 & Hm1 & Hsv1 & Hc1).
    destruct (Ho2 l m1 Hm1) as (m2 & Hm2 & Hsv2 & Hc2).
    exists m2. split; [exact Hm2|]. split; [exact (survives_trans _ _ _ Hsv1 Hsv2)|].
    cbn [forallb]. intros [Hi Hrest]%andb_true_iff.
    apply (same_content_trans _ m1); [apply Hc1|apply Hc2, Hrest].
    destruct (is_edit i); [discriminate|reflexivity].
Qed.

(** X17: the array stays sound.  From the start of the program on,
    whatever events, timers and requests come and in whatever order, every
    reference of the array is to an object, and no object is referenced
    twice: the tick, which sends once for each reference it takes, sends no
    record twice in one run. *)
Theorem run_sound inputs b :
  started b -> sound (core (run inputs b)).
Proof.
  intros (Harr & _). apply run_store. split.
  - intros l. rewrite Harr. intros Hl. inversion Hl.
  - rewrite Harr. constructor.
Qed.

(** X18: [sent] and [failed] are final.  Once a record is [sent] or
    [failed], no handler of the program changes any of its fields again,
    whatever runs afterwards: the deletion and the sweep take the reference
    out of the array, and the object is as it was. *)
Theorem run_keeps_terminal inputs b l m :
  sound (core b) ->
  objs (core b) !! l = Some m ->
  Msg.status m <> pending ->
  objs (core (run inputs b)) !! l = Some m.
Proof.
  intros Hs Hl Hst. destruct (run_store inputs b Hs) as [_ Ho].
  destruct (Ho l m Hl) as (m' & Hm' & (_ & _ & _ & Hterm) & _).
  rewrite Hm', (Hterm Hst). reflexivity.
Qed.

(** X19: what a record says is changed by an edit only.  Whatever runs,
    an object stays in the heap with its id, [createdAt] and [parentId]; and
    if no [PUT /api/messages/:id] is among the handlers that ran, then its
    recipient, message, scheduled time, [repeat] and [updatedAt] are as they
    were too: a delivery writes the status, [sentAt] and [error] only. *)
Theorem run_keeps_content inputs b l m :
  sound (core b) ->
  objs (core b) !! l = Some m ->
  exists m',
    objs (core (run inputs b)) !! l = Some m' /\
    Msg.id m' = Msg.id m /\
    Msg.createdAt m' = Msg.createdAt m /\
    Msg.parentId m' = Msg.parentId m /\
    (forallb (fun i => negb (is_edit i)) inputs = true ->
     Msg.recipient m' = Msg.recipient m /\
     Msg.message m' = Msg.message m /\
     Msg.scheduledTime m' = Msg.scheduledTime m /\
     Msg.repeat m' = Msg.repeat m /\
     Msg.updatedAt m' = Msg.updatedAt m).
Proof.
  intros Hs Hl. destruct (run_store inputs b Hs) as [_ Ho].
  destruct (Ho l m Hl) as (m' & Hm' & (Hid & Hc & Hp & _) & Hcontent).
  exists m'. do 4 (split; [assumption|]).
  intros Hno. destruct (Hcontent Hno) as (_ & ? & ? & ? & ? & _ & ? & _). auto.
Qed.

End Program.

(** ** The connection flag *)

Section Flag.

Context {W : Type} `{Host W}.

Implicit Types (s : state W) (m : Msg.t).

(** While the flag is down the loop of the tick leaves it down. *)
Lemma send_all_flag msgs s :
  isConnected s = false -> isConnected (after (send_all msgs) s) = false.
Proof.
  revert s. induction msgs as [|msg rest IH]; intros s Hc; [exact Hc|].
  unfold after. cbn [send_all]. unfold bind.
  rewrite (sendWhatsAppMessage_disconnected _ _ Hc). apply IH. exact Hc.
Qed.

Lemma dispatch_flag s :
  isConnected s = false -> isConnected (after dispatch s) = false.
Proof.
  intros Hc. unfold after, dispatch, bind, now, filter_messages.
  destruct (Date_now (world s)) as [t w].
  cbn [world with_world objs scheduledMessages isConnected log].
  apply send_all_flag. exact Hc.
Qed.

Lemma cleanup_flag s : isConnected (after cleanup s) = isConnected s.
Proof.
  unfold after, cleanup, bind, now, filter_messages, set_scheduledMessages.
  destruct (Date_now (world s)) as [t w]. reflexivity.
Qed.

Lemma post_schedule_flag body s :
  isConnected (after (post_schedule body) s) = isConnected s.
Proof.
  unfold after. rewrite post_schedule_run. cbv zeta.
  destruct (_ || _); [reflexivity|]. destruct (_ <? _); [reflexivity|].
  destruct (Date_now (world s)) as [t0 w]. destruct (Date_parse _) as [t|].
  - destruct (t <=? t0); [reflexivity|].
    destruct (uuidv4 w) as [newId w1]. destruct (Date_now w1). reflexivity.
  - destruct (uuidv4 w). reflexivity.
Qed.

Lemma assign_if_flag v l set s :
  isConnected (after (assign_if v l set) s) = isConnected s.
Proof. unfold after, assign_if. destruct (truthy v); reflexivity. Qed.

Lemma put_message_flag id body s :
  isConnected (after (put_message id body) s) = isConnected s.
Proof.
  unfold after, put_message, bind, findIndex.
  destruct (list_find _ _) as [[i existing]|]; [|reflexivity].
  unfold read at 1. destruct (bool_decide _); [|reflexivity]. cbn [negb].
  unfold assign_if, update, toISOString, now, read, ret, throw.
  destruct (truthy (body_recipient body)), (truthy (body_message body)),
    (truthy (body_scheduledTime body)), (truthy (body_repeat body));
    cbn [world with_world objs scheduledMessages isConnected log];
    try destruct (Date_parse _);
    cbn [world with_world objs scheduledMessages isConnected log];
    try destruct (Date_now _); reflexivity.
Qed.

Lemma delete_message_flag id s :
  isConnected (after (delete_message id) s) = isConnected s.
Proof.
  unfold after, delete_message, bind, findIndex.
  destruct (list_find _ _) as [[i existing]|]; reflexivity.
Qed.

Lemma get_message_flag id s :
  isConnected (after (get_message id) s) = isConnected s.
Proof.
  unfold after, get_message, bind, find. destruct (snd <$> list_find _ _); reflexivity.
Qed.

Lemma post_send_flag recipient message s :
  isConnected (after (post_send recipient message) s) = isConnected s.
Proof.
  unfold after, post_send, bind, get_isConnected, try_catch, sendMessage, ret.
  destruct (isConnected s) eqn:Hc; cbn [negb]; [|exact Hc].
  destruct (client_sendMessage _ _ _) as [[[]|e] w]; exact Hc.
Qed.

End Flag.

Section Connection.

Context {W : Type} {host : Host W} {platform : Platform W}.

Implicit Types (s : state W) (m : Msg.t) (b : backend W).

(** One handler and the two variables of the connection that the status
    shows together: the flag goes up on [ready] only, and the image stays or
    goes wherever the flag stays up. *)
Lemma handle_connection i b :
  (i <> OnReady -> isConnected (core b) = false ->
   isConnected (core (handle i b)) = false) /\
  (isConnected (core (handle i b)) = true ->
   currentQR (handle i b) = None \/
   (currentQR (handle i b) = currentQR b /\ isConnected (core b) = true)).
Proof.
  destruct i as [data| | | | | | |r];
    [..|destruct r as [| |body| |id|id body|id|recipient message|]];
    cbn [handle serve]; rewrite ?core_lift, ?currentQR_lift.
  - unfold on_qr. destruct (qrcode_toDataURL data _) as [[url|e] w]; cbn; auto.
    split; [auto|discriminate].
  - split; [congruence|]. intros _. left.
    unfold on_ready. destruct (client_info_wid_user _); reflexivity.
  - cbn. split; [auto|discriminate].
  - unfold on_disconnected.
    match goal with |- context [restart ?b0] =>
      destruct (restart_core b0) as (_ & _ & -> & _) end.
    cbn. split; [auto|discriminate].
  - unfold heartbeat. destruct (isConnected (core b)) eqn:Hc.
    + unfold getState. destruct (client_getState _) as [[st|e] w].
      * cbn. split; [intros _ [=]|auto].
      * match goal with |- context [restart ?b0] =>
          destruct (restart_core b0) as (_ & _ & -> & _) end.
        cbn. split; [auto|discriminate].
    + rewrite Hc. split; [auto|discriminate].
  - split; [intros _; apply dispatch_flag|].
    destruct (isConnected (core b)) eqn:Hc; [auto|].
    rewrite dispatch_flag by exact Hc. discriminate.
  - rewrite cleanup_flag. auto.
  - auto.
  - auto.
  - rewrite post_schedule_flag. auto.
  - cbn. auto.
  - rewrite get_message_flag. auto.
  - rewrite put_message_flag. auto.
  - rewrite delete_message_flag. auto.
  - rewrite post_send_flag. auto.
  - unfold post_disconnect. destruct (client_logout _) as [[[]|e] w]; cbn; auto.
Qed.

(** X20: no status says connected and shows an image.  From the start of
    the program on, whatever events, timers and requests come, when
    [GET /api/status] reports [connected: true] it reports [qr: null], and
    [GET /api/qr] answers that the server is connected already. *)
Theorem connected_shows_no_qr inputs b :
  started b ->
  connected (get_status (run inputs b)) = true ->
  qr (get_status (run inputs b)) = None /\
  get_qr (run inputs b)
    = AlreadyConnected (connectedPhone (run inputs b)) "Already connected to WhatsApp".
Proof.
  intros (_ & _ & Hq & _). cbn [connected qr get_status]. intros Hc.
  split; [|unfold get_qr; rewrite Hc; reflexivity].
  assert (Hinv : isConnected (core b) = true -> currentQR b = None) by (intros _; exact Hq).
  clear Hq. revert b Hinv Hc.
  induction inputs as [|i inputs IH]; intros b Hinv Hc; [exact (Hinv Hc)|].
  rewrite run_cons in *. apply IH; [|exact Hc].
  intros Hc'. destruct (handle_connection i b) as [_ Hqr].
  destruct (Hqr Hc') as [Hnone|[Hsame Hold]]; [exact Hnone|].
  rewrite Hsame. exact (Hinv Hold).
Qed.

(** X21: the flag goes up on [ready] only.  If the server counts as
    connected after a run of handlers that it was not connected before, the
    client has reported [ready] in between: no request, no timer and no
    other event of the client sets [isConnected], and the restarts that the
    delivery engine and the heartbeat make count only once the client says
    so. *)
Theorem connected_after_ready inputs b :
  isConnected (core b) = false ->
  isConnected (core (run inputs b)) = true ->
  OnReady ∈ inputs.
Proof.
  revert b. induction inputs as [|i inputs IH]; intros b Hc Hc'.
  - cbn in Hc'. congruence.
  - rewrite run_cons in Hc'.
    assert (Hi : i = OnReady \/ i <> OnReady)
      by (destruct i; first [left; reflexivity | right; discriminate]).
    destruct Hi as [->|Hne]; [left|].
    right. apply (IH (handle i b)); [|exact Hc'].
    apply handle_connection; assumption.
Qed.

End Connection.

(** ** The status, the heartbeat and the loss of the connection *)

Section Status.

Context {W : Type} {host : Host W} {platform : Platform W}.

Implicit Types (s : state W) (m : Msg.t) (b : backend W).

Lemma filter_filter_implied (p q : loc -> bool) (l : list loc) :
  (forall x, p x = true -> q x = true) ->
  List.filter p (List.filter q l) = List.filter p l.
Proof.
  intros Hpq. induction l as [|x rest IH]; cbn; [reflexivity|].
  destruct (q x) eqn:Hq; cbn.
  - rewrite IH. reflexivity.
  - destruct (p x) eqn:Hp; [|exact IH]. rewrite (Hpq x Hp) in Hq. discriminate.
Qed.

(** X22: what does not move the count of pending messages.  The number
    that [GET /api/status] reports is the same after the daily sweep, which
    drops no pending record, and after every handler that does not write to
    the store: the events of the client, the heartbeat, the routes that
    read, the immediate send and the logout. *)
Theorem pending_count_kept i b :
  i = Sweep \/ writes_store i = false ->
  pendingMessages (get_status (handle i b)) = pendingMessages (get_status b).
Proof.
  intros [->|Hw]; cbn [pendingMessages get_status].
  - cbn [handle]. rewrite core_lift.
    unfold after, cleanup, bind, now, filter_messages, set_scheduledMessages.
    destruct (Date_now (world (core b))) as [t w].
    cbn [world with_world objs scheduledMessages isConnected log snd].
    rewrite filter_filter_implied; [reflexivity|].
    intros l Hp. rewrite Hp. reflexivity.
  - destruct (handle_reads i b Hw) as [-> ->]. reflexivity.
Qed.

(** X23: an accepted creation adds one to the count of pending messages
    that [GET /api/status] reports. *)
Theorem post_schedule_counts body b record s' :
  well_formed (core b) ->
  post_schedule body (core b) = (Resolved (Scheduled record), s') ->
  pendingMessages (get_status (handle (Api (PostSchedule body)) b))
  = S (pendingMessages (get_status b)).
Proof.
  intros Hwf Hpost. cbn [handle serve pendingMessages get_status].
  rewrite core_lift. unfold after. rewrite Hpost. cbn [snd].
  revert Hpost. rewrite post_schedule_run. cbv zeta.
  destruct (_ || _); [discriminate|]. destruct (_ <? _); [discriminate|].
  destruct (Date_now (world (core b))) as [t0 w].
  destruct (Date_parse _) as [t|]; [|destruct (uuidv4 w); discriminate].
  destruct (t <=? t0); [discriminate|].
  destruct (uuidv4 w) as [newId w1]. destruct (Date_now w1) as [created w2].
  intros [= <- <-]. cbn [objs scheduledMessages].
  rewrite List.filter_app, length_app. cbn [List.filter].
  rewrite lookup_total_insert_eq. cbn [Msg.status].
  rewrite bool_decide_eq_true_2 by reflexivity. cbn [length].
  rewrite Nat.add_1_r. f_equal. f_equal.
  apply List.filter_ext_in. intros l Hl%list_elem_of_In.
  rewrite lookup_total_insert_ne; [reflexivity|].
  intros <-. apply Hwf, elem_of_dom in Hl. exact (is_fresh _ Hl).
Qed.

(** X24: the heartbeat takes any answer for a sign of life.  When
    [getState] resolves, the heartbeat leaves the flag up whatever the state
    is; on a state other than CONNECTED the delivery engine, asking the same
    question, throws and does not send. *)
Theorem heartbeat_takes_any_state b st w msgData :
  isConnected (core b) = true ->
  client_getState (world (core b)) = (Resolved st, w) ->
  st <> "CONNECTED" ->
  heartbeat b = with_core b (with_event (core b) w EGetState) /\
  isConnected (core (heartbeat b)) = true /\
  attempt msgData (core b)
  = (Rejected ("Client state is " +:+ st +:+ ", not CONNECTED"),
     with_event (core b) w EGetState).
Proof.
  intros Hc Hg Hst. unfold heartbeat, attempt, bind, getState. rewrite Hc, Hg.
  split; [reflexivity|]. split; [exact Hc|].
  destruct (String.eqb_spec st "CONNECTED") as [->|_]; [contradiction|reflexivity].
Qed.

(** X25: a heartbeat that fails, and one that has nothing to do.  While the
    flag is down the heartbeat does nothing.  When [getState] rejects, the
    flag goes down and the client is torn down and started again, once each
    and in that order, with no pause in between; the phone, the image and
    the store are left as they are, and only a failure of [initialize] is
    left unhandled. *)
Theorem heartbeat_restarts b :
  (isConnected (core b) = false -> heartbeat b = b) /\
  (forall e w,
     isConnected (core b) = true ->
     client_getState (world (core b)) = (Rejected e, w) ->
     let b' := heartbeat b in
     isConnected (core b') = false /\
     log (core b') = log (core b) ++ [EGetState; EDestroy; EInitialize] /\
     objs (core b') = objs (core b) /\
     scheduledMessages (core b') = scheduledMessages (core b) /\
     connectedPhone b' = connectedPhone b /\
     currentQR b' = currentQR b /\
     unhandled b'
     = unhandled b ++
       match client_initialize (client_destroy w).2 with
       | (Resolved _, _) => []
       | (Rejected e', _) => [e']
       end).
Proof.
  split.
  - intros Hc. unfold heartbeat. rewrite Hc. reflexivity.
  - intros e w Hc Hg. cbv zeta. unfold heartbeat, getState. rewrite Hc, Hg.
    match goal with |- context [restart ?b0] =>
      destruct (restart_core b0) as (-> & -> & -> & -> & -> & -> & ->) end.
    cbn [core objs scheduledMessages isConnected log world after set_isConnected
         with_core with_event snd currentQR connectedPhone unhandled].
    rewrite <- app_assoc. repeat split.
Qed.


End Status.

(** ** Runs on the scripted host *)

Section Runs.

Import Sim.

(** A message due while the server is not connected. *)
Lemma sendWhatsAppMessage_not_connected_witness :
  let s := server "daily" pending false [] [] in
  isConnected s = false /\
  objs s !! 0%nat = Some (greeting "daily" pending) /\
  exists s' m',
    sendWhatsAppMessage (H := utc) 0%nat s = (Resolved false, s') /\
    objs s' = <[0%nat := m']> (objs s) /\
    Msg.status m' = failed /\
    Msg.error m' = Some "WhatsApp not connected" /\
    scheduledMessages s' = [0%nat] /\
    log s' = [].
Proof.
  cbv zeta. split; [reflexivity|]. split; [reflexivity|].
  destruct (sendWhatsAppMessage_not_connected (H := utc) 0%nat
              (server "daily" pending false [] []) (greeting "daily" pending)
              eq_refl eq_refl)
    as (s' & m' & Hrun & Ho & _ & Hst & Herr & _ & Hs & Hl & _).
  exists s', m'. repeat split; assumption.
Defined.


Lemma sendWhatsAppMessage_exhausted_witness :
  let s := server "none" pending true [] timeouts in
  exists s' m',
    sendWhatsAppMessage (H := utc) 0%nat s = (Resolved false, s') /\
    objs s' !! 0%nat = Some m' /\
    Msg.status m' = failed /\
    Msg.error m' = Some "timeout".
Proof.
  cbv zeta.
  edestruct (sendWhatsAppMessage_exhausted (H := utc) 0%nat
               (server "none" pending true [] timeouts) (greeting "none" pending))
    as (s' & m' & Hrun & Hm' & Hst & Herr & _);
    [reflexivity | reflexivity
     | vm_compute; reflexivity | vm_compute; reflexivity | vm_compute; reflexivity |].
  exists s', m'. repeat split; assumption.
Defined.

(** C5 as stated fails: when the last error carries an empty message, the
    record keeps the text "Unknown error" and not that message. *)
Lemma sendWhatsAppMessage_exhausted_empty_message :
  (exists s' m',
     sendWhatsAppMessage (H := utc) 0%nat (server "none" pending true [] silent_errors)
       = (Resolved false, s') /\
     objs s' !! 0%nat = Some m' /\
     Msg.error m' = Some "Unknown error") /\
  ~ (forall (W : Type) (H : Host W) (msgData : loc) (s : state W) (m : Msg.t)
            e1 s1 e2 s2 e3 s3,
       isConnected s = true ->
       objs s !! msgData = Some m ->
       attempt msgData s = (Rejected e1, s1) ->
       attempt msgData (after (recover 1 e1) s1) = (Rejected e2, s2) ->
       attempt msgData (after (recover 2 e2) s2) = (Rejected e3, s3) ->
       exists s' m',
         sendWhatsAppMessage msgData s = (Resolved false, s') /\
         objs s' !! msgData = Some m' /\
         Msg.status m' = failed /\
         Msg.error m' = Some e3).
Proof.
  split.
  - do 2 eexists. split; [vm_compute; reflexivity|]. split; reflexivity.
  - intros Hall.
    edestruct (Hall env utc 0%nat (server "none" pending true [] silent_errors)
                 (greeting "none" pending))
      as (s' & m' & Hrun & Hm' & _ & Herr);
      [reflexivity | reflexivity
       | vm_compute; reflexivity | vm_compute; reflexivity | vm_compute; reflexivity |].
    vm_compute in Hrun. injection Hrun as <-.
    vm_compute in Hm'. injection Hm' as <-.
    discriminate Herr.
Qed.

(** A daily message that goes out at the first attempt. *)
Lemma sendWhatsAppMessage_continuation_witness :
  let s := server "daily" pending true [] [] in
  exists s' l' child,
    sendWhatsAppMessage (H := utc) 0%nat s = (Resolved true, s') /\
    objs s' !! 0%nat
    = Some (Msg.set_sentAt (ten + 60000) (Msg.set_status sent (greeting "daily" pending))) /\
    scheduledMessages s' = [0%nat; l'] /\
    objs s' !! l' = Some child /\
    Msg.parentId child = Some "msg-0" /\
    Msg.status child = pending /\
    Msg.scheduledTime child = ten + msPerDay.
Proof.
  cbv zeta.
  destruct (sendWhatsAppMessage_continuation (H := utc) 0%nat
              (server "daily" pending true [] []) (greeting "daily" pending) eq_refl)
    as (Hgood & _ & _).
  destruct (Hgood (mkEnv (ten + 60000) 1 [] []) (mkEnv (ten + 60000) 1 [] [])
              (ten + 60000) (mkEnv (ten + 60000) 1 [] []) eq_refl eq_refl eq_refl)
    as (s' & _ & _ & Hrun & _ & _ & Hm' & _ & _ & Hrep & _).
  destruct Hrep as (nextTime & newId & w4 & created & w5 & l' & Hn & _ & _ & _ & Ho & Hs & _);
    [left; reflexivity|].
  exists s', l'. eexists. split; [apply Hrun; reflexivity|].
  split; [exact Hm'|]. split; [exact Hs|].
  split; [rewrite Ho; apply lookup_insert_eq|].
  split; [reflexivity|]. split; [reflexivity|].
  cbn [Msg.scheduledTime]. vm_compute in Hn. injection Hn as <-. reflexivity.
Defined.

(** C4 as stated fails: a record whose [repeat] is not [none] and not one of
    the three kinds either, which the creation route stores as it comes, is
    delivered and has no continuation. *)
Lemma sendWhatsAppMessage_continuation_other_kind :
  (exists record s1,
     post_schedule (H := utc)
       (mkBody "+15551230000" "hi" "2024-01-31T10:00:00.000Z" "yearly")
       (boot nine true [] [])
     = (Resolved (Scheduled record), s1) /\
     Msg.repeat record = "yearly") /\
  (exists s',
     Msg.repeat (greeting "yearly" pending) <> "none" /\
     sendWhatsAppMessage (H := utc) 0%nat (server "yearly" pending true [] [])
       = (Resolved true, s') /\
     Msg.status (objs s' !!! 0%nat) = sent /\
     scheduledMessages s' = [0%nat] /\
     dom (objs s') = {[0%nat]}) /\
  ~ (forall (W : Type) (H : Host W) (msgData : loc) (s : state W) (m : Msg.t) s',
       objs s !! msgData = Some m ->
       sendWhatsAppMessage msgData s = (Resolved true, s') ->
       (Msg.repeat m <> "none" <->
        exists l', scheduledMessages s' = scheduledMessages s ++ [l'])).
Proof.
  split; [|split].
  - do 2 eexists. split; [vm_compute; reflexivity|reflexivity].
  - eexists. split; [discriminate|]. split; [vm_compute; reflexivity|].
    split; [reflexivity|]. split; [reflexivity|]. vm_compute. reflexivity.
  - intros Hall.
    edestruct (Hall env utc 0%nat (server "yearly" pending true [] [])
                 (greeting "yearly" pending)) as [Hone _];
      [reflexivity | vm_compute; reflexivity |].
    destruct Hone as [l' Hl']; [discriminate|]. discriminate Hl'.
Qed.

(** The next occurrence of a daily message, on a host on UTC. *)
Lemma scheduleNextRepeat_inserts_witness :
  let s := server "daily" sent true [] [] in
  repeating "daily" /\
  exists s' l' child,
    scheduleNextRepeat (H := utc) 0%nat s = (Resolved tt, s') /\
    objs s' = <[l' := child]> (objs s) /\
    scheduledMessages s' = [0%nat; l'] /\
    Msg.parentId child = Some "msg-0" /\
    Msg.scheduledTime child = ten + 1 * msPerDay.
Proof.
  cbv zeta. split; [left; reflexivity|].
  destruct (scheduleNextRepeat_inserts (H := utc) 0%nat
              (server "daily" sent true [] []) (greeting "daily" sent)
              eq_refl (or_introl eq_refl))
    as (s' & l' & child & local' & Hrun & _ & Ho & Hs & _ & _ & _ & _ & _ & _ & _
        & Hp & _ & _ & _ & _ & _ & _ & _ & Hfixed).
  exists s', l', child. split; [exact Hrun|]. split; [exact Ho|].
  split; [exact Hs|]. split; [exact Hp|].
  apply (Hfixed 0); reflexivity.
Defined.

(** A message that has been sent: it cannot be edited, it can be deleted. *)
Lemma edit_refused_delete_allowed_witness :
  let s := server "none" sent true [] [] in
  let body := mkBody "" "changed" "" "" in
  put_message (H := utc) "msg-0" body s
    = (Resolved (Failure 400 "Can only edit pending messages"), s) /\
  exists s',
    delete_message "msg-0" s
      = (Resolved (Success "Message cancelled successfully"), s') /\
    scheduledMessages s' = [].
Proof.
  cbv zeta.
  destruct (edit_refused_delete_allowed (H := utc) "msg-0" (mkBody "" "changed" "" "")
              (server "none" sent true [] []) 0%nat 0%nat (greeting "none" sent)
              eq_refl eq_refl)
    as (Hput & Hdel & _); [discriminate|].
  split; [exact Hput|]. eexists. split; [exact Hdel|]. reflexivity.
Defined.

(** A message that goes out at the second attempt, after a session error. *)
Lemma sendWhatsAppMessage_terminal_witness :
  let s := server "none" pending true [Rejected "Session closed"] [] in
  exists b s' m',
    sendWhatsAppMessage (H := utc) 0%nat s = (Resolved b, s') /\
    objs s' !! 0%nat = Some m' /\
    (Msg.status m' = sent \/ Msg.status m' = failed) /\
    (b = true <-> Msg.status m' = sent).
Proof.
  cbv zeta.
  exact (sendWhatsAppMessage_terminal (H := utc) 0%nat
           (server "none" pending true [Rejected "Session closed"] [])
           (greeting "none" pending) eq_refl).
Defined.

(** C2 fails on the edit path.  One minute past ten on 2024-01-31, an edit
    that moves a pending message to the first instant of 2020 is accepted and
    the record takes that time; a creation request with the same time is
    answered 400, and so is one with the time that the clock shows. *)
Theorem put_message_accepts_past_time :
  let s := server "none" pending true [] [] in
  let past := "2020-01-01T00:00:00.000Z" in
  let present := "2024-01-31T10:01:00.000Z" in
  (Date_now (Host := utc) (world s)).1 = ten + 60000 /\
  Date_parse (Host := utc) past = Some 1577836800000 /\
  Date_parse (Host := utc) present = Some (ten + 60000) /\
  (exists record s',
     put_message (H := utc) "msg-0" (mkBody "" "" past "") s
       = (Resolved (Scheduled record), s') /\
     objs s' !! 0%nat = Some record /\
     Msg.status record = pending /\
     Msg.scheduledTime record = 1577836800000) /\
  post_schedule (H := utc) (mkBody "+15551230000" "hi" past "") s
    = (Resolved (Failure 400 "Scheduled time must be in the future"), s) /\
  post_schedule (H := utc) (mkBody "+15551230000" "hi" present "") s
    = (Resolved (Failure 400 "Scheduled time must be in the future"), s).
Proof.
  cbv zeta. split; [reflexivity|]. split; [reflexivity|]. split; [reflexivity|].
  split; [|split; reflexivity].
  do 2 eexists. split; [vm_compute; reflexivity|]. repeat split.
Qed.

(** The sweep at ten on 2024-01-31, on a host five and a half hours ahead
    of UTC: the sent record of eight days before goes, the failed one of six
    days before and the pending one of thirty days before stay. *)
Example cleanup_archive :
  exists s',
    cleanup (H := kolkata) archive = (Resolved tt, s') /\
    scheduledMessages s' = [1%nat; 2%nat] /\
    objs s' = objs archive.
Proof. eexists. split; [vm_compute; reflexivity|]. split; reflexivity. Qed.

(** The flag [isConnected] is read when the function starts, and not in the
    loop: after a first attempt that finds the session closed the flag is
    down, the client has been started again, and the second attempt sends the
    message all the same. *)
Example sent_after_reconnect :
  exists s' m',
    sendWhatsAppMessage (H := utc) 0%nat
      (server "none" pending true [Rejected "Session closed"] [])
      = (Resolved true, s') /\
    isConnected s' = false /\
    log s' = [EGetState; EDestroy; ESleep 5000; EInitialize; ESleep 10000;
              EGetState; ESendMessage "15551230000@c.us" "hi"] /\
    objs s' !! 0%nat = Some m' /\
    Msg.status m' = sent.
Proof.
  do 2 eexists. split; [vm_compute; reflexivity|]. repeat split.
Qed.

(** A [+] inside a number gets through the creation request and reaches the
    client in the chat id. *)
Example inner_plus_reaches_client :
  exists record s1 s2,
    post_schedule (H := utc)
      (mkBody "1+2345678901" "hi" "2024-01-31T10:00:00.000Z" "") (boot nine true [] [])
      = (Resolved (Scheduled record), s1) /\
    Msg.recipient record = "+1+2345678901" /\
    dispatch (H := utc) (after (sleep (H := utc) 3660000) s1) = (Resolved tt, s2) /\
    client_calls (log s2) = [EGetState; ESendMessage "1+2345678901@c.us" "hi"].
Proof.
  do 3 eexists. split; [vm_compute; reflexivity|]. split; [reflexivity|].
  split; [vm_compute; reflexivity|]. reflexivity.
Qed.

(** A monthly message of the 31st of January 2024: February has no 31st, and
    the next occurrence is the 2nd of March.  On a host ahead of UTC the same
    instant late in the evening is already the 1st of February, and the next
    occurrence is the 1st of March, local time. *)
Example monthly_runs_over :
  nextOccurrence (H := utc) "monthly" ten = parseISO "2024-03-02T10:00:00.000Z" /\
  nextOccurrence (H := kolkata) "monthly" (ten + 10 * 3600000)
    = parseISO "2024-02-29T20:00:00.000Z".
Proof. split; reflexivity. Qed.

(** A tick one minute past ten, the daily message being due. *)
Lemma dispatch_outcome_witness :
  let s := server "daily" pending true [] [] in
  well_formed s /\
  exists s' new m',
    dispatch (H := utc) s = (Resolved tt, s') /\
    scheduledMessages s' = [0%nat] ++ new /\
    objs s' !! 0%nat = Some m' /\
    (Msg.status m' = sent \/ Msg.status m' = failed).
Proof.
  cbv zeta.
  assert (Hwf : well_formed (server "daily" pending true [] [])).
  { intros l ->%list_elem_of_singleton. eexists. reflexivity. }
  split; [exact Hwf|].
  destruct (dispatch_outcome (H := utc) (server "daily" pending true [] []) Hwf)
    as (s' & new & Hrun & Hobjs & Harr & _).
  destruct (Hobjs 0%nat (greeting "daily" pending) eq_refl) as (m' & Hm' & Hdue & _).
  exists s', new, m'. split; [exact Hrun|]. split; [exact Harr|].
  split; [exact Hm'|]. apply Hdue; [left|split; [reflexivity|discriminate]].
Defined.

(** The same tick with the server not connected. *)
Lemma dispatch_not_connected_witness :
  let s := server "daily" pending false [] [] in
  isConnected s = false /\
  well_formed s /\
  exists s' m',
    dispatch (H := utc) s = (Resolved tt, s') /\
    log s' = [] /\
    scheduledMessages s' = [0%nat] /\
    objs s' !! 0%nat = Some m' /\
    Msg.status m' = failed /\
    Msg.error m' = Some "WhatsApp not connected".
Proof.
  cbv zeta.
  assert (Hwf : well_formed (server "daily" pending false [] [])).
  { intros l ->%list_elem_of_singleton. eexists. reflexivity. }
  split; [reflexivity|]. split; [exact Hwf|].
  destruct (dispatch_not_connected (H := utc) (server "daily" pending false [] [])
              eq_refl Hwf)
    as (s' & Hrun & Hlog & Harr & Hobjs).
  destruct (Hobjs 0%nat (greeting "daily" pending) eq_refl) as [Hdue _].
  exists s'. eexists. split; [exact Hrun|]. split; [exact Hlog|]. split; [exact Harr|].
  split; [apply Hdue; [left|split; [reflexivity|discriminate]]|].
  split; reflexivity.
Defined.

(** A creation request for the time that the clock shows. *)
Lemma post_schedule_not_future_witness :
  let s := server "none" pending true [] [] in
  let body := mkBody "+15551230000" "hi" "2024-01-31T10:01:00.000Z" "" in
  Date_parse (Host := utc) (body_scheduledTime body) = Some (ten + 60000) /\
  (Date_now (Host := utc) (world s)).1 = ten + 60000 /\
  exists error s',
    post_schedule (H := utc) body s = (Resolved (Failure 400 error), s') /\
    scheduledMessages s' = scheduledMessages s.
Proof.
  cbv zeta. split; [reflexivity|]. split; [reflexivity|].
  destruct (post_schedule_not_future (H := utc)
              (mkBody "+15551230000" "hi" "2024-01-31T10:01:00.000Z" "")
              (server "none" pending true [] []) (ten + 60000) eq_refl)
    as (error & s' & Hrun & _ & Harr); [discriminate|].
  exists error, s'. split; assumption.
Defined.

(** A creation request at nine for ten. *)
Lemma post_schedule_accepted_witness :
  let body := mkBody "+1 (555) 123-0000" "hi" "2024-01-31T10:00:00.000Z" "daily" in
  exists record s',
    post_schedule (H := utc) body (boot nine true [] []) = (Resolved (Scheduled record), s') /\
    Msg.recipient record = "+15551230000" /\
    Msg.status record = pending /\
    nine < Msg.scheduledTime record.
Proof.
  cbv zeta. do 2 eexists. split; [vm_compute; reflexivity|]. split; [reflexivity|].
  destruct (post_schedule_accepted (H := utc)
              (mkBody "+1 (555) 123-0000" "hi" "2024-01-31T10:00:00.000Z" "daily")
              (boot nine true [] []) _ _ eq_refl) as (Hst & Hlt & _).
  split; [exact Hst|exact Hlt].
Defined.

(** A session that is found closed, on a client that starts again. *)
Lemma recover_reconnects_witness :
  exists s',
    recover (H := utc) 1 "Session closed" (server "none" pending true [] [])
      = (Resolved tt, s') /\
    isConnected s' = false /\
    delays (log s') = [5000; 10000].
Proof.
  destruct (recover_reconnects (H := utc) 1 "Session closed"
              (server "none" pending true [] []) (or_introl eq_refl))
    as (s' & started & Hrun & Hc & _ & _ & _ & Hd & Hstarted & _).
  exists s'. split; [exact Hrun|]. split; [exact Hc|].
  rewrite Hd, (proj2 Hstarted) by (eexists; reflexivity). reflexivity.
Defined.

End Runs.

(** ** More runs on the scripted host *)

Section Sessions.

Import Sim Desk.

Ltac one_record :=
  let l := fresh "l" in
  intros l ->%list_elem_of_singleton; vm_compute; first [discriminate | eauto].

(** A request on a server that holds one record; the ids differ. *)
Lemma get_message_after_schedule_witness :
  let body := birthday "2024-03-01T09:00:00.000Z" "" in
  exists record s',
    post_schedule (H := utc) body (server "none" sent true [] [])
      = (Resolved (Scheduled record), s') /\
    Msg.id record = "msg-1" /\
    get_message "msg-1" s' = (Resolved (Shown record), s').
Proof.
  cbv zeta. do 2 eexists. split; [vm_compute; reflexivity|]. split; [reflexivity|].
  apply (get_message_after_schedule (H := utc)
           (birthday "2024-03-01T09:00:00.000Z" "")
           (server "none" sent true [] []) _ _ eq_refl).
  one_record.
Defined.

(** The deletion of the only record. *)
Lemma delete_message_then_get_witness :
  let s := server "none" pending true [] [] in
  exists s',
    delete_message "msg-0" s
      = (Resolved (Success "Message cancelled successfully"), s') /\
    get_message "msg-0" s'
      = (Resolved (Missing 404 "Message not found"), s').
Proof.
  cbv zeta.
  destruct (delete_message_then_get "msg-0"
              (server "none" pending true [] []) 0%nat 0%nat eq_refl)
    as (s' & Hdel & _ & _ & _ & Hget).
  exists s'. split; [exact Hdel|]. apply Hget. apply NoDup_singleton.
Defined.

(** An id that was never given. *)
Lemma unknown_id_not_found_witness :
  let s := server "none" pending true [] [] in
  get_message "msg-9" s = (Resolved (Missing 404 "Message not found"), s) /\
  delete_message "msg-9" s = (Resolved (Failure 404 "Message not found"), s).
Proof.
  cbv zeta.
  destruct (unknown_id_not_found (H := utc) "msg-9" (mkBody "" "" "" "")
              (server "none" pending true [] []))
    as (Hget & _ & Hdel); [one_record|].
  split; assumption.
Defined.

(** An edit of the message, the time and the repetition. *)
Lemma put_message_edits_witness :
  let s := server "none" pending true [] [] in
  let body := mkBody "" "see you at ten" "2024-02-01T10:00:00.000Z" "weekly" in
  exists record s',
    put_message (H := utc) "msg-0" body s = (Resolved (Scheduled record), s') /\
    Msg.recipient record = "+15551230000" /\
    Msg.message record = "see you at ten" /\
    Msg.repeat record = "weekly" /\
    Msg.updatedAt record = Some (ten + 60000).
Proof.
  cbv zeta.
  destruct (put_message_edits (H := utc) "msg-0"
              (mkBody "" "see you at ten" "2024-02-01T10:00:00.000Z" "weekly")
              (server "none" pending true [] []) 0%nat 0%nat (greeting "none" pending)
              eq_refl eq_refl eq_refl)
    as (record & s' & Hput & _ & _ & Hr & Hm & Hk & _ & _ & Hu & _).
  { intros _. eexists. vm_compute. reflexivity. }
  exists record, s'. repeat split; assumption.
Defined.

(** An edit with a time that is no date. *)
Lemma put_message_invalid_time_witness :
  let s := server "none" pending true [] [] in
  let body := mkBody "" "see you tomorrow" "tomorrow" "weekly" in
  exists m' s',
    put_message (H := utc) "msg-0" body s = (Rejected "Invalid time value", s') /\
    objs s' !! 0%nat = Some m' /\
    Msg.message m' = "see you tomorrow" /\
    Msg.repeat m' = "none".
Proof.
  cbv zeta.
  destruct (put_message_invalid_time (H := utc) "msg-0"
              (mkBody "" "see you tomorrow" "tomorrow" "weekly")
              (server "none" pending true [] []) 0%nat 0%nat (greeting "none" pending)
              eq_refl eq_refl eq_refl eq_refl eq_refl)
    as (m' & s' & Hput & Ho & _ & _ & Hm & _ & Hk & _).
  exists m', s'. split; [exact Hput|]. split; [rewrite Ho; apply lookup_insert_eq|].
  split; assumption.
Defined.

(** A number written with spaces and brackets. *)
Lemma post_schedule_stores_witness :
  let body := birthday "2024-03-01T09:00:00.000Z" "" in
  exists record s',
    post_schedule (H := utc) body (boot nine true [] [])
      = (Resolved (Scheduled record), s') /\
    formatPhoneNumber (Msg.recipient record) = "15551230000@c.us" /\
    Msg.repeat record = "none".
Proof.
  cbv zeta. do 2 eexists. split; [vm_compute; reflexivity|].
  destruct (post_schedule_stores (H := utc) (birthday "2024-03-01T09:00:00.000Z" "")
              (boot nine true [] []) _ _ eq_refl)
    as (_ & _ & Hchat & _ & Hk & _).
  split; [exact Hchat|exact Hk].
Defined.

(** A request without a message. *)
Lemma post_schedule_refused_witness :
  let s := boot nine true [] [] in
  let body := mkBody "+15551230000" "" "2024-03-01T09:00:00.000Z" "" in
  exists r s',
    post_schedule (H := utc) body s = (r, s') /\
    objs s' = objs s /\
    scheduledMessages s' = [].
Proof.
  cbv zeta.
  destruct (post_schedule_refused (H := utc)
              (mkBody "+15551230000" "" "2024-03-01T09:00:00.000Z" "")
              (boot nine true [] [])
              (Resolved (Failure 400 "Missing required fields: recipient, message, scheduledTime"))
              (boot nine true [] []) eq_refl)
    as (Ho & Ha & _); [discriminate|].
  do 2 eexists. split; [reflexivity|]. split; assumption.
Defined.

(** A request for "next week". *)
Lemma post_schedule_invalid_date_witness :
  exists s',
    post_schedule (H := utc) (birthday "next week" "") (boot nine true [] [])
      = (Rejected "Invalid time value", s') /\
    scheduledMessages s' = [].
Proof.
  destruct (post_schedule_invalid_date (H := utc) (birthday "next week" "")
              (boot nine true [] []) eq_refl eq_refl eq_refl)
    as (s' & Hrun & _ & Ha & _); [vm_compute; discriminate|reflexivity|].
  exists s'. split; assumption.
Defined.

(** A client on which every send times out. *)
Lemma sendWhatsAppMessage_calls_witness :
  let s := server "none" pending true [] timeouts in
  exists b s' evs,
    sendWhatsAppMessage (H := utc) 0%nat s = (Resolved b, s') /\
    log s' = evs /\
    (length (sends evs) <= 3)%nat /\
    (forall e, e ∈ sends evs -> e = ESendMessage "15551230000@c.us" "hi").
Proof.
  cbv zeta.
  destruct (sendWhatsAppMessage_calls (H := utc) 0%nat
              (server "none" pending true [] timeouts) (greeting "none" pending) eq_refl)
    as (b & s' & evs & Hrun & Hl & _ & Hn & Hall & _).
  exists b, s', evs. repeat split; assumption.
Defined.

(** The stores of the runs below are sound. *)
Lemma archive_sound : sound archive.
Proof.
  split.
  - intros l Hl. repeat (apply elem_of_cons in Hl as [->|Hl]; [vm_compute; eauto|]).
    inversion Hl.
  - apply (bool_decide_unpack _). vm_compute. exact I.
Qed.

Lemma server_sound repeat status connected gs ss :
  sound (server repeat status connected gs ss).
Proof.
  split.
  - intros l ->%list_elem_of_singleton. eexists. reflexivity.
  - apply NoDup_singleton.
Qed.

(** A day of the program: a creation, the QR code, the login, a tick. *)
Lemma run_sound_witness :
  let inputs :=
    [Api (PostSchedule (birthday "2024-01-31T10:00:00.000Z" "daily"));
     OnQr "2@abc"; OnReady; Tick; Sweep] in
  started (launch nine [] []) /\
  sound (core (run (host := utc) (platform := office) inputs (launch nine [] []))).
Proof.
  cbv zeta.
  assert (Hs : started (launch nine [] [])) by (repeat split).
  split; [exact Hs|]. apply (run_sound (host := utc) (platform := office)), Hs.
Defined.

(** The sent record of the archive, through a sweep, an edit and a tick. *)
Lemma run_keeps_terminal_witness :
  let inputs := [Sweep; Api (PutMessage "msg-0" (mkBody "" "changed" "" "")); Tick] in
  exists m,
    objs archive !! 0%nat = Some m /\
    Msg.status m = sent /\
    objs (core (run (host := utc) (platform := office) inputs (around archive))) !! 0%nat
    = Some m.
Proof.
  cbv zeta. eexists. split; [reflexivity|]. split; [reflexivity|].
  apply (run_keeps_terminal (host := utc) (platform := office)).
  - exact archive_sound.
  - reflexivity.
  - discriminate.
Defined.

(** The daily message, through a tick and a sweep. *)
Lemma run_keeps_content_witness :
  let b := around (server "daily" pending true [] []) in
  exists m',
    objs (core (run (host := utc) (platform := office) [Tick; Sweep] b)) !! 0%nat
    = Some m' /\
    Msg.id m' = "msg-0" /\
    Msg.recipient m' = "+15551230000" /\
    Msg.message m' = "hi".
Proof.
  cbv zeta.
  destruct (run_keeps_content (host := utc) (platform := office) [Tick; Sweep]
              (around (server "daily" pending true [] [])) 0%nat (greeting "daily" pending)
              (server_sound _ _ _ _ _) eq_refl)
    as (m' & Hm' & Hid & _ & _ & Hcontent).
  destruct (Hcontent eq_refl) as (Hr & Hb & _).
  exists m'. repeat split; assumption.
Defined.

(** The login: the image goes when the client is ready. *)
Lemma connected_shows_no_qr_witness :
  let b := run (host := utc) (platform := office) [OnQr "2@abc"; OnReady] (launch nine [] []) in
  connected (get_status b) = true /\
  qr (get_status b) = None /\
  phone (get_status b) = Some "15551230000".
Proof.
  cbv zeta.
  destruct (connected_shows_no_qr (host := utc) (platform := office)
              [OnQr "2@abc"; OnReady] (launch nine [] []))
    as [Hq _]; [repeat split|reflexivity|].
  split; [reflexivity|]. split; [exact Hq|reflexivity].
Defined.

(** A run in which the client is ready once. *)
Lemma connected_after_ready_witness :
  let inputs := [OnQr "2@abc"; OnReady; Heartbeat] in
  isConnected (core (run (host := utc) (platform := office) inputs (launch nine [] [])))
  = true /\
  OnReady ∈ inputs.
Proof.
  cbv zeta. split; [reflexivity|].
  apply (connected_after_ready (host := utc) (platform := office) _ (launch nine [] []));
    reflexivity.
Defined.

(** The sweep of the archive, which drops the old sent record. *)
Lemma pending_count_kept_witness :
  pendingMessages (get_status (around archive)) = 1%nat /\
  pendingMessages
    (get_status (handle (host := utc) (platform := office) Sweep (around archive)))
  = 1%nat /\
  scheduledMessages (core (handle (host := utc) (platform := office) Sweep (around archive)))
  = [1%nat; 2%nat].
Proof.
  split; [reflexivity|]. split; [|vm_compute; reflexivity].
  rewrite (pending_count_kept (host := utc) (platform := office) Sweep (around archive))
    by (left; reflexivity).
  reflexivity.
Defined.

(** A second pending message. *)
Lemma post_schedule_counts_witness :
  let b := around (server "none" pending true [] []) in
  let body := birthday "2024-03-01T09:00:00.000Z" "" in
  pendingMessages
    (get_status (handle (host := utc) (platform := office) (Api (PostSchedule body)) b))
  = 2%nat.
Proof.
  cbv zeta.
  rewrite (post_schedule_counts (host := utc) (platform := office)
             (birthday "2024-03-01T09:00:00.000Z" "")
             (around (server "none" pending true [] [])) _ _
             (proj1 (server_sound _ _ _ _ _)) eq_refl).
  reflexivity.
Defined.

(** A client that answers CONFLICT. *)
Lemma heartbeat_takes_any_state_witness :
  let b := around (server "none" pending true [Resolved "CONFLICT"] []) in
  isConnected (core (heartbeat (host := utc) b)) = true /\
  exists s',
    attempt (H := utc) 0%nat (core b)
    = (Rejected "Client state is CONFLICT, not CONNECTED", s').
Proof.
  cbv zeta.
  destruct (heartbeat_takes_any_state (host := utc)
              (around (server "none" pending true [Resolved "CONFLICT"] []))
              "CONFLICT" (mkEnv (ten + 60000) 1 [] []) 0%nat eq_refl eq_refl)
    as (_ & Hc & Ha); [discriminate|].
  split; [exact Hc|]. eexists. exact Ha.
Defined.

(** The tick on the daily message, on a client that takes it. *)
Lemma dispatch_sends_witness :
  let s := server "daily" pending true [] [] in
  exists s' evs,
    dispatch (H := utc) s = (Resolved tt, s') /\
    log s' = evs /\
    (length (sends evs) <= 3)%nat /\
    (forall e, e ∈ sends evs -> e = ESendMessage "15551230000@c.us" "hi").
Proof.
  cbv zeta.
  destruct (dispatch_sends (H := utc) (server "daily" pending true [] [])
              (proj1 (server_sound _ _ _ _ _)))
    as (s' & stretches & Hrun & Hl & _ & Hn & Hall).
  exists s', (concat stretches). split; [exact Hrun|]. split; [exact Hl|].
  split; [exact Hn|].
  intros e He. destruct (Hall e He) as (l & m & Hin & Hm & _ & ->).
  apply list_elem_of_singleton in Hin as ->. cbn in Hm. injection Hm as <-. reflexivity.
Defined.

(** The tick on the daily message: one continuation, for the day after. *)
Lemma dispatch_continuations_witness :
  let s := server "daily" pending true [] [] in
  exists s' l child,
    dispatch (H := utc) s = (Resolved tt, s') /\
    scheduledMessages s' = [0%nat; l] /\
    objs s' !! l = Some child /\
    Msg.status child = pending /\
    Msg.parentId child = Some "msg-0".
Proof.
  cbv zeta.
  destruct (dispatch_continuations (H := utc) (server "daily" pending true [] [])
              (proj1 (server_sound _ _ _ _ _)))
    as (s' & families & Hrun & Harr & _ & _ & Hnew).
  assert (Hone : exists l, concat families = [l]).
  { vm_compute in Hrun. injection Hrun as <-. cbn in Harr.
    injection Harr as <-. eauto. }
  destruct Hone as [l Hone]. rewrite Hone in Harr, Hnew.
  destruct (Hnew l) as (_ & child & lp & parent & Hchild & Hst & Hin & Hparent & _ & _ & Hpar);
    [left|].
  apply list_elem_of_singleton in Hin as ->. cbn in Hparent. injection Hparent as <-.
  exists s', l, child. repeat split; assumption.
Defined.

End Sessions.
